(** * finance_tracker: the durable per-user record store of [main.py]

    A shallow embedding of the storage layer of the expense tracker
    (file helpers, user registry, balance ledger, expense journal and
    category rules) together with the properties its specification
    states about it. *)

From Stdlib Require Import ZArith Ascii String Floats.
From stdpp Require Import gmap strings list.

#[local] Set Warnings "-register-all".
Local Open Scope Z_scope.

(** ** Text: the substring test [k in s] and its relatives

    A text is kept as the bytes of its UTF-8 encoding.  One encoded text
    occurs in another at a character boundary only, so the three tests
    answer on the bytes as Python's answer on the characters. *)

Module Text.

(** [s.startswith(p)] *)
Fixpoint startswith (p s : string) : bool :=
  match p, s with
  | EmptyString, _ => true
  | String _ _, EmptyString => false
  | String a p', String b s' => if decide (a = b) then startswith p' s' else false
  end.

(** [k in s] for two strings: [k] occurs in [s] at some position. *)
Fixpoint contains (k s : string) : bool :=
  startswith k s ||
  match s with
  | EmptyString => false
  | String _ s' => contains k s'
  end.

(** The mathematical notion the test decides. *)
Definition occurs_in (k s : string) : Prop :=
  ∃ a b, s = a +:+ k +:+ b.

(** [s.endswith(p)]: [p] is [s] or the end of what follows its first
    character. *)
Fixpoint endswith (p s : string) : bool :=
  bool_decide (s = p) ||
  match s with
  | EmptyString => false
  | String _ s' => endswith p s'
  end.

End Text.

(** ** Category rules: [categorize_expense] *)

(** The rules mapping, a dict in insertion order: category name to its
    keywords. *)
Abbreviation rules := (list (string * list string)).

Section Categories.

(** [s.lower()], Python's lowercasing of a text.  It is the Unicode one
    (letters outside A-Z move too, and a character may lower to more than
    one), so it is taken as the library gives it. *)
Variable str_lower : string → string.

(** The inner loop [for keyword in keywords: if keyword.lower() in
    description: return category]; [true] stands for the [return]. *)
Fixpoint scan_keywords (description : string) (keywords : list string) : bool :=
  match keywords with
  | [] => false
  | keyword :: rest =>
      if Text.contains (str_lower keyword) description then true
      else scan_keywords description rest
  end.

(** The outer loop over [categories.items()], falling through to
    [return "Other"]. *)
Fixpoint scan_categories (description : string) (categories : rules) : string :=
  match categories with
  | [] => "Other"
  | (category, keywords) :: rest =>
      if scan_keywords description keywords then category
      else scan_categories description rest
  end.

(** [description] is a text, which [str(description)] leaves as it is. *)
Definition categorize_expense (description : string) (categories : rules) : string :=
  let description := str_lower description in
  scan_categories description categories.

(** The rules mapping with every keyword lowercased. *)
Definition lower_keywords (categories : rules) : rules :=
  map (λ '(category, keywords), (category, map str_lower keywords)) categories.

(** A rules mapping whose keywords are lowercase already: lowercasing
    leaves each one as it is. *)
Definition lowercase_keywords (categories : rules) : bool :=
  forallb (λ '(_, keywords),
             forallb (λ keyword, bool_decide (str_lower keyword = keyword)) keywords)
    categories.

End Categories.

(** First match in mapping order, as a relation.  [norm] is what is done
    to a keyword before it is looked for in the description: the
    specification's wording takes the keyword as stored ([norm] the
    identity), the program lowercases it. *)
Inductive first_match (norm : string → string) (description : string)
  : rules → string → Prop :=
| first_match_none :
    first_match norm description [] "Other"
| first_match_here category keywords rest keyword :
    keyword ∈ keywords →
    Text.occurs_in (norm keyword) description →
    first_match norm description ((category, keywords) :: rest) category
| first_match_later category keywords rest result :
    (∀ keyword, keyword ∈ keywords → ¬ Text.occurs_in (norm keyword) description) →
    first_match norm description rest result →
    first_match norm description ((category, keywords) :: rest) result.

(** ** Values

    What [json.load] returns and [json.dump] takes.  A dict keeps its
    items in insertion order. *)
Inductive json :=
| JNull
| JBool (b : bool)
| JInt (z : Z)
| JFloat (f : float)
| JStr (s : string)
| JList (l : list json)
| JDict (items : list (string * json)).

Module Dict.
Section Ops.
Context {V : Type}.

(** [d.get(key)] *)
Fixpoint get (items : list (string * V)) (key : string) : option V :=
  match items with
  | [] => None
  | (k, v) :: rest => if decide (k = key) then Some v else get rest key
  end.

(** [d[key] = value]: an existing key keeps its place, a new one goes
    last. *)
Fixpoint set (items : list (string * V)) (key : string) (value : V)
  : list (string * V) :=
  match items with
  | [] => [(key, value)]
  | (k, v) :: rest =>
      if decide (k = key) then (k, value) :: rest
      else (k, v) :: set rest key value
  end.

(** [key in d] *)
Definition mem (items : list (string * V)) (key : string) : bool :=
  bool_decide (is_Some (get items key)).
End Ops.
End Dict.

(** A journal as pandas holds it: named columns of equal height. *)
Record date := Date { year : Z; month : Z; day : Z }.

Inductive cell :=
| CNone                 (* None / NaN: nothing stored *)
| CStr (s : string)
| CNum (f : float)
| CDate (d : date)
| CNaT.                 (* the missing date *)

Record dataframe := DataFrame {
  height : nat;
  columns : list (string * list cell)
}.

(** [pd.DataFrame(columns=names)] *)
Definition empty_frame (names : list string) : dataframe :=
  DataFrame 0 (map (λ name, (name, [])) names).

(** [col in df.columns] *)
Definition has_column (df : dataframe) (col : string) : bool :=
  Dict.mem (columns df) col.

(** [df[col] = value] for a scalar: the whole column takes the value. *)
Definition set_scalar (df : dataframe) (col : string) (value : cell) : dataframe :=
  DataFrame (height df) (Dict.set (columns df) col (replicate (height df) value)).

(** [df[col] = series] *)
Definition set_series (df : dataframe) (col : string) (series : list cell) : dataframe :=
  DataFrame (height df) (Dict.set (columns df) col series).

(** ** Files

    A file is recorded by what was written into it: the text [json.dump]
    writes for a document, the text [to_csv] writes for a table, the
    cut-off beginning of one of them (a write that stopped half way), or
    any other text.  [json.load] reads the document back from the first
    and rejects the others; what [pd.read_csv] makes of a text is pandas'
    own business, see [read_csv]. *)
Inductive content :=
| Json (j : json)
| Csv (df : dataframe)
| CutJson (j : json)
| CutCsv (df : dataframe)
| Junk (s : string).

(** Python exceptions the storage layer meets. *)
Inductive exn :=
| FileNotFoundError
| JSONDecodeError
| ParserError
| OSError
| TypeError
| AttributeError
| KeyError
| ValueError
| OverflowError
| UnboundLocalError.

(** [str(e)] *)
Definition exn_message (e : exn) : string :=
  match e with
  | FileNotFoundError => "No such file or directory"
  | JSONDecodeError => "Expecting value"
  | ParserError => "Error tokenizing data"
  | OSError => "Input/output error"
  | TypeError => "unsupported operand type"
  | AttributeError => "object has no attribute"
  | KeyError => "key not found"
  | ValueError => "could not convert"
  | OverflowError => "int too large to convert to float"
  | UnboundLocalError => "local variable referenced before assignment"
  end.

(** The world a call runs in.  [faults] is the fate of the operating
    system calls still to come, one flag per call ([true]: the call
    fails); once the list is used up every call succeeds.  [trace] keeps
    every state the file system went through, newest first: what a reader
    looking at the disk between two steps can find. *)
Inductive notice :=
| Error (msg : string)
| Success (msg : string).

Record world := World {
  fs : gmap string content;
  log : list string;
  ui : list notice;
  faults : list bool;
  trace : list (gmap string content)
}.

Inductive result (A : Type) :=
| Ok (a : A)
| Raise (e : exn).
Arguments Ok {A} a.
Arguments Raise {A} e.

(** State and exceptions. *)
Definition M (A : Type) : Type := world → result A * world.

#[global] Instance M_ret : MRet M := λ A a w, (Ok a, w).
#[global] Instance M_bind : MBind M := λ A B k c w,
  match c w with
  | (Ok a, w') => k a w'
  | (Raise e, w') => (Raise e, w')
  end.

Definition raise {A} (e : exn) : M A := λ w, (Raise e, w).

(** [try: body except Exception as e: handler e] *)
Definition try_except {A} (body : M A) (handler : exn → M A) : M A := λ w,
  match body w with
  | (Ok a, w') => (Ok a, w')
  | (Raise e, w') => handler e w'
  end.

Definition get_fs : M (gmap string content) := λ w, (Ok (fs w), w).

Definition put_fs (f : gmap string content) : M unit := λ w,
  (Ok tt, World f (log w) (ui w) (faults w) (f :: trace w)).

(** [logging.error(msg)] *)
Definition logging_error (msg : string) : M unit := λ w,
  (Ok tt, World (fs w) (msg :: log w) (ui w) (faults w) (trace w)).

(** [st.error(msg)] and [st.success(msg)] *)
Definition st_show (n : notice) : M unit := λ w,
  (Ok tt, World (fs w) (log w) (n :: ui w) (faults w) (trace w)).
Definition st_error (msg : string) : M unit := st_show (Error msg).
Definition st_success (msg : string) : M unit := st_show (Success msg).

(** The fate of the next operating system call. *)
Definition next_fault : M bool := λ w,
  match faults w with
  | [] => (Ok false, w)
  | b :: rest => (Ok b, World (fs w) (log w) (ui w) rest (trace w))
  end.

Definition io : M unit :=
  failed ← next_fault; if failed : bool then raise OSError else mret tt.

(** *** Operating system and library calls *)

(** [os.path.exists(path)] *)
Definition os_path_exists (path : string) : M bool :=
  f ← get_fs; mret (bool_decide (is_Some (f !! path))).

(** [os.makedirs(path, exist_ok=True)]: directories are not kept in the
    model, a missing or unwritable one shows as a failing call. *)
Definition os_makedirs (path : string) : M unit := io.

(** [open(path, 'w')]: the file is there and empty. *)
Definition open_w (path : string) : M unit :=
  io;; f ← get_fs; put_fs (<[path := Junk EmptyString]> f).

(** Writing a document into the open file [path]; a failing write leaves
    the beginning of it behind. *)
Definition write_document (path : string) (whole cut : content) : M unit :=
  failed ← next_fault;
  f ← get_fs;
  if failed : bool then put_fs (<[path := cut]> f);; raise OSError
  else put_fs (<[path := whole]> f).

(** [json.dump(data, f)] on the file opened at [path] *)
Definition json_dump (data : json) (path : string) : M unit :=
  write_document path (Json data) (CutJson data).

(** [with open(path, 'r') as f: json.load(f)] *)
Definition json_load (path : string) : M json :=
  f ← get_fs;
  match f !! path with
  | None => raise FileNotFoundError
  | Some c =>
      io;;
      match c with
      | Json j => mret j
      | _ => raise JSONDecodeError
      end
  end.

(** [os.remove(path)] *)
Definition os_remove (path : string) : M unit :=
  f ← get_fs;
  match f !! path with
  | None => raise FileNotFoundError
  | Some _ => io;; put_fs (delete path f)
  end.

(** [os.rename(src, dst)]; a file at [dst] is replaced, as on POSIX. *)
Definition os_rename (src dst : string) : M unit :=
  f ← get_fs;
  match f !! src with
  | None => raise FileNotFoundError
  | Some c => io;; put_fs (<[dst := c]> (delete src f))
  end.

(** [df.to_csv(path, index=False)] *)
Definition to_csv (df : dataframe) (path : string) : M unit :=
  open_w path;; write_document path (Csv df) (CutCsv df).

(** [pd.read_csv(path)].  pandas parses the text of the file anew and
    infers the type of every column from it, so the table it returns need
    not be the one [to_csv] was given cell for cell (a text cell [NA]
    comes back as a missing value, [007] as the number 7), and it makes a
    table of many a text that [to_csv] did not write.  [read_table c] is
    what pandas makes of a file that holds [c]: the table, or the
    exception it raises. *)
Definition read_csv (read_table : content → result dataframe)
    (path : string) : M dataframe :=
  f ← get_fs;
  match f !! path with
  | None => raise FileNotFoundError
  | Some c =>
      io;;
      match read_table c with
      | Ok table => mret table
      | Raise e => raise e
      end
  end.

(** *** The cache of [st.cache_data]

    [@st.cache_data(ttl=3600)] keeps what a call returned, under the
    arguments of the call (here the username), for an hour: a call for
    the same username within the hour, the cache not having been cleared,
    is answered from the cache and the body does not run.  Streamlit
    keeps with the value the notices the body showed ([st.error] in the
    file helpers) and shows them again when the call is answered from
    the cache.  A call the body raises in stores nothing.  [cache] is
    what earlier calls left; [live] tells whether the entry for the
    username, if there is one, is younger than the ttl (the clock is not
    part of the model).  The call returns the cache as it leaves it.
    [st.cache_data.clear()] is the empty cache. *)

(** The notices shown between two states of the world, newest first. *)
Definition shown_since (w w' : world) : list notice :=
  take (length (ui w') - length (ui w))%nat (ui w').

(** The world once notices have been shown again. *)
Definition shown_again (shown : list notice) (w : world) : world :=
  World (fs w) (log w) (shown ++ ui w) (faults w) (trace w).

(** A call, for [username], of the function [body] put under
    [@st.cache_data]. *)
Definition st_cache_data {A : Type} (body : string → M A)
    (cache : gmap string (A * list notice)) (live : bool) (username : string)
    : M (A * gmap string (A * list notice)) := λ w,
  let run :=
    match body username w with
    | (Ok value, w') =>
        (Ok (value, <[username := (value, shown_since w w')]> cache), w')
    | (Raise e, w') => (Raise e, w')
    end in
  match cache !! username with
  | Some (value, shown) =>
      if live then (Ok (value, cache), shown_again shown w) else run
  | None => run
  end.

(** [os.path.join(a, b)] *)
Definition os_path_join (a b : string) : string :=
  if Text.startswith "/" b then b
  else if decide (a = EmptyString) then b
  else if Text.endswith "/" a then a +:+ b
  else a +:+ "/" +:+ b.

(** *** Python's dynamic operations on loaded values

    None of them looks at the disk: each one yields a value or raises. *)

Definition lift {A} (r : result A) : M A := λ w, (r, w).

(** [key in container] *)
Definition py_in (key : string) (container : json) : result bool :=
  match container with
  | JDict items => Ok (Dict.mem items key)
  | JList l =>
      Ok (existsb (λ x, match x with JStr s => bool_decide (s = key) | _ => false end) l)
  | JStr s => Ok (Text.contains key s)
  | _ => Raise TypeError
  end.

(** [container[key]] with a string key *)
Definition py_getitem (container : json) (key : string) : result json :=
  match container with
  | JDict items =>
      match Dict.get items key with
      | Some v => Ok v
      | None => Raise KeyError
      end
  | _ => Raise TypeError
  end.

(** [container[key] = value] with a string key; the container is handed
    back, since the caller sees the change through its own reference. *)
Definition py_setitem (container : json) (key : string) (value : json) : result json :=
  match container with
  | JDict items => Ok (JDict (Dict.set items key value))
  | _ => Raise TypeError
  end.

(** [d.items()] *)
Definition py_items (d : json) : result (list (string * json)) :=
  match d with
  | JDict items => Ok items
  | _ => Raise AttributeError
  end.

(** [d.get(key, default)] *)
Definition py_get (d : json) (key : string) (default : json) : result json :=
  match d with
  | JDict items => Ok (from_option id default (Dict.get items key))
  | _ => Raise AttributeError
  end.

(** A path component handed to [os.path.join] has to be a string. *)
Definition py_path_component (v : json) : result string :=
  match v with
  | JStr s => Ok s
  | _ => Raise TypeError
  end.

(** [float(n)] for a Python int: the nearest double, or OverflowError. *)
Definition float_of_int (z : Z) : result float :=
  match binary_normalize prec emax z 0 false with
  | S754_infinity _ => Raise OverflowError
  | sf => Ok (SF2Prim sf)
  end.

(** ** The storage layer of [main.py] *)

Definition USERS_FILE : string := "users.json".
Definition users_path : string := os_path_join "data" USERS_FILE.
Definition users_dir : string := os_path_join "data" "users".

(** [os.path.join('data', 'users', name)] *)
Definition user_path (name : string) : string := os_path_join users_dir name.

Definition data_name (username : string) : string :=
  "user_" +:+ username +:+ "_data.csv".
Definition categories_name (username : string) : string :=
  "user_" +:+ username +:+ "_categories.json".
Definition balance_name (username : string) : string :=
  "user_" +:+ username +:+ "_balance.json".

(** [{"balance": b}] *)
Definition balance_doc (b : float) : json := JDict [("balance", JFloat b)].

Definition journal_columns : list string :=
  ["Date"; "Description"; "Category"; "Amount"].

Definition default_categories : json :=
  JDict [("Food", JList [JStr "grocery"; JStr "restaurant"; JStr "lunch"]);
         ("Transport", JList [JStr "uber"; JStr "taxi"; JStr "gas"]);
         ("Entertainment", JList [JStr "movie"; JStr "game"; JStr "concert"]);
         ("Bills", JList [JStr "electric"; JStr "water"; JStr "internet"])].

Definition ensure_directory_exists : M bool :=
  try_except
    (os_makedirs users_dir;;
     there ← os_path_exists users_path;
     (if negb there then open_w users_path;; json_dump (JDict []) users_path
      else mret tt);;
     mret true)
    (λ e,
       logging_error ("Directory creation error: " +:+ exn_message e);;
       st_error ("Failed to initialize data storage: " +:+ exn_message e);;
       mret false).

Definition safe_json_read (filepath : string) (default : json) : M json :=
  try_except
    (json_load filepath)
    (λ e,
       match e with
       | FileNotFoundError | JSONDecodeError => mret default
       | _ =>
           logging_error ("Error reading " +:+ filepath +:+ ": " +:+ exn_message e);;
           st_error ("Error reading data: " +:+ exn_message e);;
           mret default
       end).

Definition safe_json_write (filepath : string) (data : json) : M bool :=
  let temp_file := filepath +:+ ".tmp" in
  try_except
    (open_w temp_file;;
     json_dump data temp_file;;
     there ← os_path_exists filepath;
     (if there : bool then os_remove filepath else mret tt);;
     os_rename temp_file filepath;;
     mret true)
    (λ e,
       logging_error ("Error writing to " +:+ filepath +:+ ": " +:+ exn_message e);;
       there ← os_path_exists temp_file;
       (if there : bool then os_remove temp_file else mret tt);;
       st_error ("Error saving data: " +:+ exn_message e);;
       mret false).

(** The body of the loop of [load_users] for one account; the record is
    changed in place, so the changed record is what the registry holds
    afterwards. *)
Definition heal_account (username : string) (user_data : json) : M json :=
  has_ref ← lift (py_in "balance_file" user_data);
  if negb has_ref then
    user_data ← lift (py_setitem user_data "balance_file" (JStr (balance_name username)));
    name ← lift (py_getitem user_data "balance_file");
    name ← lift (py_path_component name);
    let balance_file := user_path name in
    there ← os_path_exists balance_file;
    (if negb there then safe_json_write balance_file (balance_doc 0);; mret tt
     else mret tt);;
    mret user_data
  else mret user_data.

(** [for username, user_data in users.items(): ...] *)
Fixpoint heal_accounts (items : list (string * json)) : M (list (string * json)) :=
  match items with
  | [] => mret []
  | (username, user_data) :: rest =>
      user_data ← heal_account username user_data;
      rest ← heal_accounts rest;
      mret ((username, user_data) :: rest)
  end.

Definition load_users : M json :=
  ensure_directory_exists;;
  users ← safe_json_read users_path (JDict []);
  items ← lift (py_items users);
  items ← heal_accounts items;
  let users := JDict items in
  safe_json_write users_path users;;
  mret users.

Section Store.

(** Library functions the program calls and the repository does not
    define. *)
Variable float_of_str : string → option float.       (* float(s) *)
Variable sha256_hexdigest : string → string.         (* hashlib.sha256(..).hexdigest() *)
Variable to_datetime_date : list cell → option (list cell).
                                                     (* pd.to_datetime(col).dt.date *)
Variable read_table : content → result dataframe. (* pd.read_csv on the text of a file *)

(** [float(v)] *)
Definition py_float (v : json) : result float :=
  match v with
  | JFloat f => Ok f
  | JInt z => float_of_int z
  | JBool b => Ok (if b then 1 else 0)%float
  | JStr s =>
      match float_of_str s with
      | Some f => Ok f
      | None => Raise ValueError
      end
  | JNull | JList _ | JDict _ => Raise TypeError
  end.

Definition hash_password (password : string) : string :=
  sha256_hexdigest password.

Definition verify_password (stored_hash password : string) : bool :=
  bool_decide (stored_hash = hash_password password).

Definition get_user_balance (username : string) : M float :=
  users ← load_users;
  registered ← lift (py_in username users);
  if negb registered then mret 0%float else
  user_files ← lift (py_getitem users username);
  name ← lift (py_getitem user_files "balance_file");
  name ← lift (py_path_component name);
  let balance_file := user_path name in
  try_except
    (there ← os_path_exists balance_file;
     if there : bool then
       doc ← json_load balance_file;
       v ← lift (py_get doc "balance" (JFloat 0));
       lift (py_float v)
     else mret 0%float)
    (λ e,
       logging_error ("Error reading balance for " +:+ username +:+ ": " +:+ exn_message e);;
       mret 0%float).

(** The [except] clause of [update_user_balance]; [temp_file] is bound
    only once the body has got past reading the balance. *)
Definition update_failed (username : string) (temp_file : option string)
    (e : exn) : M bool :=
  logging_error ("Error updating balance for " +:+ username +:+ ": " +:+ exn_message e);;
  match temp_file with
  | None => raise UnboundLocalError
  | Some temp_file =>
      there ← os_path_exists temp_file;
      (if there : bool then os_remove temp_file else mret tt);;
      st_error ("Failed to update balance: " +:+ exn_message e);;
      mret false
  end.

Definition update_user_balance (username : string) (amount : float) : M bool :=
  users ← load_users;
  registered ← lift (py_in username users);
  if negb registered then st_error "User not found";; mret false else
  user_files ← lift (py_getitem users username);
  name ← lift (py_getitem user_files "balance_file");
  name ← lift (py_path_component name);
  let balance_file := user_path name in
  read ← try_except
            (current_balance ← get_user_balance username; mret (inl current_balance))
            (λ e, r ← update_failed username None e; mret (inr r));
  match read with
  | inr r => mret r
  | inl current_balance =>
      let new_balance := (current_balance + amount)%float in
      let temp_file := balance_file +:+ ".tmp" in
      try_except
        (open_w temp_file;;
         json_dump (balance_doc new_balance) temp_file;;
         there ← os_path_exists balance_file;
         (if there : bool then os_remove balance_file else mret tt);;
         os_rename temp_file balance_file;;
         mret true)
        (update_failed username (Some temp_file))
  end.

Definition account_record (username password : string) : json :=
  JDict [("password_hash", JStr (hash_password password));
         ("data_file", JStr (data_name username));
         ("categories_file", JStr (categories_name username));
         ("balance_file", JStr (balance_name username))].

Definition save_user (username password : string) : M bool :=
  ensure_directory_exists;;
  users ← load_users;
  let user_data := account_record username password in
  try_except
    (os_makedirs users_dir;;
     data_file ← (name ← lift (py_getitem user_data "data_file");
                   name ← lift (py_path_component name); mret (user_path name));
     to_csv (empty_frame journal_columns) data_file;;
     categories_file ← (name ← lift (py_getitem user_data "categories_file");
                         name ← lift (py_path_component name); mret (user_path name));
     safe_json_write categories_file default_categories;;
     balance_file ← (name ← lift (py_getitem user_data "balance_file");
                      name ← lift (py_path_component name); mret (user_path name));
     safe_json_write balance_file (balance_doc 0);;
     users ← lift (py_setitem users username user_data);
     safe_json_write users_path users;;
     mret true)
    (λ e,
       logging_error ("Error creating user " +:+ username +:+ ": " +:+ exn_message e);;
       st_error ("Failed to create account: " +:+ exn_message e);;
       mret false).

(** The "Create Account" button of [main]. *)
Definition create_account (new_user new_pass confirm_pass : string) : M unit :=
  if bool_decide (new_user = EmptyString) || bool_decide (new_pass = EmptyString) then
    st_error "Username and password are required"
  else if negb (bool_decide (new_pass = confirm_pass)) then
    st_error "Passwords don't match"
  else
    users ← load_users;
    taken ← lift (py_in new_user users);
    if taken : bool then st_error "Username already exists"
    else
      created ← save_user new_user new_pass;
      if created : bool then st_success "Account created successfully! Please login"
      else st_error "Failed to create account".

(** The loop over [required_columns] of [load_user_data]. *)
Fixpoint fill_columns (required : list string) (df : dataframe) : dataframe :=
  match required with
  | [] => df
  | col :: rest =>
      let df :=
        if negb (has_column df col)
        then set_scalar df col (if decide (col = "Amount") then CNum 0 else CNone)
        else df in
      fill_columns rest df
  end.

(** [df[col]] *)
Definition frame_column (df : dataframe) (col : string) : M (list cell) :=
  match Dict.get (columns df) col with
  | Some series => mret series
  | None => raise KeyError
  end.

(** The body of [load_user_data]: what a call does when the cache does
    not answer it. *)
Definition load_user_data_body (username : string) : M dataframe :=
  users ← load_users;
  registered ← lift (py_in username users);
  if negb registered then mret (empty_frame journal_columns) else
  user_files ← lift (py_getitem users username);
  name ← lift (py_getitem user_files "data_file");
  name ← lift (py_path_component name);
  let data_file := user_path name in
  try_except
    (df ← read_csv read_table data_file;
     let df := fill_columns journal_columns df in
     df ← (if has_column df "Date" then
             series ← frame_column df "Date";
             match to_datetime_date series with
             | Some dates => mret (set_series df "Date" dates)
             | None => raise ValueError
             end
           else mret df);
     mret df)
    (λ e,
       logging_error ("Error loading data for " +:+ username +:+ ": " +:+ exn_message e);;
       mret (empty_frame journal_columns)).

(** [load_user_data] as its callers have it, under
    [@st.cache_data(ttl=3600)]. *)
Definition load_user_data (cache : gmap string (dataframe * list notice)) (live : bool)
    (username : string) : M (dataframe * gmap string (dataframe * list notice)) :=
  st_cache_data load_user_data_body cache live username.

(** The scalar a balance file holds, as [get_user_balance] reads it:
    [float(json.load(f).get("balance", 0.0))]. *)
Definition read_balance (doc : json) : result float :=
  match py_get doc "balance" (JFloat 0) with
  | Ok v => py_float v
  | Raise e => Raise e
  end.

(** The same on the content of the balance file: text that is not JSON
    stops [json.load]. *)
Definition read_balance_file (c : content) : result float :=
  match c with
  | Json doc => read_balance doc
  | _ => Raise JSONDecodeError
  end.

(** The balance a file holds when it is readable. *)
Definition stored_balance (c : content) : option float :=
  match read_balance_file c with
  | Ok b => Some b
  | Raise _ => None
  end.

End Store.

(** ** Vocabulary of the statements *)

(** Does the next operating system call fail? *)
Definition next_call_fails (w : world) : bool :=
  match faults w with
  | b :: _ => b
  | [] => false
  end.

(** What [safe_json_write filepath data] may show at [filepath] to a
    reader of the disk [f], when it started from [before]: the content
    from before the call, no file, or the whole new document. *)
Definition never_partial (filepath : string) (data : json) (before : world)
    (f : gmap string content) : Prop :=
  f !! filepath = fs before !! filepath ∨
  f !! filepath = None ∨
  f !! filepath = Some (Json data).

(** The registry as [load_users] finds it on disk: the stored mapping, the
    empty one when the file is missing or does not parse, and nothing when
    the file holds JSON that is not a mapping. *)
Definition stored_registry (f : gmap string content) : option (list (string * json)) :=
  match f !! users_path with
  | Some (Json (JDict items)) => Some items
  | Some (Json _) => None
  | _ => Some []
  end.

(** An account record is a mapping. *)
Definition is_record (account : string * json) : Prop :=
  ∃ fields, account.2 = JDict fields.

(** The balance-file reference of a record, when it has one. *)
Definition balance_ref (record : json) : option json :=
  match record with
  | JDict fields => Dict.get fields "balance_file"
  | _ => None
  end.

(** What loading does to one record, and to the registry. *)
Definition heal_record (username : string) (record : json) : json :=
  match record with
  | JDict fields =>
      if Dict.mem fields "balance_file" then record
      else JDict (Dict.set fields "balance_file" (JStr (balance_name username)))
  | _ => record
  end.

Definition heal_items (items : list (string * json)) : list (string * json) :=
  map (λ '(username, record), (username, heal_record username record)) items.

(** The path of the balance file of a record: the stored reference, or
    the synthesized one for a record without reference. *)
Definition balance_path (username : string) (record : json) : option string :=
  match balance_ref record with
  | Some (JStr name) => Some (user_path name)
  | Some _ => None
  | None => Some (user_path (balance_name username))
  end.

(** A path the registry load leaves alone when a file is there: not the
    registry itself and not a temporary sibling. *)
Definition private_path (path : string) : Prop :=
  path ≠ users_path ∧ Text.endswith ".tmp" path = false.

(** What loading does to the disk.  The registry file is made when there
    is none; an account without reference gets a balance file with
    balance 0 unless a file is there already; the registry is written
    back through its temporary sibling. *)
Definition ensured_disk (f : gmap string content) : gmap string content :=
  match f !! users_path with
  | Some _ => f
  | None => <[users_path := Json (JDict [])]> f
  end.

Definition written_disk (path : string) (data : json) (f : gmap string content)
  : gmap string content :=
  <[path := Json data]> (delete (path +:+ ".tmp") f).

Definition heal_disk (username : string) (record : json) (f : gmap string content)
  : gmap string content :=
  match balance_ref record with
  | Some _ => f
  | None =>
      let balance_file := user_path (balance_name username) in
      match f !! balance_file with
      | Some _ => f
      | None => written_disk balance_file (balance_doc 0) f
      end
  end.

Fixpoint heal_disks (items : list (string * json)) (f : gmap string content)
  : gmap string content :=
  match items with
  | [] => f
  | (username, record) :: rest => heal_disks rest (heal_disk username record f)
  end.

Definition loaded_disk (items : list (string * json)) (f : gmap string content)
  : gmap string content :=
  written_disk users_path (JDict (heal_items items)) (heal_disks items (ensured_disk f)).

(** The last character of a string. *)
Fixpoint last_ascii (s : string) : option ascii :=
  match s with
  | EmptyString => None
  | String c s' =>
      match last_ascii s' with
      | Some d => Some d
      | None => Some c
      end
  end.

(** The Date column [load_user_data] hands to pandas: the one of the
    table it read, or the column of [None] it has just added. *)
Definition date_series (df : dataframe) : list cell :=
  from_option id (replicate (height df) CNone) (Dict.get (columns df) "Date").

(** The data-file reference of a record. *)
Definition data_ref (record : json) : option json :=
  match record with
  | JDict fields => Dict.get fields "data_file"
  | _ => None
  end.

(** A cache of [load_user_data] that holds only tables with the four
    columns of the journal: what the empty cache is, and what every load
    leaves. *)
Definition journal_cache (cache : gmap string (dataframe * list notice)) : Prop :=
  ∀ username kept shown, cache !! username = Some (kept, shown) →
    ∀ col, col ∈ journal_columns → has_column kept col = true.

(** A call the cache does not answer: nothing is kept for the username,
    or what is kept is older than the ttl. *)
Definition cache_miss {A : Type} (cache : gmap string A) (live : bool)
    (username : string) : bool :=
  negb (bool_decide (is_Some (cache !! username)) && live).

(** The line [load_user_data] logs when reading the journal fails. *)
Definition load_failed (username : string) (e : exn) : string :=
  "Error loading data for " +:+ username +:+ ": " +:+ exn_message e.

(** A world with the given files on disk, the given fate for the calls to
    come, and nothing logged, shown or traced yet. *)
Definition world_of (files : list (string * content)) (fl : list bool) : world :=
  World (list_to_map files) [] [] fl [].

(** ** More of [main.py]: categories, journal writes, login and the
    account handlers *)

(** [del d[key]] on the items of a dict. *)
Fixpoint dict_del (items : list (string * json)) (key : string) : list (string * json) :=
  match items with
  | [] => []
  | (k, v) :: rest => if decide (k = key) then rest else (k, v) :: dict_del rest key
  end.

(** [del container[key]] *)
Definition py_delitem (container : json) (key : string) : result json :=
  match container with
  | JDict items =>
      match Dict.get items key with
      | Some _ => Ok (JDict (dict_del items key))
      | None => Raise KeyError
      end
  | _ => Raise TypeError
  end.

(** [stored == text] for a loaded value and a string. *)
Definition py_eq_str (stored : json) (text : string) : bool :=
  match stored with
  | JStr s => bool_decide (s = text)
  | _ => false
  end.

(** [{"Other": []}] *)
Definition other_only : json := JDict [("Other", JList [])].

(** [os.path.join('data', 'users', user_files[key])] *)
Definition user_file (user_files : json) (key : string) : M string :=
  name ← lift (py_getitem user_files key);
  name ← lift (py_path_component name);
  mret (user_path name).

(** [if os.path.exists(path): os.unlink(path)] *)
Definition unlink_if_exists (path : string) : M unit :=
  there ← os_path_exists path;
  if there : bool then os_remove path else mret tt.

(** The body of [load_user_categories]: what a call does when the cache
    does not answer it. *)
Definition load_user_categories_body (username : string) : M json :=
  users ← load_users;
  registered ← lift (py_in username users);
  if negb registered then mret other_only else
  user_files ← lift (py_getitem users username);
  categories_file ← user_file user_files "categories_file";
  safe_json_read categories_file other_only.

(** [load_user_categories] as its callers have it, under
    [@st.cache_data(ttl=3600)]. *)
Definition load_user_categories (cache : gmap string (json * list notice)) (live : bool)
    (username : string) : M (json * gmap string (json * list notice)) :=
  st_cache_data load_user_categories_body cache live username.

Definition save_user_categories (username : string) (categories : json) : M bool :=
  users ← load_users;
  registered ← lift (py_in username users);
  if negb registered then mret false else
  user_files ← lift (py_getitem users username);
  categories_file ← user_file user_files "categories_file";
  safe_json_write categories_file categories.

Section Handlers.

Variable float_of_str : string → option float.       (* float(s) *)
Variable sha256_hexdigest : string → string.         (* hashlib.sha256(..).hexdigest() *)
Variable str_of_cell : cell → string.                (* str(x), as astype(str) applies it *)

(** [df['Date'] = df['Date'].astype(str)] when the frame has the column. *)
Definition dates_as_text (df : dataframe) : dataframe :=
  match Dict.get (columns df) "Date" with
  | Some series => set_series df "Date" (map (λ c, CStr (str_of_cell c)) series)
  | None => df
  end.

Definition save_user_data (username : string) (df : dataframe) : M bool :=
  users ← load_users;
  registered ← lift (py_in username users);
  if negb registered then mret false else
  user_files ← lift (py_getitem users username);
  data_file ← user_file user_files "data_file";
  let df_to_save := dates_as_text df in
  let temp_file := data_file +:+ ".tmp" in
  try_except
    (to_csv df_to_save temp_file;;
     unlink_if_exists data_file;;
     os_rename temp_file data_file;;
     mret true)
    (λ e,
       logging_error ("Error saving data for " +:+ username +:+ ": " +:+ exn_message e);;
       unlink_if_exists temp_file;;
       st_error ("Failed to save data: " +:+ exn_message e);;
       mret false).

(** The "Login" button of [main]: [true] when the session moves on to the
    application as [login_user]. *)
Definition login (login_user login_pass : string) : M bool :=
  users ← load_users;
  known ← lift (py_in login_user users);
  accepted ← (if known : bool then
                record ← lift (py_getitem users login_user);
                stored_hash ← lift (py_getitem record "password_hash");
                mret (py_eq_str stored_hash (hash_password sha256_hexdigest login_pass))
              else mret false);
  if accepted : bool then mret true
  else st_error "Invalid username or password";; mret false.

(** The "Delete All Financial Data" button, once confirmed.  After the
    success notice the handler also calls [st.cache_data.clear()]: the
    loads that follow start from the empty cache. *)
Definition delete_financial_data (username : string) : M unit :=
  users ← load_users;
  registered ← lift (py_in username users);
  if registered : bool then
    user_files ← lift (py_getitem users username);
    try_except
      (data_file ← user_file user_files "data_file";
       to_csv (empty_frame journal_columns) data_file;;
       balance_file ← user_file user_files "balance_file";
       safe_json_write balance_file (balance_doc 0);;
       st_success "All financial data has been permanently deleted!")
      (λ e, st_error ("Error deleting data: " +:+ exn_message e))
  else mret tt.

(** The "Close Entire Account" button, once confirmed. *)
Definition close_account (username : string) : M unit :=
  users ← load_users;
  registered ← lift (py_in username users);
  if registered : bool then
    user_files ← lift (py_getitem users username);
    try_except
      (data_file ← user_file user_files "data_file";
       categories_file ← user_file user_files "categories_file";
       balance_file ← user_file user_files "balance_file";
       unlink_if_exists data_file;;
       unlink_if_exists categories_file;;
       unlink_if_exists balance_file;;
       users ← load_users;
       users ← lift (py_delitem users username);
       safe_json_write users_path users;;
       st_success "Account permanently deleted! Redirecting...")
      (λ e, st_error ("Error deleting account: " +:+ exn_message e))
  else mret tt.

(** [pd.concat([df, new], ignore_index=True)] for a frame [new] of one
    row: every column of [df] gets the value of the row, or nothing when
    the row has no such column; the columns only the row has come last,
    empty above the new value. *)
Definition concat_row (df : dataframe) (row : list (string * cell)) : dataframe :=
  DataFrame (S (height df))
    (map (λ '(col, series), (col, series ++ [from_option id CNone (Dict.get row col)]))
       (columns df)
     ++ map (λ '(col, value), (col, replicate (height df) CNone ++ [value]))
          (List.filter (λ '(col, _), negb (has_column df col)) row)).

(** [pd.DataFrame([[date, description, category, amount]], columns=...)] *)
Definition new_expense (date : cell) (description category : string) (amount : float)
  : list (string * cell) :=
  [("Date", date); ("Description", CStr description);
   ("Category", CStr category); ("Amount", CNum amount)].

(** [new_category_name if category == "Add new category..." and
    new_category_name else category] *)
Definition final_category (category new_category_name : string) : string :=
  if bool_decide (category = "Add new category...")
     && negb (bool_decide (new_category_name = EmptyString))
  then new_category_name else category.

(** The "Add Expense" button of [finance_app]; the table handed back is
    [st.session_state.expenses_df] after the click.  After the success
    notice the handler also calls [st.cache_data.clear()]: the loads that
    follow start from the empty cache. *)
Definition add_expense (username : string) (categories : json)
    (expenses_df : dataframe) (current_balance : float) (date : cell)
    (description : string) (amount : float) (category new_category_name : string)
  : M dataframe :=
  if bool_decide (description = EmptyString) then
    st_error "Please enter a description";; mret expenses_df
  else if (amount <=? 0)%float then
    st_error "Amount must be positive";; mret expenses_df
  else if (current_balance <? amount)%float then
    st_error "Expense exceeds your current balance";; mret expenses_df
  else
    let final_category := final_category category new_category_name in
    if bool_decide (final_category = "Add new category...")
       || bool_decide (final_category = EmptyString) then
      st_error "Please enter a valid category name";; mret expenses_df
    else
      known ← lift (py_in final_category categories);
      (if negb known then
         categories ← lift (py_setitem categories final_category (JList []));
         save_user_categories username categories;; mret tt
       else mret tt);;
      let expenses_df :=
        concat_row expenses_df (new_expense date description final_category amount) in
      saved ← save_user_data username expenses_df;
      committed ← (if saved : bool
                    then update_user_balance float_of_str username (- amount)%float
                    else mret false);
      if committed : bool then
        st_success "Expense added successfully!";; mret expenses_df
      else st_error "Failed to save expense";; mret expenses_df.

End Handlers.

(** A reference of a record under [key], when it is a string: the path it
    names. *)
Definition file_path (record : json) (key : string) : option string :=
  match record with
  | JDict fields =>
      match Dict.get fields key with
      | Some (JStr name) => Some (user_path name)
      | _ => None
      end
  | _ => None
  end.

(** The disk after a table has been put at [path] through its temporary
    sibling. *)
Definition written_table (path : string) (df : dataframe) (f : gmap string content)
  : gmap string content :=
  <[path := Csv df]> (delete (path +:+ ".tmp") f).

(** The number of failing calls among those to come. *)
Fixpoint failing (fl : list bool) : nat :=
  match fl with
  | [] => 0
  | b :: rest => ((if b : bool then 1 else 0) + failing rest)%nat
  end.

Definition failures (w : world) : nat := failing (faults w).

(** ** Sample data

    Stand-ins for the library functions and a small disk, for the
    statements tried on concrete input. *)

(** A stand-in for [str.lower] on ASCII text, where the two agree: the
    letters A-Z move to a-z, every other character stays as it is. *)
Definition sample_lower_ascii (c : ascii) : ascii :=
  let n := N_of_ascii c in
  if ((65 <=? n) && (n <=? 90))%N then ascii_of_N (n + 32) else c.

Fixpoint sample_lower (s : string) : string :=
  match s with
  | EmptyString => EmptyString
  | String c s' => String (sample_lower_ascii c) (sample_lower s')
  end.

(** A stand-in for pandas reading a file: the sample tables hold nothing
    that would come back as something else, and the other sample files
    are not read as tables. *)
Definition sample_read_table (c : content) : result dataframe :=
  match c with
  | Csv df => Ok df
  | _ => Raise ParserError
  end.

Definition sample_float_of_str (s : string) : option float :=
  if decide (s = "1.5") then Some 1.5%float else None.

Definition sample_digest (s : string) : string := "digest:" +:+ s.

Definition sample_dates (series : list cell) : option (list cell) :=
  Some (map (λ c, match c with
                  | CStr _ => CDate (Date 2024 1 5)
                  | _ => CNaT
                  end) series).

Definition alice_record : json := account_record sample_digest "alice" "pw1".

(** A journal stored without its Amount column. *)
Definition alice_journal : dataframe :=
  DataFrame 1 [("Date", [CStr "2024-01-05"]);
               ("Description", [CStr "uber ride"]);
               ("Category", [CStr "Transport"])].

Definition alice_disk : list (string * content) :=
  [("data/users.json", Json (JDict [("alice", alice_record)]));
   ("data/users/user_alice_balance.json", Json (balance_doc 500));
   ("data/users/user_alice_data.csv", Csv alice_journal)].

(** An account from before balances were kept: no balance-file
    reference and no balance file. *)
Definition legacy_record : json := JDict [("password_hash", JStr "digest:old")].

Definition legacy_disk : list (string * content) :=
  [("data/users.json", Json (JDict [("old", legacy_record)]))].

(** A registry entry with its three references and none of the files. *)
Definition bare_disk : list (string * content) :=
  [("data/users.json", Json (JDict [("alice", alice_record)]))].

(** A stand-in for [str(x)], and the disk of an account with its three
    files. *)
Definition sample_str_of_cell (c : cell) : string :=
  match c with
  | CStr s => s
  | CDate _ => "2024-01-05"
  | _ => "nan"
  end.

Definition alice_home : list (string * content) :=
  alice_disk ++ [("data/users/user_alice_categories.json", Json default_categories)].

(** * Properties *)

(** ** Text *)

Lemma sample_lower_ascii_idem c :
  sample_lower_ascii (sample_lower_ascii c) = sample_lower_ascii c.
Proof. destruct c as [[] [] [] [] [] [] [] []]; reflexivity. Qed.

Lemma sample_lower_idem s : sample_lower (sample_lower s) = sample_lower s.
Proof.
  induction s as [|c s IH]; [done|].
  cbn. by rewrite sample_lower_ascii_idem, IH.
Qed.

Lemma app_nil_l_str s : EmptyString +:+ s = s.
Proof. reflexivity. Qed.

Lemma app_cons_str c s t : String c s +:+ t = String c (s +:+ t).
Proof. reflexivity. Qed.

Lemma startswith_spec p s : Text.startswith p s = true ↔ ∃ b, s = p +:+ b.
Proof.
  revert s. induction p as [|a p IH]; intros s; cbn.
  - split; [intros _; by exists s | done].
  - destruct s as [|c s].
    + split; [done | intros [b Hb]; discriminate Hb].
    + case_decide as Hac.
      * subst c. rewrite IH. split; intros [b Hb]; exists b.
        -- by rewrite app_cons_str, Hb.
        -- rewrite app_cons_str in Hb. by injection Hb.
      * split; [done | intros [b Hb]].
        rewrite app_cons_str in Hb. injection Hb as Hc _. by subst.
Qed.

Lemma contains_spec k s : Text.contains k s = true ↔ Text.occurs_in k s.
Proof.
  induction s as [|c s IH]; cbn [Text.contains].
  - rewrite orb_false_r, startswith_spec. split.
    + intros [b Hb]. by exists EmptyString, b.
    + intros (a & b & Hab). destruct a; [by exists b | discriminate Hab].
  - rewrite orb_true_iff, IH, startswith_spec. split.
    + intros [[b Hb] | (a & b & Hab)].
      * by exists EmptyString, b.
      * exists (String c a), b. by rewrite app_cons_str, Hab.
    + intros (a & b & Hab). destruct a as [|c' a].
      * left. by exists b.
      * right. rewrite app_cons_str in Hab. injection Hab as _ Hs. by exists a, b.
Qed.

(** ** Category rules *)

(** The relation names at most one category. *)
Lemma first_match_functional norm description categories r1 r2 :
  first_match norm description categories r1 →
  first_match norm description categories r2 →
  r1 = r2.
Proof.
  intros H1. revert r2.
  induction H1 as [|c kws rest k Hin Hocc|c kws rest r Hno _ IH]; intros r2 H2;
    inversion H2 as [|c' kws' rest' k' Hin' Hocc'|c' kws' rest' r' Hno' Hrest'];
    subst; try done.
  - by destruct (Hno' k).
  - by destruct (Hno k').
  - by apply IH.
Qed.

(** Two ways of preparing the keywords that agree on the keywords of the
    mapping give the same first match. *)
Lemma first_match_ext norm1 norm2 description categories result :
  (∀ category keywords keyword,
     (category, keywords) ∈ categories → keyword ∈ keywords →
     norm1 keyword = norm2 keyword) →
  first_match norm1 description categories result →
  first_match norm2 description categories result.
Proof.
  intros Hsame Hfirst.
  induction Hfirst as [|c kws rest k Hin Hocc|c kws rest r Hno _ IH].
  - constructor.
  - apply first_match_here with k; [done|].
    rewrite <- (Hsame c kws k); [done | apply list_elem_of_here | done].
  - apply first_match_later.
    + intros k Hin. rewrite <- (Hsame c kws k); [by apply Hno | apply list_elem_of_here | done].
    + apply IH. intros c' kws' k' Hc Hk.
      apply (Hsame c' kws' k'); [by apply list_elem_of_further | done].
Qed.

Section CategoryFacts.

Variable str_lower : string → string.

Lemma scan_keywords_true description keywords :
  scan_keywords str_lower description keywords = true ↔
  ∃ keyword, keyword ∈ keywords ∧ Text.occurs_in (str_lower keyword) description.
Proof.
  induction keywords as [|k rest IH]; cbn.
  - split; [done | intros (k & Hk & _); by apply elem_of_nil in Hk].
  - destruct (Text.contains (str_lower k) description) eqn:Hk.
    + split; [intros _ | done]. exists k. split; [left | by apply contains_spec].
    + rewrite IH. split.
      * intros (k' & Hin & Hocc). exists k'. split; [by right | done].
      * intros (k' & Hin & Hocc). apply elem_of_cons in Hin as [-> | Hin].
        -- apply contains_spec in Hocc. congruence.
        -- by exists k'.
Qed.

Lemma scan_keywords_false description keywords :
  scan_keywords str_lower description keywords = false ↔
  ∀ keyword, keyword ∈ keywords → ¬ Text.occurs_in (str_lower keyword) description.
Proof.
  rewrite <- not_true_iff_false, scan_keywords_true. split.
  - intros Hno k Hin Hocc. apply Hno. by exists k.
  - intros Hno (k & Hin & Hocc). by apply (Hno k).
Qed.

(** What the program computes on any mapping: the first category, in the
    order of the mapping, one of whose keywords, lowercased, occurs in
    the lowercased description. *)
Lemma categorize_expense_lowered_match (description : string) (categories : rules) :
  first_match str_lower (str_lower description) categories
    (categorize_expense str_lower description categories).
Proof.
  unfold categorize_expense.
  induction categories as [|[category keywords] rest IH]; cbn.
  - constructor.
  - destruct (scan_keywords str_lower (str_lower description) keywords) eqn:Hscan.
    + apply scan_keywords_true in Hscan as (k & Hin & Hocc).
      by eapply first_match_here.
    + apply first_match_later; [by apply scan_keywords_false | done].
Qed.

Lemma lowercase_keywords_spec (categories : rules) :
  lowercase_keywords str_lower categories = true →
  ∀ category keywords keyword,
    (category, keywords) ∈ categories → keyword ∈ keywords →
    str_lower keyword = keyword.
Proof.
  unfold lowercase_keywords. rewrite forallb_forall.
  intros Hall category keywords keyword Hc Hk.
  apply list_elem_of_In in Hc. specialize (Hall _ Hc). cbn in Hall.
  rewrite forallb_forall in Hall.
  apply list_elem_of_In in Hk. specialize (Hall _ Hk).
  by apply bool_decide_eq_true in Hall.
Qed.

(** C6: on a rules mapping of lowercase keywords, the description is
    lowercased and the answer is the first category, in the order of the
    mapping, one of whose keywords occurs in the lowercased description;
    "Other" when no keyword of any category does. *)
Theorem categorize_expense_first_match (description : string) (categories : rules) :
  lowercase_keywords str_lower categories = true →
  first_match id (str_lower description) categories
    (categorize_expense str_lower description categories).
Proof.
  intros Hlower.
  apply first_match_ext with str_lower.
  - intros category keywords keyword Hc Hk.
    by apply (lowercase_keywords_spec categories Hlower category keywords).
  - apply categorize_expense_lowered_match.
Qed.

Lemma scan_keywords_lower description keywords :
  (∀ s, str_lower (str_lower s) = str_lower s) →
  scan_keywords str_lower description (map str_lower keywords) =
  scan_keywords str_lower description keywords.
Proof.
  intros Hidem. induction keywords as [|k rest IH]; [done|].
  cbn. by rewrite Hidem, IH.
Qed.

(** C9: lowercasing every stored keyword does not change the suggestion,
    each keyword being lowercased before it is looked for.  The one fact
    about [s.lower()] the statement rests on is that lowercasing a text
    that has been lowercased leaves it as it is. *)
Theorem categorize_expense_keyword_case (description : string) (categories : rules) :
  (∀ s, str_lower (str_lower s) = str_lower s) →
  categorize_expense str_lower description categories =
  categorize_expense str_lower description (lower_keywords str_lower categories).
Proof.
  intros Hidem. unfold categorize_expense.
  induction categories as [|[category keywords] rest IH]; [done|].
  cbn. by rewrite scan_keywords_lower, IH.
Qed.

End CategoryFacts.

(** ** Running the program

    The file helpers are straight-line code: they are run by unfolding the
    calls, and a case is made of every fault flag and of every file the
    run looks for. *)

Ltac unfold_calls :=
  unfold ensure_directory_exists, safe_json_read, safe_json_write,
    json_load, json_dump, to_csv, read_csv, write_document, open_w,
    os_makedirs, os_remove, os_rename, os_path_exists, io, next_fault,
    get_fs, put_fs, logging_error, st_error, st_success, st_show,
    try_except, raise, lift, mbind, M_bind, mret, M_ret.

Ltac lookups :=
  repeat first
    [ rewrite lookup_insert_eq
    | rewrite lookup_delete_eq
    | rewrite lookup_insert_ne by congruence
    | rewrite lookup_delete_ne by congruence ].

Ltac crunch :=
  repeat first
    [ progress cbn [fs log ui faults trace bool_decide decide_rel is_Some_dec negb]
    | progress lookups
    | match goal with
      | |- context [match ?fl with [] => _ | _ :: _ => _ end] =>
          is_var fl; destruct fl as [|[] fl]
      | |- context [?f !! ?p] =>
          is_var f;
          lazymatch goal with
          | H : f !! p = _ |- _ => rewrite H
          | _ => destruct (f !! p) eqn:?
          end
      end ].

Lemma tmp_ne p : p ≠ p +:+ ".tmp".
Proof.
  induction p as [|c p IH]; [done|].
  rewrite app_cons_str. intros H. injection H as H. done.
Qed.

Lemma endswith_spec p s : Text.endswith p s = true ↔ ∃ x, s = x +:+ p.
Proof.
  induction s as [|c s IH]; cbn [Text.endswith].
  - rewrite orb_false_r, bool_decide_eq_true. split.
    + intros <-. by exists EmptyString.
    + intros [x Hx]. destruct x; [done | discriminate Hx].
  - rewrite orb_true_iff, bool_decide_eq_true, IH. split.
    + intros [<- | [x ->]]; [by exists EmptyString | by exists (String c x)].
    + intros [[|c' x] Hx]; [by left | right].
      rewrite app_cons_str in Hx. injection Hx as _ ->. by exists x.
Qed.

Lemma endswith_tmp p : Text.endswith ".tmp" (p +:+ ".tmp") = true.
Proof. apply endswith_spec. by exists p. Qed.

(** ** The file helpers *)

(** C3: whatever the disk holds and whatever happens to the read,
    [safe_json_read] hands back a value and raises nothing: the stored
    document when the file is there, is read and parses, and the default
    otherwise.  The disk is left as it was. *)
Theorem safe_json_read_lenient (filepath : string) (default : json) (w : world) :
  ∃ w',
    safe_json_read filepath default w =
      (Ok (match fs w !! filepath with
           | Some (Json j) => if next_call_fails w then default else j
           | _ => default
           end), w')
    ∧ fs w' = fs w.
Proof.
  destruct w as [f l u fl tr]. unfold next_call_fails. unfold_calls.
  cbn [fs log ui faults trace].
  destruct (f !! filepath) as [c|] eqn:Hc; [|by eexists].
  destruct fl as [|[] fl]; cbn [fs log ui faults trace]; destruct c; by eexists.
Qed.

(** C1, as the program has it.  Throughout a call of [safe_json_write]
    the target holds what it held before, is missing, or holds the whole
    new document, never a part of it.  When the call fails while the
    temporary file is opened or written, the target is not touched at
    all, and, the removal of the temporary file going through, the call
    reports [False] and the temporary file is gone.  A call that reports
    [True] leaves the new document at the target. *)
Theorem safe_json_write_atomic (filepath : string) (data : json)
    (w : world) (r : result bool) (w' : world) :
  safe_json_write filepath data w = (r, w') →
  (∀ f, f ∈ fs w' :: trace w' → f ∈ trace w ∨ never_partial filepath data w f) ∧
  (∀ rest, faults w = true :: rest ∨ faults w = false :: true :: rest →
     (∀ f, f ∈ fs w' :: trace w' → f ∈ trace w ∨ f !! filepath = fs w !! filepath) ∧
     (rest = [] → r = Ok false ∧ fs w' !! (filepath +:+ ".tmp") = None)) ∧
  (r = Ok true →
     fs w' !! filepath = Some (Json data) ∧ fs w' !! (filepath +:+ ".tmp") = None).
Proof.
  destruct w as [f l u fl tr].
  pose proof (tmp_ne filepath) as Hne.
  unfold never_partial. unfold_calls. crunch.
  all: intros Heq; injection Heq as <- <-; cbn [fs log ui faults trace].
  all: split; [|split].
  all: try (intros g Hg; repeat (apply elem_of_cons in Hg as [-> | Hg]);
            auto; lookups; auto; fail).
  all: try (intros Hr; discriminate Hr).
  all: try (intros _; lookups; done).
  all: intros rest [Hr | Hr]; try discriminate Hr; injection Hr as Hr.
  all: split; [| intros Hrest; subst; try discriminate; lookups; done].
  all: intros g Hg; repeat (apply elem_of_cons in Hg as [-> | Hg]);
         auto; lookups; auto.
Qed.

Lemma safe_json_write_atomic_witness :
  let w := world_of [("data/users.json", Json (JDict []))] [false; true] in
  let data := JDict [("bob", JDict [])] in
  let run := safe_json_write "data/users.json" data w in
  (∀ f, f ∈ fs run.2 :: trace run.2 →
        f ∈ trace w ∨ f !! "data/users.json" = fs w !! "data/users.json") ∧
  run.1 = Ok false ∧ fs run.2 !! "data/users.json.tmp" = None.
Proof.
  intros w data run.
  destruct (safe_json_write_atomic "data/users.json" data w run.1 run.2)
    as (_ & Hearly & _); [vm_compute; reflexivity|].
  destruct (Hearly []) as [Hsame Hgone]; [right; reflexivity|].
  split; [exact Hsame | exact (Hgone eq_refl)].
Defined.

(** C1 as worded fails when the call fails in the renaming: the target has
    been removed by then, so the failed call leaves no file where the old
    content was.  And a call that goes through shows a disk without the
    target between the removal and the renaming. *)
Lemma safe_json_write_rename_failure_counterexample :
  let old := Json (JDict [("bob", JDict [])]) in
  let failing := world_of [("data/users.json", old)] [false; false; false; true] in
  let failed := safe_json_write "data/users.json" (JDict []) failing in
  let sound := world_of [("data/users.json", old)] [] in
  let done := safe_json_write "data/users.json" (JDict []) sound in
  (fs failing !! "data/users.json" = Some old ∧
   failed.1 = Ok false ∧
   fs failed.2 !! "data/users.json" = None) ∧
  (done.1 = Ok true ∧
   ∃ f, trace done.2 !! 1%nat = Some f ∧ f !! "data/users.json" = None).
Proof.
  cbv zeta. split; [by vm_compute|].
  split; [by vm_compute|].
  eexists. split; [vm_compute; reflexivity | by vm_compute].
Qed.

(** ** Runs without failing calls *)

Ltac same_disk :=
  apply map_eq; intros ?k;
  repeat first [rewrite lookup_insert | rewrite lookup_delete];
  repeat case_decide; subst; try congruence; try done.

Lemma safe_json_write_ok p j f l u tr :
  ∃ tr', safe_json_write p j (World f l u [] tr) =
           (Ok true, World (written_disk p j f) l u [] tr').
Proof.
  pose proof (tmp_ne p) as Hne. unfold written_disk. unfold_calls. crunch.
  all: eexists; f_equal; f_equal; same_disk.
Qed.

Lemma safe_json_read_ok p d f l u tr :
  safe_json_read p d (World f l u [] tr) =
    (Ok (match f !! p with Some (Json j) => j | _ => d end), World f l u [] tr).
Proof.
  unfold_calls. cbn [fs log ui faults trace].
  destruct (f !! p) as [[]|]; reflexivity.
Qed.

Lemma ensure_directory_exists_ok f l u tr :
  ∃ tr', ensure_directory_exists (World f l u [] tr) =
           (Ok true, World (ensured_disk f) l u [] tr').
Proof.
  unfold ensured_disk. unfold_calls. crunch.
  all: eexists; f_equal; f_equal; same_disk.
Qed.

Lemma dict_get_set_eq {V} (items : list (string * V)) k v :
  Dict.get (Dict.set items k v) k = Some v.
Proof.
  induction items as [|[k' v'] rest IH]; cbn.
  - by rewrite decide_True.
  - destruct (decide (k' = k)) as [->|Hne]; cbn.
    + by rewrite decide_True.
    + by rewrite decide_False.
Qed.

Lemma dict_get_set_ne {V} (items : list (string * V)) k k' v :
  k ≠ k' → Dict.get (Dict.set items k v) k' = Dict.get items k'.
Proof.
  intros Hne. induction items as [|[k0 v0] rest IH]; cbn.
  - by rewrite decide_False.
  - destruct (decide (k0 = k)) as [->|Hk]; cbn.
    + by rewrite !decide_False.
    + by rewrite IH.
Qed.

Lemma run_bind {A B} (c : M A) (k : A → M B) w :
  (c ≫= k) w =
  match c w with
  | (Ok a, w') => k a w'
  | (Raise e, w') => (Raise e, w')
  end.
Proof. reflexivity. Qed.

Lemma heal_account_ok username record f l u tr :
  is_record (username, record) →
  ∃ tr', heal_account username record (World f l u [] tr) =
           (Ok (heal_record username record),
            World (heal_disk username record f) l u [] tr').
Proof.
  intros [fields Hrec]. cbn in Hrec. subst record.
  unfold heal_account, heal_record, heal_disk, balance_ref.
  rewrite run_bind. unfold lift at 1. cbn [py_in]. unfold Dict.mem.
  destruct (Dict.get fields "balance_file") as [ref|] eqn:Href.
  - cbn. by eexists.
  - cbn [bool_decide decide_rel is_Some_dec negb].
    rewrite run_bind. unfold lift at 1. cbn [py_setitem].
    rewrite run_bind. unfold lift at 1. cbn [py_getitem].
    rewrite dict_get_set_eq.
    rewrite run_bind. unfold lift at 1. cbn [py_path_component].
    rewrite run_bind. unfold os_path_exists at 1.
    rewrite run_bind. unfold get_fs at 1. cbn [fs]. unfold mret at 1, M_ret at 1.
    destruct (f !! user_path (balance_name username)) as [c|] eqn:Hq.
    + cbn. by eexists.
    + cbn [bool_decide decide_rel is_Some_dec negb].
      rewrite !run_bind.
      destruct (safe_json_write_ok (user_path (balance_name username)) (balance_doc 0) f l u tr)
        as [tr' ->].
      cbn. by eexists.
Qed.

Lemma heal_accounts_ok items f l u tr :
  Forall is_record items →
  ∃ tr', heal_accounts items (World f l u [] tr) =
           (Ok (heal_items items), World (heal_disks items f) l u [] tr').
Proof.
  intros Hall. revert f tr.
  induction Hall as [|[username record] rest Hrec _ IH]; intros f tr.
  - cbn. by eexists.
  - cbn [heal_accounts heal_items heal_disks map].
    rewrite run_bind.
    destruct (heal_account_ok username record f l u tr Hrec) as [tr1 ->].
    rewrite run_bind.
    destruct (IH (heal_disk username record f) tr1) as [tr2 ->].
    cbn. by eexists.
Qed.

Lemma load_users_ok items f l u tr :
  stored_registry f = Some items →
  Forall is_record items →
  ∃ tr', load_users (World f l u [] tr) =
           (Ok (JDict (heal_items items)), World (loaded_disk items f) l u [] tr').
Proof.
  intros Hreg Hall. unfold load_users, loaded_disk.
  rewrite run_bind.
  destruct (ensure_directory_exists_ok f l u tr) as [tr1 ->].
  rewrite run_bind, safe_json_read_ok.
  assert (match ensured_disk f !! users_path with
          | Some (Json j) => j
          | _ => JDict []
          end = JDict items) as ->.
  { unfold ensured_disk, stored_registry in *.
    destruct (f !! users_path) as [c|] eqn:Hc.
    - rewrite Hc. destruct c as [[]| | | |]; congruence.
    - rewrite lookup_insert_eq. congruence. }
  rewrite run_bind. unfold lift at 1. cbn [py_items].
  rewrite run_bind.
  destruct (heal_accounts_ok items (ensured_disk f) l u tr1 Hall) as [tr2 ->].
  rewrite run_bind.
  destruct (safe_json_write_ok users_path (JDict (heal_items items))
              (heal_disks items (ensured_disk f)) l u tr2) as [tr3 ->].
  cbn. by eexists.
Qed.

Lemma last_ascii_app a s :
  last_ascii (a +:+ s) =
  match last_ascii s with
  | Some c => Some c
  | None => last_ascii a
  end.
Proof.
  induction a as [|c a IH].
  - rewrite app_nil_l_str. by destruct (last_ascii s).
  - rewrite app_cons_str. cbn [last_ascii]. rewrite IH.
    by destruct (last_ascii s).
Qed.

Lemma endswith_last p s c d :
  last_ascii p = Some c → last_ascii s = Some d → c ≠ d →
  Text.endswith p s = false.
Proof.
  intros Hp Hs Hne. apply not_true_iff_false. intros [x ->]%endswith_spec.
  rewrite last_ascii_app, Hp in Hs. congruence.
Qed.

Lemma user_path_relative name :
  Text.startswith "/" name = false → user_path name = "data/users/" +:+ name.
Proof. intros H. unfold user_path, os_path_join. by rewrite H. Qed.

Lemma user_path_balance username :
  user_path (balance_name username) = "data/users/user_" +:+ username +:+ "_balance.json".
Proof. by rewrite user_path_relative. Qed.

Lemma private_balance_path username : private_path (user_path (balance_name username)).
Proof.
  rewrite user_path_balance. split; [done|].
  eapply endswith_last; [reflexivity| |].
  - rewrite !last_ascii_app. reflexivity.
  - done.
Qed.

Lemma private_not_tmp p q : private_path p → p ≠ q +:+ ".tmp".
Proof.
  intros [_ Hp] ->. by rewrite endswith_tmp in Hp.
Qed.

Lemma written_disk_other path data f p :
  p ≠ path → p ≠ path +:+ ".tmp" → written_disk path data f !! p = f !! p.
Proof. intros. unfold written_disk. by lookups. Qed.

Lemma written_disk_target path data f :
  written_disk path data f !! path = Some (Json data).
Proof. unfold written_disk. by lookups. Qed.

Lemma heal_disk_present username record f p c :
  private_path p → f !! p = Some c → heal_disk username record f !! p = Some c.
Proof.
  intros Hp Hc. unfold heal_disk.
  destruct (balance_ref record); [done|].
  destruct (f !! user_path (balance_name username)) eqn:Hq; [done|].
  rewrite written_disk_other; [done | congruence | by apply private_not_tmp].
Qed.

Lemma heal_disk_absent username record f p :
  private_path p → f !! p = None →
  heal_disk username record f !! p = None ∨
  heal_disk username record f !! p = Some (Json (balance_doc 0)).
Proof.
  intros Hp Hc. unfold heal_disk.
  destruct (balance_ref record); [by left|].
  destruct (f !! user_path (balance_name username)) eqn:Hq; [by left|].
  destruct (decide (p = user_path (balance_name username))) as [->|Hne].
  - right. apply written_disk_target.
  - left. rewrite written_disk_other; [done | done | by apply private_not_tmp].
Qed.

Lemma heal_disks_present items f p c :
  private_path p → f !! p = Some c → heal_disks items f !! p = Some c.
Proof.
  intros Hp. revert f. induction items as [|[username record] rest IH]; intros f Hc.
  - done.
  - cbn. apply IH. by apply heal_disk_present.
Qed.

Lemma heal_disks_absent items f p :
  private_path p → f !! p = None →
  heal_disks items f !! p = None ∨
  heal_disks items f !! p = Some (Json (balance_doc 0)).
Proof.
  intros Hp. revert f. induction items as [|[username record] rest IH]; intros f Hc.
  - by left.
  - cbn. destruct (heal_disk_absent username record f p Hp Hc) as [Hn | Hs].
    + by apply IH.
    + right. by apply heal_disks_present.
Qed.

Lemma ensured_disk_other f p : p ≠ users_path → ensured_disk f !! p = f !! p.
Proof.
  intros Hp. unfold ensured_disk. destruct (f !! users_path); [done|]. by lookups.
Qed.

Lemma loaded_disk_present items f p c :
  private_path p → f !! p = Some c → loaded_disk items f !! p = Some c.
Proof.
  intros Hp Hc. unfold loaded_disk.
  rewrite written_disk_other; [| apply Hp | by apply private_not_tmp].
  apply heal_disks_present; [done|]. rewrite ensured_disk_other; [done | apply Hp].
Qed.

Lemma loaded_disk_absent items f p :
  private_path p → f !! p = None →
  loaded_disk items f !! p = None ∨
  loaded_disk items f !! p = Some (Json (balance_doc 0)).
Proof.
  intros Hp Hc. unfold loaded_disk.
  rewrite written_disk_other; [| apply Hp | by apply private_not_tmp].
  apply heal_disks_absent; [done|]. rewrite ensured_disk_other; [done | apply Hp].
Qed.

Lemma loaded_disk_registry items f :
  stored_registry (loaded_disk items f) = Some (heal_items items).
Proof.
  unfold stored_registry, loaded_disk. by rewrite written_disk_target.
Qed.

Lemma heal_disks_healed items f username record :
  (username, record) ∈ items → balance_ref record = None →
  is_Some (heal_disks items f !! user_path (balance_name username)).
Proof.
  revert f. induction items as [|[u r] rest IH]; intros f Hin Href.
  - by apply elem_of_nil in Hin.
  - cbn. apply elem_of_cons in Hin as [Heq | Hin]; [|by apply IH].
    injection Heq as <- <-.
    assert (is_Some (heal_disk username record f !! user_path (balance_name username)))
      as [c Hc].
    { unfold heal_disk. rewrite Href.
      destruct (f !! user_path (balance_name username)) eqn:Hq; [by rewrite Hq|].
      rewrite written_disk_target. by eexists. }
    exists c. apply heal_disks_present; [apply private_balance_path | done].
Qed.

Lemma loaded_disk_healed items f username record :
  (username, record) ∈ items → balance_ref record = None →
  is_Some (loaded_disk items f !! user_path (balance_name username)).
Proof.
  intros Hin Href. unfold loaded_disk.
  pose proof (private_balance_path username) as Hp.
  rewrite written_disk_other; [| apply Hp | by apply private_not_tmp].
  by eapply heal_disks_healed.
Qed.

Lemma heal_record_ref username record :
  is_record (username, record) →
  balance_ref (heal_record username record) =
  match balance_ref record with
  | Some ref => Some ref
  | None => Some (JStr (balance_name username))
  end.
Proof.
  intros [fields Hrec]. cbn in Hrec. subst. unfold heal_record, balance_ref, Dict.mem.
  destruct (Dict.get fields "balance_file") eqn:Href; cbn.
  - done.
  - apply dict_get_set_eq.
Qed.

Lemma heal_record_idem username record :
  heal_record username (heal_record username record) = heal_record username record.
Proof.
  destruct record as [| | | | | |fields]; try done.
  unfold heal_record, Dict.mem.
  destruct (Dict.get fields "balance_file") eqn:Href;
    cbn [bool_decide decide_rel is_Some_dec].
  - by rewrite Href.
  - by rewrite dict_get_set_eq.
Qed.

Lemma heal_items_idem items : heal_items (heal_items items) = heal_items items.
Proof.
  induction items as [|[u r] rest IH]; [done|].
  cbn [heal_items map]. fold (heal_items rest). fold (heal_items (heal_items rest)).
  by rewrite heal_record_idem, IH.
Qed.

Lemma heal_items_records items : Forall is_record items → Forall is_record (heal_items items).
Proof.
  induction 1 as [|[u r] rest [fields Hr] _ IH]; [constructor|].
  cbn in *. subst r. constructor; [|done].
  unfold is_record, heal_record. cbn. destruct (Dict.mem fields "balance_file"); by eexists.
Qed.

Lemma heal_items_get items username :
  Dict.get (heal_items items) username = heal_record username <$> Dict.get items username.
Proof.
  induction items as [|[u r] rest IH]; [done|].
  cbn [heal_items map Dict.get]. destruct (decide (u = username)) as [->|Hne].
  - reflexivity.
  - apply IH.
Qed.

Lemma dict_get_elem_of {V} (items : list (string * V)) k v :
  Dict.get items k = Some v → (k, v) ∈ items.
Proof.
  induction items as [|[k' v'] rest IH]; cbn; [done|].
  destruct (decide (k' = k)) as [->|Hne].
  - intros [= ->]. left.
  - intros H. right. by apply IH.
Qed.

Lemma records_get items username record :
  Forall is_record items → Dict.get items username = Some record →
  is_record (username, record).
Proof.
  intros Hall Hget. apply dict_get_elem_of in Hget.
  by apply (proj1 (Forall_forall _ _) Hall) in Hget.
Qed.

(** ** The balance ledger and the sign-up *)

Section StoreFacts.

Variable float_of_str : string → option float.
Variable sha256_hexdigest : string → string.

Lemma balance_path_healed username record :
  is_record (username, record) →
  balance_path username (heal_record username record) = balance_path username record.
Proof.
  intros Hrec. unfold balance_path. rewrite heal_record_ref by done.
  by destruct (balance_ref record).
Qed.

Lemma balance_path_ref username record path :
  is_record (username, record) →
  balance_path username record = Some path →
  ∃ name, balance_ref (heal_record username record) = Some (JStr name) ∧
          path = user_path name.
Proof.
  intros Hrec Hpath. rewrite heal_record_ref by done.
  unfold balance_path in Hpath.
  destruct (balance_ref record) as [[]|]; try discriminate Hpath;
    injection Hpath as <-; by eexists.
Qed.

(** What [get_user_balance] yields once the registry is loaded. *)
Lemma get_user_balance_run username items f l u tr :
  stored_registry f = Some items →
  Forall is_record items →
  ∃ tr',
    get_user_balance float_of_str username (World f l u [] tr) =
    match Dict.get items username with
    | None => (Ok 0%float, World (loaded_disk items f) l u [] tr')
    | Some record =>
        match balance_ref (heal_record username record) with
        | Some (JStr name) =>
            match loaded_disk items f !! user_path name with
            | None => (Ok 0%float, World (loaded_disk items f) l u [] tr')
            | Some c =>
                match read_balance_file float_of_str c with
                | Ok b => (Ok b, World (loaded_disk items f) l u [] tr')
                | Raise e =>
                    (Ok 0%float,
                     World (loaded_disk items f)
                       (("Error reading balance for " +:+ username +:+ ": "
                           +:+ exn_message e) :: l) u [] tr')
                end
            end
        | Some _ => (Raise TypeError, World (loaded_disk items f) l u [] tr')
        | None => (Raise KeyError, World (loaded_disk items f) l u [] tr')
        end
    end.
Proof.
  intros Hreg Hall. unfold get_user_balance.
  destruct (load_users_ok items f l u tr Hreg Hall) as [tr' Hload].
  exists tr'. rewrite run_bind, Hload.
  rewrite run_bind. unfold lift at 1. cbn [py_in]. unfold Dict.mem.
  rewrite heal_items_get.
  destruct (Dict.get items username) as [record|] eqn:Hget; cbn [fmap option_fmap option_map];
    cbn [bool_decide decide_rel is_Some_dec negb]; [|reflexivity].
  rewrite run_bind. unfold lift at 1. cbn [py_getitem]. rewrite heal_items_get, Hget.
  cbn [fmap option_fmap option_map].
  destruct (records_get _ _ _ Hall Hget) as [fields Hrec]. cbn in Hrec. subst record.
  set (healed := heal_record username (JDict fields)).
  assert (∃ hf, healed = JDict hf) as [hf Hhf].
  { unfold healed, heal_record. destruct (Dict.mem fields "balance_file"); by eexists. }
  rewrite Hhf. rewrite run_bind. unfold lift at 1. cbn [py_getitem balance_ref].
  destruct (Dict.get hf "balance_file") as [ref|]; [|reflexivity].
  rewrite run_bind. unfold lift at 1.
  destruct ref; cbn [py_path_component]; try reflexivity.
  unfold_calls. cbn [fs log ui faults trace].
  destruct (loaded_disk items f !! user_path s) as [c|] eqn:Hc;
    repeat (cbn [bool_decide decide_rel is_Some_dec fs log ui faults trace];
            rewrite ?Hc); [|reflexivity].
  unfold read_balance_file, read_balance.
  destruct c as [doc| | | |]; try reflexivity.
  destruct (py_get doc "balance" (JFloat 0)) as [v|e]; [|reflexivity].
  destruct (py_float float_of_str v); reflexivity.
Qed.

Lemma replace_file_ok p j f l u tr :
  ∃ tr',
    (open_w (p +:+ ".tmp");;
     json_dump j (p +:+ ".tmp");;
     there ← os_path_exists p;
     (if there : bool then os_remove p else mret tt);;
     os_rename (p +:+ ".tmp") p;;
     mret true) (World f l u [] tr) =
    (Ok true, World (written_disk p j f) l u [] tr').
Proof.
  pose proof (tmp_ne p) as Hne. unfold written_disk. unfold_calls. crunch.
  all: eexists; f_equal; f_equal; same_disk.
Qed.

Lemma users_path_not_tmp p : users_path ≠ p +:+ ".tmp".
Proof.
  intros H. pose proof (endswith_tmp p) as Ht. rewrite <- H in Ht. discriminate Ht.
Qed.

Lemma stored_registry_written p j f :
  private_path p → stored_registry (written_disk p j f) = stored_registry f.
Proof.
  intros [Hp _]. unfold stored_registry.
  rewrite written_disk_other; [done | congruence | apply users_path_not_tmp].
Qed.

(** A registered account with a readable balance file: the balance is
    read as [b] before and after the registry is loaded. *)
Lemma get_user_balance_readable username items record path c b f l u tr :
  stored_registry f = Some items →
  Forall is_record items →
  Dict.get items username = Some record →
  balance_path username record = Some path →
  private_path path →
  f !! path = Some c →
  stored_balance float_of_str c = Some b →
  ∃ tr',
    get_user_balance float_of_str username (World f l u [] tr) =
      (Ok b, World (loaded_disk items f) l u [] tr').
Proof.
  intros Hreg Hall Hget Hpath Hpriv Hc Hb.
  destruct (get_user_balance_run username items f l u tr Hreg Hall) as [tr' ->].
  exists tr'. rewrite Hget.
  destruct (balance_path_ref username record path) as (name & -> & ->);
    [by eapply records_get | done |].
  rewrite (loaded_disk_present items f _ c Hpriv Hc).
  unfold stored_balance in Hb.
  by destruct (read_balance_file float_of_str c) as [b'|]; simplify_eq.
Qed.

Lemma update_user_balance_run username amount items record path c b f l u tr :
  stored_registry f = Some items →
  Forall is_record items →
  Dict.get items username = Some record →
  balance_path username record = Some path →
  private_path path →
  f !! path = Some c →
  stored_balance float_of_str c = Some b →
  ∃ tr',
    update_user_balance float_of_str username amount (World f l u [] tr) =
      (Ok true,
       World (written_disk path (balance_doc (b + amount))
                (loaded_disk (heal_items items) (loaded_disk items f)))
         l u [] tr').
Proof.
  intros Hreg Hall Hget Hpath Hpriv Hc Hb.
  pose proof (records_get _ _ _ Hall Hget) as Hrec.
  unfold update_user_balance.
  destruct (load_users_ok items f l u tr Hreg Hall) as [tr1 Hload].
  rewrite run_bind, Hload.
  rewrite run_bind. unfold lift at 1. cbn [py_in]. unfold Dict.mem.
  rewrite heal_items_get, Hget. cbn [fmap option_fmap option_map].
  cbn [bool_decide decide_rel is_Some_dec negb].
  rewrite run_bind. unfold lift at 1. cbn [py_getitem]. rewrite heal_items_get, Hget.
  cbn [fmap option_fmap option_map].
  destruct (balance_path_ref username record path Hrec Hpath) as (name & Hname & ->).
  destruct Hrec as [fields Hrec]. cbn in Hrec. subst record.
  assert (∃ hf, heal_record username (JDict fields) = JDict hf) as [hf Hhf].
  { unfold heal_record. destruct (Dict.mem fields "balance_file"); by eexists. }
  rewrite Hhf in Hname |- *. cbn [balance_ref] in Hname.
  rewrite run_bind. unfold lift at 1. cbn [py_getitem]. rewrite Hname.
  rewrite run_bind. unfold lift at 1. cbn [py_path_component].
  rewrite run_bind. unfold try_except at 1. rewrite run_bind.
  destruct (get_user_balance_readable username (heal_items items)
              (heal_record username (JDict fields)) (user_path name) c b
              (loaded_disk items f) l u tr1) as [tr2 ->].
  { apply loaded_disk_registry. }
  { by apply heal_items_records. }
  { by rewrite heal_items_get, Hget. }
  { rewrite balance_path_healed; [done | by eexists]. }
  { done. }
  { by apply loaded_disk_present. }
  { done. }
  unfold mret at 1, M_ret at 1. cbn iota beta.
  unfold try_except.
  destruct (replace_file_ok (user_path name) (balance_doc (b + amount))
              (loaded_disk (heal_items items) (loaded_disk items f)) l u tr2)
    as [tr3 ->].
  by exists tr3.
Qed.

Lemma update_user_balance_unregistered username amount items f l u tr :
  stored_registry f = Some items →
  Forall is_record items →
  Dict.get items username = None →
  ∃ tr',
    update_user_balance float_of_str username amount (World f l u [] tr) =
      (Ok false, World (loaded_disk items f) l (Error "User not found" :: u) [] tr').
Proof.
  intros Hreg Hall Hget. unfold update_user_balance.
  destruct (load_users_ok items f l u tr Hreg Hall) as [tr1 Hload].
  exists tr1. rewrite run_bind, Hload.
  rewrite run_bind. unfold lift at 1. cbn [py_in]. unfold Dict.mem.
  rewrite heal_items_get, Hget. reflexivity.
Qed.



(** C7: [get_user_balance] never raises on a registry of records.  It is
    0.0 for a username that is not registered, 0.0 when the balance file
    is missing, 0.0 with a line in the log when the file does not hold a
    readable balance, and the stored balance otherwise. *)
Theorem get_user_balance_lenient (username : string) (w : world)
    (items : list (string * json)) :
  faults w = [] →
  stored_registry (fs w) = Some items →
  Forall is_record items →
  (Dict.get items username = None →
     ∃ w', get_user_balance float_of_str username w = (Ok 0%float, w') ∧ log w' = log w) ∧
  (∀ record path,
     Dict.get items username = Some record →
     balance_path username record = Some path →
     private_path path →
     (fs w !! path = None →
        ∃ w', get_user_balance float_of_str username w = (Ok 0%float, w')) ∧
     (∀ c, fs w !! path = Some c → stored_balance float_of_str c = None →
        ∃ w' line,
          get_user_balance float_of_str username w = (Ok 0%float, w') ∧
          log w' = line :: log w) ∧
     (∀ c b, fs w !! path = Some c → stored_balance float_of_str c = Some b →
        ∃ w', get_user_balance float_of_str username w = (Ok b, w') ∧ log w' = log w)).
Proof.
  destruct w as [f l u fl tr]. cbn [fs log ui faults trace].
  intros -> Hreg Hall.
  destruct (get_user_balance_run username items f l u tr Hreg Hall) as [tr' Hrun].
  split.
  - intros Hget. rewrite Hget in Hrun. by eexists.
  - intros record path Hget Hpath Hpriv. rewrite Hget in Hrun.
    destruct (balance_path_ref username record path) as (name & Hname & ->);
      [by eapply records_get | done |].
    rewrite Hname in Hrun. split; [|split].
    + intros Hnone.
      destruct (loaded_disk_absent items f _ Hpriv Hnone) as [Hl | Hl];
        rewrite Hl in Hrun; [by eexists|].
      change (read_balance_file float_of_str (Json (balance_doc 0)))
        with (Ok 0%float) in Hrun.
      cbn iota in Hrun. by eexists.
    + intros c Hc Hb. rewrite (loaded_disk_present items f _ c Hpriv Hc) in Hrun.
      unfold stored_balance in Hb.
      destruct (read_balance_file float_of_str c) as [b|e]; [discriminate Hb|].
      by eexists _, _.
    + intros c b Hc Hb. rewrite (loaded_disk_present items f _ c Hpriv Hc) in Hrun.
      unfold stored_balance in Hb.
      destruct (read_balance_file float_of_str c) as [b'|e]; simplify_eq.
      by eexists.
Qed.

(** C4, as the program has it.  For a registered account whose balance
    file is readable, [update_user_balance] reports success and the
    balance read afterwards is the old balance plus the delta.  For a
    username that is not registered it reports failure, and the disk is
    the one loading the registry leaves: no balance is written for it. *)
Theorem update_user_balance_applies_delta (username : string) (amount : float)
    (w : world) (items : list (string * json)) :
  faults w = [] →
  stored_registry (fs w) = Some items →
  Forall is_record items →
  (∀ record path c b,
     Dict.get items username = Some record →
     balance_path username record = Some path →
     private_path path →
     fs w !! path = Some c →
     stored_balance float_of_str c = Some b →
     ∃ w1 w2,
       update_user_balance float_of_str username amount w = (Ok true, w1) ∧
       get_user_balance float_of_str username w1 = (Ok (b + amount)%float, w2)) ∧
  (Dict.get items username = None →
     ∃ users w0 w1,
       load_users w = (Ok users, w0) ∧
       update_user_balance float_of_str username amount w = (Ok false, w1) ∧
       fs w1 = fs w0).
Proof.
  destruct w as [f l u fl tr]. cbn [fs log ui faults trace].
  intros -> Hreg Hall. split.
  - intros record path c b Hget Hpath Hpriv Hc Hb.
    destruct (update_user_balance_run username amount items record path c b f l u tr)
      as [tr1 Hup]; try done.
    pose proof (records_get _ _ _ Hall Hget) as Hrec.
    destruct (get_user_balance_readable username (heal_items items)
                (heal_record username record) path
                (Json (balance_doc (b + amount))) (b + amount)%float
                (written_disk path (balance_doc (b + amount))
                   (loaded_disk (heal_items items) (loaded_disk items f)))
                l u tr1) as [tr2 Hget2].
    { rewrite stored_registry_written by done.
      by rewrite loaded_disk_registry, heal_items_idem. }
    { by apply heal_items_records. }
    { by rewrite heal_items_get, Hget. }
    { by rewrite balance_path_healed. }
    { done. }
    { apply written_disk_target. }
    { reflexivity. }
    by eexists _, _.
  - intros Hget.
    destruct (load_users_ok items f l u tr Hreg Hall) as [tr0 Hload].
    destruct (update_user_balance_unregistered username amount items f l u tr)
      as [tr1 Hup]; try done.
    by eexists _, _, _.
Qed.

(** C10: nothing keeps the balance from going below zero.  For a
    registered account with readable balance [b], a delta that takes it
    below zero is applied all the same: the call reports success and the
    balance file holds [b + amount]. *)
Theorem update_user_balance_no_floor (username : string) (amount : float)
    (w : world) (items : list (string * json)) (record : json) (path : string)
    (c : content) (b : float) :
  faults w = [] →
  stored_registry (fs w) = Some items →
  Forall is_record items →
  Dict.get items username = Some record →
  balance_path username record = Some path →
  private_path path →
  fs w !! path = Some c →
  stored_balance float_of_str c = Some b →
  (b + amount <? 0)%float = true →
  ∃ w',
    update_user_balance float_of_str username amount w = (Ok true, w') ∧
    fs w' !! path = Some (Json (balance_doc (b + amount))) ∧
    stored_balance float_of_str (Json (balance_doc (b + amount))) = Some (b + amount)%float.
Proof.
  destruct w as [f l u fl tr]. cbn [fs log ui faults trace].
  intros -> Hreg Hall Hget Hpath Hpriv Hc Hb _.
  destruct (update_user_balance_run username amount items record path c b f l u tr)
    as [tr1 Hup]; try done.
  eexists. split; [exact Hup|]. cbn [fs]. split; [apply written_disk_target | reflexivity].
Qed.

(** C5: the "Create Account" button with a username the registry already
    holds shows an error, creates nothing, and the registry still holds
    the account with the password hash it had. *)
Theorem create_account_duplicate (new_user new_pass confirm_pass : string)
    (w : world) (items fields : list (string * json)) (hash : json) :
  faults w = [] →
  stored_registry (fs w) = Some items →
  Forall is_record items →
  Dict.get items new_user = Some (JDict fields) →
  Dict.get fields "password_hash" = Some hash →
  ∃ w' msg items' fields',
    create_account sha256_hexdigest new_user new_pass confirm_pass w = (Ok tt, w') ∧
    ui w' = Error msg :: ui w ∧
    stored_registry (fs w') = Some items' ∧
    Dict.get items' new_user = Some (JDict fields') ∧
    Dict.get fields' "password_hash" = Some hash.
Proof.
  destruct w as [f l u fl tr]. cbn [fs log ui faults trace].
  intros -> Hreg Hall Hget Hhash. unfold create_account.
  destruct (bool_decide (new_user = EmptyString) || bool_decide (new_pass = EmptyString)).
  { eexists _, _, items, fields. by repeat split. }
  destruct (negb (bool_decide (new_pass = confirm_pass))).
  { eexists _, _, items, fields. by repeat split. }
  destruct (load_users_ok items f l u tr Hreg Hall) as [tr1 Hload].
  rewrite run_bind, Hload.
  rewrite run_bind. unfold lift at 1. cbn [py_in]. unfold Dict.mem.
  rewrite heal_items_get, Hget. cbn [fmap option_fmap option_map].
  cbn [bool_decide decide_rel is_Some_dec].
  assert (∃ fields', heal_record new_user (JDict fields) = JDict fields' ∧
                     Dict.get fields' "password_hash" = Some hash) as (fields' & Hrec & Hh).
  { unfold heal_record. destruct (Dict.mem fields "balance_file").
    - by exists fields.
    - eexists. split; [done|]. by rewrite dict_get_set_ne. }
  eexists _, _, (heal_items items), fields'. repeat split.
  - cbn [fs]. apply loaded_disk_registry.
  - by rewrite heal_items_get, Hget, <- Hrec.
  - done.
Qed.

End StoreFacts.

(** ** The registry *)

(** C2, as the program has it.  Loading a registry of records gives every
    record without balance-file reference the synthesized one, and the
    registry file is written back with the records so completed.  After
    the load every account has a balance-file reference, and the balance
    file of each account that had none is on disk, created with balance 0
    where there was no file.  A record that had the reference is kept as
    it is; whether its files exist is not looked at. *)
Theorem load_users_heals (w : world) (items : list (string * json)) :
  faults w = [] →
  stored_registry (fs w) = Some items →
  Forall is_record items →
  ∃ w',
    load_users w = (Ok (JDict (heal_items items)), w') ∧
    fs w' !! users_path = Some (Json (JDict (heal_items items))) ∧
    (∀ username record,
       (username, record) ∈ heal_items items → is_Some (balance_ref record)) ∧
    (∀ username record,
       (username, record) ∈ items → balance_ref record = None →
       balance_ref (heal_record username record) = Some (JStr (balance_name username)) ∧
       is_Some (fs w' !! user_path (balance_name username)) ∧
       (fs w !! user_path (balance_name username) = None →
        fs w' !! user_path (balance_name username) = Some (Json (balance_doc 0)))) ∧
    (∀ username record,
       (username, record) ∈ items → is_Some (balance_ref record) →
       heal_record username record = record).
Proof.
  destruct w as [f l u fl tr]. cbn [fs log ui faults trace].
  intros -> Hreg Hall.
  destruct (load_users_ok items f l u tr Hreg Hall) as [tr' Hload].
  eexists. split; [exact Hload|]. cbn [fs].
  split; [|split; [|split]].
  - unfold loaded_disk. apply written_disk_target.
  - intros username record Hin.
    unfold heal_items in Hin. apply list_elem_of_fmap in Hin as [[u0 r0] [Heq Hin]].
    injection Heq as -> ->.
    rewrite heal_record_ref by by apply (proj1 (Forall_forall _ _) Hall) in Hin.
    by destruct (balance_ref r0).
  - intros username record Hin Href.
    pose proof (proj1 (Forall_forall _ _) Hall _ Hin) as Hrec.
    split; [by rewrite heal_record_ref, Href|].
    pose proof (loaded_disk_healed items f username record Hin Href) as Hsome.
    split; [done|]. intros Hnone.
    destruct (loaded_disk_absent items f _ (private_balance_path username) Hnone)
      as [Hl | Hl]; [|done].
    rewrite Hl in Hsome. by destruct Hsome.
  - intros username record Hin [ref Href].
    destruct (proj1 (Forall_forall _ _) Hall _ Hin) as [fields Hrec].
    cbn in Hrec. subst record. cbn in Href.
    unfold heal_record, Dict.mem. by rewrite Href.
Qed.

(** A file that is missing and is not a balance file is still missing
    once the registry has been loaded. *)

Lemma app_assoc_str a b c : (a +:+ b) +:+ c = a +:+ b +:+ c.
Proof.
  induction a as [|x a IH]; [done|].
  by rewrite !app_cons_str, IH.
Qed.

Lemma endswith_balance username :
  Text.endswith "_balance.json" (user_path (balance_name username)) = true.
Proof.
  rewrite user_path_balance. apply endswith_spec.
  exists ("data/users/user_" +:+ username). by rewrite app_assoc_str.
Qed.

Lemma heal_disk_missing username record f p :
  private_path p → Text.endswith "_balance.json" p = false →
  f !! p = None → heal_disk username record f !! p = None.
Proof.
  intros Hp Hb Hnone.
  destruct (heal_disk_absent username record f p Hp Hnone) as [H | H]; [done|].
  unfold heal_disk in *. destruct (balance_ref record); [congruence|].
  destruct (f !! user_path (balance_name username)); [congruence|].
  destruct (decide (p = user_path (balance_name username))) as [->|Hne].
  - by rewrite endswith_balance in Hb.
  - rewrite written_disk_other in H; [congruence | done | by apply private_not_tmp].
Qed.

Lemma loaded_disk_missing items f p :
  private_path p → Text.endswith "_balance.json" p = false →
  f !! p = None → loaded_disk items f !! p = None.
Proof.
  intros Hp Hb Hnone. unfold loaded_disk.
  rewrite written_disk_other; [| apply Hp | by apply private_not_tmp].
  assert (ensured_disk f !! p = None) as He.
  { rewrite ensured_disk_other; [done | apply Hp]. }
  revert He. generalize (ensured_disk f). clear Hnone.
  induction items as [|[u r] rest IH]; intros g Hg; [done|].
  cbn. apply IH. by apply heal_disk_missing.
Qed.

(** ** The expense journal *)

Lemma dict_mem_false {V} (items : list (string * V)) k :
  Dict.mem items k = false ↔ Dict.get items k = None.
Proof.
  unfold Dict.mem. destruct (Dict.get items k); cbn; split; done.
Qed.

Lemma dict_mem_true {V} (items : list (string * V)) k :
  Dict.mem items k = true ↔ is_Some (Dict.get items k).
Proof.
  unfold Dict.mem. by rewrite bool_decide_eq_true.
Qed.

(** A call of a cached function that the cache answers: the value kept
    comes back and the notices kept with it are shown again; the body
    does not run, the disk, the log and the cache stay as they are. *)
Lemma st_cache_data_hit {A} (body : string → M A) cache username value shown w :
  cache !! username = Some (value, shown) →
  st_cache_data body cache true username w = (Ok (value, cache), shown_again shown w).
Proof. intros Hc. unfold st_cache_data. by rewrite Hc. Qed.

Lemma shown_since_none w w' : ui w' = ui w → shown_since w w' = [].
Proof. intros Hui. unfold shown_since. by rewrite Hui, Nat.sub_diag. Qed.

(** A call that the cache does not answer runs the body and keeps what it
    returns; a body that shows nothing leaves nothing to show again. *)
Lemma st_cache_data_miss {A} (body : string → M A) cache live username value w w' :
  cache_miss cache live username = true →
  body username w = (Ok value, w') →
  ui w' = ui w →
  st_cache_data body cache live username w =
    (Ok (value, <[username := (value, [])]> cache), w').
Proof.
  unfold cache_miss, st_cache_data. intros Hmiss Hbody Hui.
  rewrite Hbody, (shown_since_none w w' Hui).
  destruct (cache !! username) as [[old shown]|]; [destruct live; [done|]|]; reflexivity.
Qed.

Section Journal.

Variable to_datetime_date : list cell → option (list cell).
Variable read_table : content → result dataframe.


Lemma fill_columns_keeps required df col series :
  Dict.get (columns df) col = Some series →
  Dict.get (columns (fill_columns required df)) col = Some series.
Proof.
  revert df. induction required as [|c rest IH]; intros df Hget; [done|].
  cbn [fill_columns]. apply IH.
  destruct (has_column df c) eqn:Hc; cbn [negb]; [done|].
  cbn [set_scalar columns]. rewrite dict_get_set_ne; [done|].
  intros ->. apply dict_mem_false in Hc. congruence.
Qed.

Lemma fill_columns_adds required df col :
  col ∈ required →
  Dict.get (columns df) col = None →
  Dict.get (columns (fill_columns required df)) col =
    Some (replicate (height df) (if decide (col = "Amount") then CNum 0 else CNone)).
Proof.
  revert df. induction required as [|c rest IH]; intros df Hin Hget.
  - by apply elem_of_nil in Hin.
  - cbn [fill_columns].
    destruct (decide (c = col)) as [->|Hne].
    + assert (has_column df col = false) as -> by by apply dict_mem_false.
      cbn [negb]. apply fill_columns_keeps.
      cbn [set_scalar columns]. apply dict_get_set_eq.
    + apply elem_of_cons in Hin as [-> | Hin]; [done|].
      destruct (has_column df c) eqn:Hc; cbn [negb]; [by apply IH|].
      rewrite IH; [done | done |].
      cbn [set_scalar columns]. by rewrite dict_get_set_ne.
Qed.

Lemma journal_column col :
  col = "Date" ∨ col = "Description" ∨ col = "Category" ∨ col = "Amount" →
  col ∈ journal_columns.
Proof.
  unfold journal_columns. intros [-> | [-> | [-> | ->]]].
  - apply list_elem_of_here.
  - do 1 apply list_elem_of_further. apply list_elem_of_here.
  - do 2 apply list_elem_of_further. apply list_elem_of_here.
  - do 3 apply list_elem_of_further. apply list_elem_of_here.
Qed.

Lemma fill_columns_date df :
  Dict.get (columns (fill_columns journal_columns df)) "Date" = Some (date_series df).
Proof.
  unfold date_series.
  destruct (Dict.get (columns df) "Date") as [series|] eqn:Hd; cbn [from_option].
  - by apply fill_columns_keeps.
  - rewrite fill_columns_adds; [done | apply journal_column; auto | done].
Qed.

Lemma heal_record_data_ref username record :
  data_ref (heal_record username record) = data_ref record.
Proof.
  destruct record as [| | | | | |fields]; try done.
  unfold heal_record. destruct (Dict.mem fields "balance_file"); [done|].
  cbn [data_ref]. by rewrite dict_get_set_ne.
Qed.

Lemma load_user_data_body_run username items record name f l u tr :
  stored_registry f = Some items →
  Forall is_record items →
  Dict.get items username = Some record →
  data_ref record = Some (JStr name) →
  ∃ tr',
    load_user_data_body to_datetime_date read_table username (World f l u [] tr) =
    match loaded_disk items f !! user_path name with
    | Some c =>
        match read_table c with
        | Ok table =>
            match to_datetime_date (date_series table) with
            | Some dates =>
                (Ok (set_series (fill_columns journal_columns table) "Date" dates),
                 World (loaded_disk items f) l u [] tr')
            | None =>
                (Ok (empty_frame journal_columns),
                 World (loaded_disk items f) (load_failed username ValueError :: l) u [] tr')
            end
        | Raise e =>
            (Ok (empty_frame journal_columns),
             World (loaded_disk items f) (load_failed username e :: l) u [] tr')
        end
    | None =>
        (Ok (empty_frame journal_columns),
         World (loaded_disk items f) (load_failed username FileNotFoundError :: l) u [] tr')
    end.
Proof.
  intros Hreg Hall Hget Hdata. unfold load_user_data_body, load_failed.
  destruct (load_users_ok items f l u tr Hreg Hall) as [tr' Hload].
  exists tr'. rewrite run_bind, Hload.
  rewrite run_bind. unfold lift at 1. cbn [py_in]. unfold Dict.mem.
  rewrite heal_items_get, Hget. cbn [fmap option_fmap option_map].
  cbn [bool_decide decide_rel is_Some_dec negb].
  rewrite run_bind. unfold lift at 1. cbn [py_getitem]. rewrite heal_items_get, Hget.
  cbn [fmap option_fmap option_map].
  rewrite <- (heal_record_data_ref username) in Hdata.
  destruct (heal_record username record) as [| | | | | |hf]; try discriminate Hdata.
  cbn [data_ref] in Hdata.
  rewrite run_bind. unfold lift at 1. cbn [py_getitem]. rewrite Hdata.
  rewrite run_bind. unfold lift at 1. cbn [py_path_component].
  unfold frame_column. unfold_calls. cbn [fs log ui faults trace].
  destruct (loaded_disk items f !! user_path name) as [c|] eqn:Hc;
    repeat (cbn [bool_decide decide_rel is_Some_dec fs log ui faults trace];
            rewrite ?Hc); [|reflexivity].
  destruct (read_table c) as [table|e]; [|reflexivity].
  cbn [fs log ui faults trace].
  assert (has_column (fill_columns journal_columns table) "Date" = true) as ->.
  { apply dict_mem_true. rewrite fill_columns_date. by eexists. }
  rewrite fill_columns_date.
  destruct (to_datetime_date (date_series table)); reflexivity.
Qed.



End Journal.

(** ** The statements on concrete input *)

Lemma alice_registered :
  stored_registry (fs (world_of alice_disk [])) = Some [("alice", alice_record)].
Proof. vm_compute. reflexivity. Defined.

Lemma alice_records : Forall is_record [("alice", alice_record)].
Proof. repeat constructor. by eexists. Defined.

Lemma alice_balance_path :
  balance_path "alice" alice_record = Some "data/users/user_alice_balance.json".
Proof. vm_compute. reflexivity. Defined.

Lemma alice_balance_private : private_path "data/users/user_alice_balance.json".
Proof. split; [discriminate | vm_compute; reflexivity]. Defined.

Lemma get_user_balance_lenient_witness :
  ∃ w', get_user_balance sample_float_of_str "alice" (world_of alice_disk []) =
          (Ok 500%float, w') ∧ log w' = [].
Proof.
  destruct (get_user_balance_lenient sample_float_of_str "alice"
              (world_of alice_disk []) [("alice", alice_record)]
              eq_refl alice_registered alice_records) as [_ Hregistered].
  destruct (Hregistered alice_record "data/users/user_alice_balance.json"
              eq_refl alice_balance_path alice_balance_private) as (_ & _ & Hreadable).
  apply (Hreadable (Json (balance_doc 500)) 500%float).
  - vm_compute. reflexivity.
  - vm_compute. reflexivity.
Defined.

Lemma update_user_balance_applies_delta_witness :
  ∃ w1 w2,
    update_user_balance sample_float_of_str "alice" (-40)%float (world_of alice_disk []) =
      (Ok true, w1) ∧
    get_user_balance sample_float_of_str "alice" w1 = (Ok 460%float, w2).
Proof.
  destruct (update_user_balance_applies_delta sample_float_of_str "alice" (-40)%float
              (world_of alice_disk []) [("alice", alice_record)]
              eq_refl alice_registered alice_records) as [Hregistered _].
  apply (Hregistered alice_record "data/users/user_alice_balance.json"
           (Json (balance_doc 500)) 500%float eq_refl alice_balance_path
           alice_balance_private).
  - vm_compute. reflexivity.
  - vm_compute. reflexivity.
Defined.

(** C4 as worded fails in its last clause: for a username that is not
    registered the call reports failure, but loading the registry has
    written to the disk all the same, here the balance file of an older
    account and the registry itself. *)
Lemma update_user_balance_unregistered_counterexample :
  let w := world_of legacy_disk [] in
  let run := update_user_balance sample_float_of_str "ghost" 5%float w in
  stored_registry (fs w) = Some [("old", legacy_record)] ∧
  run.1 = Ok false ∧
  fs w !! "data/users/user_old_balance.json" = None ∧
  fs run.2 !! "data/users/user_old_balance.json" = Some (Json (balance_doc 0)) ∧
  fs run.2 ≠ fs w.
Proof.
  cbv zeta. repeat split; try (vm_compute; reflexivity).
  intros Heq.
  apply (f_equal (λ f : gmap string content, f !! "data/users/user_old_balance.json")) in Heq.
  vm_compute in Heq. discriminate Heq.
Qed.

Lemma update_user_balance_no_floor_witness :
  ∃ w',
    update_user_balance sample_float_of_str "alice" (-540)%float (world_of alice_disk []) =
      (Ok true, w') ∧
    fs w' !! "data/users/user_alice_balance.json" = Some (Json (balance_doc (-40))).
Proof.
  destruct (update_user_balance_no_floor sample_float_of_str "alice" (-540)%float
              (world_of alice_disk []) [("alice", alice_record)] alice_record
              "data/users/user_alice_balance.json" (Json (balance_doc 500)) 500%float
              eq_refl alice_registered alice_records eq_refl alice_balance_path
              alice_balance_private) as (w' & Hup & Hfile & _).
  - vm_compute. reflexivity.
  - vm_compute. reflexivity.
  - vm_compute. reflexivity.
  - exists w'. split; [exact Hup | exact Hfile].
Defined.

Lemma create_account_duplicate_witness :
  ∃ w' msg items' fields',
    create_account sample_digest "alice" "other" "other" (world_of alice_disk []) =
      (Ok tt, w') ∧
    ui w' = [Error msg] ∧
    stored_registry (fs w') = Some items' ∧
    Dict.get items' "alice" = Some (JDict fields') ∧
    Dict.get fields' "password_hash" = Some (JStr "digest:pw1").
Proof.
  eapply (create_account_duplicate sample_digest "alice" "other" "other"
            (world_of alice_disk []) [("alice", alice_record)]
            _ (JStr "digest:pw1") eq_refl alice_registered alice_records).
  - vm_compute. reflexivity.
  - vm_compute. reflexivity.
Defined.

Lemma load_users_heals_witness :
  ∃ w',
    load_users (world_of legacy_disk []) =
      (Ok (JDict (heal_items [("old", legacy_record)])), w') ∧
    fs w' !! "data/users/user_old_balance.json" = Some (Json (balance_doc 0)).
Proof.
  destruct (load_users_heals (world_of legacy_disk []) [("old", legacy_record)])
    as (w' & Hload & _ & _ & Hhealed & _).
  - reflexivity.
  - vm_compute. reflexivity.
  - repeat constructor. by eexists.
  - exists w'. split; [exact Hload|].
    destruct (Hhealed "old" legacy_record) as (_ & _ & Hnew).
    + apply list_elem_of_here.
    + reflexivity.
    + apply Hnew. vm_compute. reflexivity.
Defined.

(** C2 as worded fails in its last clause: an account whose record has
    its three references and none of the files is loaded as it is, and
    the files are still missing afterwards. *)
Lemma load_users_missing_files_counterexample :
  let run := load_users (world_of bare_disk []) in
  run.1 = Ok (JDict [("alice", alice_record)]) ∧
  data_ref alice_record = Some (JStr "user_alice_data.csv") ∧
  balance_ref alice_record = Some (JStr "user_alice_balance.json") ∧
  fs run.2 !! "data/users/user_alice_data.csv" = None ∧
  fs run.2 !! "data/users/user_alice_categories.json" = None ∧
  fs run.2 !! "data/users/user_alice_balance.json" = None.
Proof. cbv zeta. repeat split; vm_compute; reflexivity. Qed.

Lemma alice_data_private : private_path "data/users/user_alice_data.csv".
Proof. split; [discriminate | vm_compute; reflexivity]. Defined.



Lemma categorize_expense_first_match_witness :
  first_match id (sample_lower "Uber ride")
    [("Food", ["grocery"; "restaurant"; "lunch"]);
     ("Transport", ["uber"; "taxi"; "gas"])]
    "Transport".
Proof.
  apply (categorize_expense_first_match sample_lower "Uber ride"
           [("Food", ["grocery"; "restaurant"; "lunch"]);
            ("Transport", ["uber"; "taxi"; "gas"])]).
  vm_compute. reflexivity.
Defined.

Lemma categorize_expense_keyword_case_witness :
  categorize_expense sample_lower "uber ride" [("Transport", ["Uber"])] =
  categorize_expense sample_lower "uber ride"
    (lower_keywords sample_lower [("Transport", ["Uber"])]).
Proof.
  apply (categorize_expense_keyword_case sample_lower "uber ride" [("Transport", ["Uber"])]).
  exact sample_lower_idem.
Defined.

(** ** The scenarios of the specification, run *)

(** Sign-up on an empty disk, then the balance is 0.0; a delta of 500 and
    one of -40 leave 460. *)
Example scenario_alice :
  let w0 := world_of [] [] in
  let w1 := (create_account sample_digest "alice" "pw1" "pw1" w0).2 in
  let get := get_user_balance sample_float_of_str "alice" in
  let update := update_user_balance sample_float_of_str "alice" in
  ui w1 = [Success "Account created successfully! Please login"] ∧
  (get w1).1 = Ok 0%float ∧
  (update 500%float w1).1 = Ok true ∧
  (get (update 500%float w1).2).1 = Ok 500%float ∧
  (get (update (-40)%float (update 500%float w1).2).2).1 = Ok 460%float.
Proof. cbv zeta. repeat split; vm_compute; reflexivity. Qed.

(** Usernames are compared as they are written: "Alice" is free while
    "alice" is taken. *)
Example create_account_other_case :
  let w := (create_account sample_digest "Alice" "pw2" "pw2" (world_of alice_disk [])).2 in
  ui w = [Success "Account created successfully! Please login"] ∧
  (get_user_balance sample_float_of_str "Alice" w).1 = Ok 0%float.
Proof. cbv zeta. split; vm_compute; reflexivity. Qed.

(** The guard against a taken username is the button's: [save_user]
    called on its own replaces the record. *)
Example save_user_replaces :
  let run := save_user sample_digest "alice" "other" (world_of alice_disk []) in
  run.1 = Ok true ∧
  stored_registry (fs run.2) = Some [("alice", account_record sample_digest "alice" "other")].
Proof. cbv zeta. split; vm_compute; reflexivity. Qed.

(** A balance file that is not JSON: 0.0, and a line in the log. *)
Example corrupt_balance_file :
  let w := world_of [("data/users.json", Json (JDict [("alice", alice_record)]));
                     ("data/users/user_alice_balance.json", Junk "{balance")] [] in
  let run := get_user_balance sample_float_of_str "alice" w in
  run.1 = Ok 0%float ∧
  log run.2 = ["Error reading balance for alice: Expecting value"].
Proof. cbv zeta. split; vm_compute; reflexivity. Qed.

(** The categories of a new account suggest "Transport" for "Uber ride". *)
Example suggest_uber :
  categorize_expense sample_lower "Uber ride"
    [("Food", ["grocery"; "restaurant"; "lunch"]);
     ("Transport", ["uber"; "taxi"; "gas"])] = "Transport".
Proof. vm_compute. reflexivity. Qed.

(** A keyword stored with a capital is looked for in its lowercased
    form: "Uber" does not occur in "uber ride", and the category is the
    answer all the same. *)
Example suggest_stored_capital :
  Text.contains "Uber" "uber ride" = false ∧
  categorize_expense sample_lower "uber ride" [("Transport", ["Uber"])] = "Transport".
Proof. split; vm_compute; reflexivity. Qed.

(** A registry file that holds JSON other than a mapping is outside what
    the statements above assume: [load_users] raises on it. *)
Example load_users_not_a_mapping :
  (load_users (world_of [("data/users.json", Json (JList []))] [])).1 = Raise AttributeError.
Proof. vm_compute. reflexivity. Qed.

(** * Further properties *)

(** ** More on the file helpers *)

(** X1: what [safe_json_write] has written, [safe_json_read] reads back. *)
Theorem safe_json_write_read (filepath : string) (data default : json) (w : world) :
  faults w = [] →
  ∃ w1 w2,
    safe_json_write filepath data w = (Ok true, w1) ∧
    safe_json_read filepath default w1 = (Ok data, w2).
Proof.
  destruct w as [f l u fl tr]. cbn [faults]. intros ->.
  destruct (safe_json_write_ok filepath data f l u tr) as [tr' Hwrite].
  eexists _, _. split; [exact Hwrite|].
  rewrite safe_json_read_ok. by rewrite written_disk_target.
Qed.

(** X2: whatever fails, [safe_json_write] touches no file but its target
    and the temporary sibling. *)
Theorem safe_json_write_frame (filepath : string) (data : json) (w : world)
    (r : result bool) (w' : world) (p : string) :
  safe_json_write filepath data w = (r, w') →
  p ≠ filepath →
  p ≠ filepath +:+ ".tmp" →
  ∀ f, f ∈ fs w' :: trace w' → f ∈ trace w ∨ f !! p = fs w !! p.
Proof.
  destruct w as [f l u fl tr].
  pose proof (tmp_ne filepath) as Hne. unfold_calls. crunch.
  all: intros Heq Hp Htmp; injection Heq as <- <-; cbn [fs log ui faults trace].
  all: intros g Hg; repeat (apply elem_of_cons in Hg as [-> | Hg]); auto; lookups; auto.
Qed.

(** X3: with at most one failing call [safe_json_write] raises nothing;
    it answers [True] with the document at the target, or [False] with a
    line in the log, and in both cases no temporary file is left. *)
Theorem safe_json_write_reports (filepath : string) (data : json) (w : world)
    (r : result bool) (w' : world) :
  safe_json_write filepath data w = (r, w') →
  (failures w ≤ 1)%nat →
  fs w' !! (filepath +:+ ".tmp") = None ∧
  ((r = Ok true ∧ fs w' !! filepath = Some (Json data) ∧ log w' = log w) ∨
   (r = Ok false ∧ failures w = 1%nat ∧ ∃ line, log w' = line :: log w)).
Proof.
  destruct w as [f l u fl tr].
  pose proof (tmp_ne filepath) as Hne.
  unfold failures. unfold_calls. crunch.
  all: intros Heq Hfail; injection Heq as <- <-; cbn [fs log ui faults trace failing] in *.
  all: try lia.
  all: split; [lookups; done|].
  all: first [ left; split; [done|]; split; [lookups; done | done]
             | right; split; [done|]; split; [lia | by eexists] ].
Qed.

(** X4: [ensure_directory_exists] raises nothing, leaves a registry file
    that is there as it is, and touches no other file. *)
Theorem ensure_directory_exists_safe (w : world) :
  ∃ b w',
    ensure_directory_exists w = (Ok b, w') ∧
    (is_Some (fs w !! users_path) → fs w' = fs w) ∧
    (∀ p, p ≠ users_path → fs w' !! p = fs w !! p).
Proof.
  destruct w as [f l u fl tr]. unfold_calls. crunch.
  all: eexists _, _; split; [reflexivity|]; cbn [fs].
  all: split; [try done; by intros [? [=]] | intros p Hp; lookups; done].
Qed.

(** ** More on the registry *)

Lemma heal_disks_healed_items items f :
  Forall is_record items → heal_disks (heal_items items) f = f.
Proof.
  intros Hall. revert f.
  induction Hall as [|[u r] rest [fields Hr] _ IH]; intros f; [done|].
  cbn in Hr. subst r.
  cbn [heal_items map heal_disks]. fold (heal_items rest).
  assert (heal_disk u (heal_record u (JDict fields)) f = f) as ->; [|apply IH].
  unfold heal_disk, heal_record, Dict.mem.
  destruct (Dict.get fields "balance_file") eqn:Href;
    cbn [bool_decide decide_rel is_Some_dec balance_ref].
  - by rewrite Href.
  - by rewrite dict_get_set_eq.
Qed.

Lemma stored_registry_ensured f : stored_registry (ensured_disk f) = stored_registry f.
Proof.
  unfold stored_registry, ensured_disk.
  destruct (f !! users_path) as [c|] eqn:Hc; [by rewrite Hc|].
  by rewrite lookup_insert_eq.
Qed.

Lemma ensured_disk_present f c : f !! users_path = Some c → ensured_disk f = f.
Proof. intros Hc. unfold ensured_disk. by rewrite Hc. Qed.

Lemma written_disk_tmp path data f :
  written_disk path data f !! (path +:+ ".tmp") = None.
Proof.
  unfold written_disk. pose proof (tmp_ne path).
  rewrite lookup_insert_ne by done. apply lookup_delete_eq.
Qed.

Lemma written_disk_again path data f :
  f !! path = Some (Json data) → f !! (path +:+ ".tmp") = None →
  written_disk path data f = f.
Proof.
  intros Hp Htmp. unfold written_disk. apply map_eq. intros k.
  destruct (decide (k = path)) as [->|Hk]; [by rewrite lookup_insert_eq|].
  rewrite lookup_insert_ne by done.
  destruct (decide (k = path +:+ ".tmp")) as [->|Hk'].
  - by rewrite lookup_delete_eq.
  - by rewrite lookup_delete_ne.
Qed.

Lemma loaded_disk_again items f :
  Forall is_record items →
  loaded_disk (heal_items items) (loaded_disk items f) = loaded_disk items f.
Proof.
  intros Hall.
  unfold loaded_disk at 1. rewrite heal_items_idem, heal_disks_healed_items by done.
  rewrite (ensured_disk_present _ (Json (JDict (heal_items items)))).
  - apply written_disk_again.
    + unfold loaded_disk. apply written_disk_target.
    + unfold loaded_disk. apply written_disk_tmp.
  - unfold loaded_disk. apply written_disk_target.
Qed.

(** X5: loading twice is loading once: the second load returns the same
    registry and leaves the disk as the first one left it. *)
Theorem load_users_idempotent (w : world) (items : list (string * json)) :
  faults w = [] →
  stored_registry (fs w) = Some items →
  Forall is_record items →
  ∃ users w1 w2,
    load_users w = (Ok users, w1) ∧
    load_users w1 = (Ok users, w2) ∧
    fs w2 = fs w1.
Proof.
  destruct w as [f l u fl tr]. cbn [fs faults]. intros -> Hreg Hall.
  destruct (load_users_ok items f l u tr Hreg Hall) as [tr1 Hload].
  destruct (load_users_ok (heal_items items) (loaded_disk items f) l u tr1)
    as [tr2 Hload2].
  { apply loaded_disk_registry. }
  { by apply heal_items_records. }
  eexists _, _, _. split; [exact Hload|].
  rewrite heal_items_idem in Hload2. split; [exact Hload2|].
  cbn [fs]. by apply loaded_disk_again.
Qed.

Lemma heal_items_names items : (heal_items items).*1 = items.*1.
Proof.
  induction items as [|[u r] rest IH]; [done|].
  cbn. f_equal. apply IH.
Qed.

(** X6: loading keeps every account, in the stored order, and every
    field a record holds; all it may add is the balance-file reference. *)
Theorem load_users_keeps_fields (w : world) (items : list (string * json)) :
  faults w = [] →
  stored_registry (fs w) = Some items →
  Forall is_record items →
  ∃ items' w',
    load_users w = (Ok (JDict items'), w') ∧
    items'.*1 = items.*1 ∧
    (∀ username fields key value,
       Dict.get items username = Some (JDict fields) →
       Dict.get fields key = Some value →
       ∃ fields',
         Dict.get items' username = Some (JDict fields') ∧
         Dict.get fields' key = Some value) ∧
    (∀ username fields' key,
       Dict.get items' username = Some (JDict fields') →
       key ≠ "balance_file" →
       ∃ fields,
         Dict.get items username = Some (JDict fields) ∧
         Dict.get fields' key = Dict.get fields key).
Proof.
  destruct w as [f l u fl tr]. cbn [fs faults]. intros -> Hreg Hall.
  destruct (load_users_ok items f l u tr Hreg Hall) as [tr1 Hload].
  eexists _, _. split; [exact Hload|]. split; [apply heal_items_names|]. split.
  - intros username fields key value Hget Hkey.
    rewrite heal_items_get, Hget. cbn [fmap option_fmap option_map].
    unfold heal_record. destruct (Dict.mem fields "balance_file") eqn:Hmem.
    + by exists fields.
    + eexists. split; [done|]. rewrite dict_get_set_ne; [done|].
      intros <-. apply dict_mem_false in Hmem. congruence.
  - intros username fields' key Hget Hkey.
    rewrite heal_items_get in Hget.
    destruct (Dict.get items username) as [record|] eqn:Hrec; [|discriminate Hget].
    destruct (records_get _ _ _ Hall Hrec) as [fields Hf]. cbn in Hf. subst record.
    cbn [fmap option_fmap option_map] in Hget. injection Hget as Hget.
    exists fields. split; [done|].
    unfold heal_record in Hget. destruct (Dict.mem fields "balance_file").
    + by injection Hget as <-.
    + injection Hget as <-. by rewrite dict_get_set_ne.
Qed.

(** ** Sign-up and login *)

Lemma user_path_data username :
  user_path (data_name username) = "data/users/user_" +:+ username +:+ "_data.csv".
Proof. by rewrite user_path_relative. Qed.

Lemma user_path_categories username :
  user_path (categories_name username) =
  "data/users/user_" +:+ username +:+ "_categories.json".
Proof. by rewrite user_path_relative. Qed.

Lemma private_data_path username : private_path (user_path (data_name username)).
Proof.
  rewrite user_path_data. split; [done|].
  eapply endswith_last; [reflexivity| |].
  - rewrite !last_ascii_app. reflexivity.
  - done.
Qed.

Lemma private_categories_path username :
  private_path (user_path (categories_name username)).
Proof.
  rewrite user_path_categories. split; [done|].
  eapply endswith_last; [reflexivity| |].
  - rewrite !last_ascii_app. reflexivity.
  - done.
Qed.

Lemma data_path_not_json username q :
  last_ascii q = Some "n"%char → user_path (data_name username) ≠ q.
Proof.
  intros Hq Heq. rewrite user_path_data in Heq. rewrite <- Heq in Hq.
  rewrite !last_ascii_app in Hq. discriminate Hq.
Qed.

Lemma last_balance_path username :
  last_ascii (user_path (balance_name username)) = Some "n"%char.
Proof. rewrite user_path_balance, !last_ascii_app. reflexivity. Qed.

Lemma last_categories_path username :
  last_ascii (user_path (categories_name username)) = Some "n"%char.
Proof. rewrite user_path_categories, !last_ascii_app. reflexivity. Qed.

Lemma categories_not_balance username :
  user_path (categories_name username) ≠ user_path (balance_name username).
Proof.
  rewrite user_path_categories, user_path_balance. intros Heq.
  apply String.app_inj in Heq. apply String.app_inj in Heq. discriminate Heq.
Qed.

Lemma to_csv_ok df p f l u tr :
  ∃ tr', to_csv df p (World f l u [] tr) = (Ok tt, World (<[p := Csv df]> f) l u [] tr').
Proof.
  unfold_calls. crunch. eexists. f_equal. f_equal. same_disk.
Qed.

Lemma run_lift {A} (r : result A) w : lift r w = (r, w).
Proof. reflexivity. Qed.

Lemma run_ret {A} (a : A) (w : world) : (mret a : M A) w = (Ok a, w).
Proof. reflexivity. Qed.

Lemma run_try_ok {A} (body : M A) handler w a w' :
  body w = (Ok a, w') → try_except body handler w = (Ok a, w').
Proof. intros H. unfold try_except. by rewrite H. Qed.

Lemma os_makedirs_ok p f l u tr :
  os_makedirs p (World f l u [] tr) = (Ok tt, World f l u [] tr).
Proof. reflexivity. Qed.

Lemma os_path_exists_run p f l u fl tr :
  os_path_exists p (World f l u fl tr) =
    (Ok (bool_decide (is_Some (f !! p))), World f l u fl tr).
Proof. reflexivity. Qed.

Lemma user_file_ok record key name f l u fl tr :
  py_getitem record key = Ok (JStr name) →
  user_file record key (World f l u fl tr) = (Ok (user_path name), World f l u fl tr).
Proof.
  intros H. unfold user_file. by rewrite run_bind, run_lift, H.
Qed.

Lemma dict_set_records items username record :
  Forall is_record items → is_record (username, record) →
  Forall is_record (Dict.set items username record).
Proof.
  intros Hall Hrec. induction Hall as [|[k v] rest Hkv Hrest IH]; cbn.
  - by constructor.
  - destruct (decide (k = username)) as [->|Hne]; by constructor.
Qed.

Section SignUp.

Variable float_of_str : string → option float.
Variable sha256_hexdigest : string → string.

(** The disk [save_user] leaves. *)
Lemma save_user_run username password items f l u tr :
  stored_registry f = Some items →
  Forall is_record items →
  ∃ tr',
    save_user sha256_hexdigest username password (World f l u [] tr) =
    (Ok true,
     World
       (written_disk users_path
          (JDict (Dict.set (heal_items items) username
                    (account_record sha256_hexdigest username password)))
          (written_disk (user_path (balance_name username)) (balance_doc 0)
             (written_disk (user_path (categories_name username)) default_categories
                (<[user_path (data_name username) := Csv (empty_frame journal_columns)]>
                   (loaded_disk items (ensured_disk f))))))
       l u [] tr').
Proof.
  intros Hreg Hall. unfold save_user.
  rewrite run_bind.
  destruct (ensure_directory_exists_ok f l u tr) as [tr0 ->].
  rewrite run_bind.
  destruct (load_users_ok items (ensured_disk f) l u tr0) as [tr1 ->];
    [by rewrite stored_registry_ensured | done |].
  set (ld := loaded_disk items (ensured_disk f)).
  set (record := account_record sha256_hexdigest username password).
  destruct (to_csv_ok (empty_frame journal_columns) (user_path (data_name username))
              ld l u tr1) as [tr2 Hcsv].
  destruct (safe_json_write_ok (user_path (categories_name username)) default_categories
              (<[user_path (data_name username) := Csv (empty_frame journal_columns)]> ld)
              l u tr2) as [tr3 Hcat].
  destruct (safe_json_write_ok (user_path (balance_name username)) (balance_doc 0)
              (written_disk (user_path (categories_name username)) default_categories
                 (<[user_path (data_name username) := Csv (empty_frame journal_columns)]> ld))
              l u tr3) as [tr4 Hbal].
  destruct (safe_json_write_ok users_path
              (JDict (Dict.set (heal_items items) username record))
              (written_disk (user_path (balance_name username)) (balance_doc 0)
                 (written_disk (user_path (categories_name username)) default_categories
                    (<[user_path (data_name username) := Csv (empty_frame journal_columns)]> ld)))
              l u tr4) as [tr5 Hreg'].
  exists tr5. apply run_try_ok.
  rewrite run_bind, os_makedirs_ok. cbv beta iota.
  rewrite run_bind, run_bind, run_lift.
  change (py_getitem record "data_file") with (Ok (JStr (data_name username))).
  cbv beta iota. rewrite run_bind, run_lift. cbn [py_path_component]. cbv beta iota.
  rewrite run_ret. cbv beta iota.
  rewrite run_bind, Hcsv. cbv beta iota.
  rewrite run_bind, run_bind, run_lift.
  change (py_getitem record "categories_file") with (Ok (JStr (categories_name username))).
  cbv beta iota. rewrite run_bind, run_lift. cbn [py_path_component]. cbv beta iota.
  rewrite run_ret. cbv beta iota.
  rewrite run_bind, Hcat. cbv beta iota.
  rewrite run_bind, run_bind, run_lift.
  change (py_getitem record "balance_file") with (Ok (JStr (balance_name username))).
  cbv beta iota. rewrite run_bind, run_lift. cbn [py_path_component]. cbv beta iota.
  rewrite run_ret. cbv beta iota.
  rewrite run_bind, Hbal. cbv beta iota.
  rewrite run_bind, run_lift. cbn [py_setitem]. cbv beta iota.
  rewrite run_bind, Hreg'. reflexivity.
Qed.

Lemma account_record_is_record username password :
  is_record (username, account_record sha256_hexdigest username password).
Proof. by eexists. Qed.

(** X7: sign-up without failing calls answers [True]; the registry then
    holds the new record under the username, replacing a record that was
    there, and every other account as loading leaves it; the journal is
    the empty four-column table, the categories are the default ones and
    the balance is 0.0. *)
Theorem save_user_creates (username password : string) (w : world)
    (items : list (string * json)) :
  faults w = [] →
  stored_registry (fs w) = Some items →
  Forall is_record items →
  ∃ w' items',
    save_user sha256_hexdigest username password w = (Ok true, w') ∧
    stored_registry (fs w') = Some items' ∧
    Dict.get items' username = Some (account_record sha256_hexdigest username password) ∧
    (∀ other, other ≠ username →
       Dict.get items' other = heal_record other <$> Dict.get items other) ∧
    fs w' !! user_path (data_name username) = Some (Csv (empty_frame journal_columns)) ∧
    fs w' !! user_path (categories_name username) = Some (Json default_categories) ∧
    fs w' !! user_path (balance_name username) = Some (Json (balance_doc 0)).
Proof.
  destruct w as [f l u fl tr]. cbn [fs faults]. intros -> Hreg Hall.
  destruct (save_user_run username password items f l u tr Hreg Hall) as [tr' Hrun].
  pose proof (private_data_path username) as Hd.
  pose proof (private_categories_path username) as Hc.
  pose proof (private_balance_path username) as Hb.
  eexists _, _. split; [exact Hrun|]. cbn [fs].
  split; [unfold stored_registry; by rewrite written_disk_target|].
  split; [apply dict_get_set_eq|].
  split; [intros other Hne; by rewrite dict_get_set_ne, heal_items_get|].
  split; [|split].
  - rewrite written_disk_other; [| apply Hd | by apply private_not_tmp].
    rewrite written_disk_other;
      [| apply data_path_not_json, last_balance_path | by apply private_not_tmp].
    rewrite written_disk_other;
      [| apply data_path_not_json, last_categories_path | by apply private_not_tmp].
    apply lookup_insert_eq.
  - rewrite written_disk_other; [| apply Hc | by apply private_not_tmp].
    rewrite written_disk_other;
      [| apply categories_not_balance | by apply private_not_tmp].
    apply written_disk_target.
  - rewrite written_disk_other; [| apply Hb | by apply private_not_tmp].
    apply written_disk_target.
Qed.

(** X8: right after sign-up the balance of the account reads 0.0. *)
Theorem get_user_balance_after_save_user (username password : string) (w : world)
    (items : list (string * json)) :
  faults w = [] →
  stored_registry (fs w) = Some items →
  Forall is_record items →
  ∃ w1 w2,
    save_user sha256_hexdigest username password w = (Ok true, w1) ∧
    get_user_balance float_of_str username w1 = (Ok 0%float, w2).
Proof.
  destruct w as [f l u fl tr]. cbn [fs faults]. intros -> Hreg Hall.
  destruct (save_user_run username password items f l u tr Hreg Hall) as [tr' Hrun].
  pose proof (private_balance_path username) as Hb.
  set (record := account_record sha256_hexdigest username password) in *.
  set (items' := Dict.set (heal_items items) username record) in *.
  match type of Hrun with _ = (_, World ?d _ _ _ _) => set (disk := d) in * end.
  destruct (get_user_balance_readable float_of_str username items' record
              (user_path (balance_name username)) (Json (balance_doc 0)) 0%float
              disk l u tr') as [tr2 Hget].
  - unfold disk, stored_registry. by rewrite written_disk_target.
  - apply dict_set_records; [by apply heal_items_records | by eexists].
  - apply dict_get_set_eq.
  - reflexivity.
  - done.
  - unfold disk. rewrite written_disk_other; [| apply Hb | by apply private_not_tmp].
    apply written_disk_target.
  - reflexivity.
  - by eexists _, _.
Qed.

Lemma login_run login_user login_pass items f l u tr :
  stored_registry f = Some items →
  Forall is_record items →
  ∃ tr',
    login sha256_hexdigest login_user login_pass (World f l u [] tr) =
    match Dict.get items login_user with
    | None =>
        (Ok false,
         World (loaded_disk items f) l (Error "Invalid username or password" :: u) [] tr')
    | Some record =>
        match py_getitem (heal_record login_user record) "password_hash" with
        | Ok stored_hash =>
            if py_eq_str stored_hash (hash_password sha256_hexdigest login_pass)
            then (Ok true, World (loaded_disk items f) l u [] tr')
            else (Ok false,
                  World (loaded_disk items f) l
                    (Error "Invalid username or password" :: u) [] tr')
        | Raise e => (Raise e, World (loaded_disk items f) l u [] tr')
        end
    end.
Proof.
  intros Hreg Hall. unfold login.
  destruct (load_users_ok items f l u tr Hreg Hall) as [tr' Hload].
  exists tr'. rewrite run_bind, Hload. cbv beta iota.
  rewrite run_bind, run_lift. cbn [py_in]. unfold Dict.mem.
  rewrite heal_items_get.
  destruct (Dict.get items login_user) as [record|] eqn:Hget;
    cbn [fmap option_fmap option_map bool_decide decide_rel is_Some_dec];
    cbv beta iota; [|reflexivity].
  rewrite run_bind, run_bind, run_lift. cbn [py_getitem].
  rewrite heal_items_get, Hget. cbn [fmap option_fmap option_map]. cbv beta iota.
  rewrite run_bind, run_lift.
  destruct (py_getitem (heal_record login_user record) "password_hash") as [h|e];
    cbv beta iota; [|reflexivity].
  rewrite run_ret. cbv beta iota.
  by destruct (py_eq_str h (hash_password sha256_hexdigest login_pass)).
Qed.

(** X9: login turns away a username the registry does not hold, and
    accepts a registered one exactly when the stored hash is the digest
    of the password given. *)
Theorem login_accepts (login_user login_pass : string) (w : world)
    (items : list (string * json)) :
  faults w = [] →
  stored_registry (fs w) = Some items →
  Forall is_record items →
  (Dict.get items login_user = None →
     ∃ w', login sha256_hexdigest login_user login_pass w = (Ok false, w') ∧
           ui w' = Error "Invalid username or password" :: ui w) ∧
  (∀ fields stored_hash,
     Dict.get items login_user = Some (JDict fields) →
     Dict.get fields "password_hash" = Some (JStr stored_hash) →
     ∃ w', login sha256_hexdigest login_user login_pass w =
             (Ok (bool_decide (stored_hash = sha256_hexdigest login_pass)), w')).
Proof.
  destruct w as [f l u fl tr]. cbn [fs ui faults]. intros -> Hreg Hall.
  destruct (login_run login_user login_pass items f l u tr Hreg Hall) as [tr' Hrun].
  split.
  - intros Hget. rewrite Hget in Hrun. by eexists.
  - intros fields h Hget Hh. rewrite Hget in Hrun.
    assert (py_getitem (heal_record login_user (JDict fields)) "password_hash"
            = Ok (JStr h)) as Hitem.
    { unfold heal_record. destruct (Dict.mem fields "balance_file"); cbn [py_getitem].
      - by rewrite Hh.
      - by rewrite dict_get_set_ne, Hh. }
    rewrite Hitem in Hrun. cbn [py_eq_str] in Hrun. unfold hash_password in Hrun.
    destruct (bool_decide (h = sha256_hexdigest login_pass)); by eexists.
Qed.

(** X10: after sign-up the account logs in with its password, and with
    another one only if the two have the same digest. *)
Theorem login_after_save_user (username password attempt : string) (w : world)
    (items : list (string * json)) :
  faults w = [] →
  stored_registry (fs w) = Some items →
  Forall is_record items →
  ∃ w1 w2 w3,
    save_user sha256_hexdigest username password w = (Ok true, w1) ∧
    login sha256_hexdigest username password w1 = (Ok true, w2) ∧
    login sha256_hexdigest username attempt w1 =
      (Ok (bool_decide (sha256_hexdigest password = sha256_hexdigest attempt)), w3).
Proof.
  destruct w as [f l u fl tr]. cbn [fs faults]. intros -> Hreg Hall.
  destruct (save_user_run username password items f l u tr Hreg Hall) as [tr' Hrun].
  set (record := account_record sha256_hexdigest username password) in *.
  set (items' := Dict.set (heal_items items) username record) in *.
  match type of Hrun with _ = (_, World ?d _ _ _ _) => set (disk := d) in * end.
  assert (stored_registry disk = Some items') as Hreg'.
  { unfold disk, stored_registry. by rewrite written_disk_target. }
  assert (Forall is_record items') as Hall'.
  { apply dict_set_records; [by apply heal_items_records | by eexists]. }
  assert (Dict.get items' username = Some record) as Hget by apply dict_get_set_eq.
  destruct (login_run username password items' disk l u tr' Hreg' Hall') as [tr2 Hown].
  destruct (login_run username attempt items' disk l u tr' Hreg' Hall') as [tr3 Hother].
  rewrite Hget in Hown, Hother.
  change (py_getitem (heal_record username record) "password_hash")
    with (Ok (JStr (sha256_hexdigest password))) in Hown, Hother.
  cbn [py_eq_str] in Hown, Hother. unfold hash_password in Hown, Hother.
  rewrite bool_decide_eq_true_2 in Hown by done.
  destruct (bool_decide (sha256_hexdigest password = sha256_hexdigest attempt));
    by eexists _, _, _.
Qed.

End SignUp.

(** ** Category files *)

Lemma file_path_item record key path :
  file_path record key = Some path →
  ∃ name, py_getitem record key = Ok (JStr name) ∧ path = user_path name.
Proof.
  unfold file_path. destruct record as [| | | | | |fields]; try done.
  cbn [py_getitem]. destruct (Dict.get fields key) as [[]|]; try done.
  intros [= <-]. by eexists.
Qed.

Lemma heal_record_item username record key :
  key ≠ "balance_file" →
  py_getitem (heal_record username record) key = py_getitem record key.
Proof.
  intros Hkey. destruct record as [| | | | | |fields]; try done.
  unfold heal_record. destruct (Dict.mem fields "balance_file"); [done|].
  cbn [py_getitem]. by rewrite dict_get_set_ne.
Qed.

Lemma load_user_categories_body_run username items f l u tr :
  stored_registry f = Some items →
  Forall is_record items →
  ∃ tr',
    load_user_categories_body username (World f l u [] tr) =
    match Dict.get items username with
    | None => (Ok other_only, World (loaded_disk items f) l u [] tr')
    | Some record =>
        match py_getitem record "categories_file" with
        | Ok (JStr name) =>
            (Ok (match loaded_disk items f !! user_path name with
                 | Some (Json j) => j
                 | _ => other_only
                 end), World (loaded_disk items f) l u [] tr')
        | Ok _ => (Raise TypeError, World (loaded_disk items f) l u [] tr')
        | Raise e => (Raise e, World (loaded_disk items f) l u [] tr')
        end
    end.
Proof.
  intros Hreg Hall. unfold load_user_categories_body.
  destruct (load_users_ok items f l u tr Hreg Hall) as [tr' Hload].
  exists tr'. rewrite run_bind, Hload. cbv beta iota.
  rewrite run_bind, run_lift. cbn [py_in]. unfold Dict.mem.
  rewrite heal_items_get.
  destruct (Dict.get items username) as [record|] eqn:Hget;
    cbn [fmap option_fmap option_map bool_decide decide_rel is_Some_dec negb];
    cbv beta iota; [|reflexivity].
  rewrite run_bind, run_lift. cbn [py_getitem].
  rewrite heal_items_get, Hget. cbn [fmap option_fmap option_map]. cbv beta iota.
  unfold user_file. rewrite run_bind, run_bind, run_lift.
  rewrite heal_record_item by done.
  destruct (py_getitem record "categories_file") as [v|e]; cbv beta iota; [|reflexivity].
  rewrite run_bind, run_lift.
  destruct v; cbn [py_path_component]; cbv beta iota; try reflexivity.
  rewrite run_ret. cbv beta iota. apply safe_json_read_ok.
Qed.

Lemma save_user_categories_run username categories items f l u tr :
  stored_registry f = Some items →
  Forall is_record items →
  ∃ tr',
    save_user_categories username categories (World f l u [] tr) =
    match Dict.get items username with
    | None => (Ok false, World (loaded_disk items f) l u [] tr')
    | Some record =>
        match py_getitem record "categories_file" with
        | Ok (JStr name) =>
            (Ok true,
             World (written_disk (user_path name) categories (loaded_disk items f))
               l u [] tr')
        | Ok _ => (Raise TypeError, World (loaded_disk items f) l u [] tr')
        | Raise e => (Raise e, World (loaded_disk items f) l u [] tr')
        end
    end.
Proof.
  intros Hreg Hall. unfold save_user_categories.
  destruct (load_users_ok items f l u tr Hreg Hall) as [tr1 Hload].
  destruct (Dict.get items username) as [record|] eqn:Hget.
  - destruct (py_getitem record "categories_file") as [v|e] eqn:Hitem.
    + destruct v;
        try (exists tr1; rewrite run_bind, Hload; cbv beta iota;
             rewrite run_bind, run_lift; cbn [py_in]; unfold Dict.mem;
             rewrite heal_items_get, Hget;
             cbn [fmap option_fmap option_map bool_decide decide_rel is_Some_dec negb];
             cbv beta iota;
             rewrite run_bind, run_lift; cbn [py_getitem];
             rewrite heal_items_get, Hget; cbn [fmap option_fmap option_map];
             cbv beta iota;
             unfold user_file; rewrite run_bind, run_bind, run_lift;
             rewrite heal_record_item by done; rewrite Hitem; cbv beta iota;
             rewrite run_bind, run_lift; reflexivity).
      destruct (safe_json_write_ok (user_path s) categories (loaded_disk items f) l u tr1)
        as [tr2 Hwrite].
      exists tr2. rewrite run_bind, Hload. cbv beta iota.
      rewrite run_bind, run_lift. cbn [py_in]. unfold Dict.mem.
      rewrite heal_items_get, Hget.
      cbn [fmap option_fmap option_map bool_decide decide_rel is_Some_dec negb].
      cbv beta iota.
      rewrite run_bind, run_lift. cbn [py_getitem].
      rewrite heal_items_get, Hget. cbn [fmap option_fmap option_map]. cbv beta iota.
      unfold user_file. rewrite run_bind, run_bind, run_lift.
      rewrite heal_record_item by done. rewrite Hitem. cbv beta iota.
      rewrite run_bind, run_lift. cbn [py_path_component]. cbv beta iota.
      rewrite run_ret. cbv beta iota. exact Hwrite.
    + exists tr1. rewrite run_bind, Hload. cbv beta iota.
      rewrite run_bind, run_lift. cbn [py_in]. unfold Dict.mem.
      rewrite heal_items_get, Hget.
      cbn [fmap option_fmap option_map bool_decide decide_rel is_Some_dec negb].
      cbv beta iota.
      rewrite run_bind, run_lift. cbn [py_getitem].
      rewrite heal_items_get, Hget. cbn [fmap option_fmap option_map]. cbv beta iota.
      unfold user_file. rewrite run_bind, run_bind, run_lift.
      rewrite heal_record_item by done. by rewrite Hitem.
  - exists tr1. rewrite run_bind, Hload. cbv beta iota.
    rewrite run_bind, run_lift. cbn [py_in]. unfold Dict.mem.
    by rewrite heal_items_get, Hget.
Qed.

(** X11: a load of the categories that the cache answers (an earlier
    load for the username within the hour) returns the mapping kept from
    that load and reads nothing.  A load that the cache does not answer
    returns [{"Other": []}] for a username the registry does not hold;
    for a registered one the stored mapping, and [{"Other": []}] when the
    file is missing or is not JSON.  What comes back is kept in the
    cache. *)
Theorem load_user_categories_lenient (username : string) (w : world)
    (items : list (string * json)) (cache : gmap string (json * list notice))
    (live : bool) :
  faults w = [] →
  stored_registry (fs w) = Some items →
  Forall is_record items →
  (∀ kept shown,
     cache !! username = Some (kept, shown) → live = true →
     load_user_categories cache live username w =
       (Ok (kept, cache), shown_again shown w)) ∧
  (cache_miss cache live username = true →
   (Dict.get items username = None →
      ∃ w', load_user_categories cache live username w =
              (Ok (other_only, <[username := (other_only, [])]> cache), w')) ∧
   (∀ record path,
      Dict.get items username = Some record →
      file_path record "categories_file" = Some path →
      private_path path →
      (∀ j, fs w !! path = Some (Json j) →
         ∃ w', load_user_categories cache live username w =
                 (Ok (j, <[username := (j, [])]> cache), w')) ∧
      (∀ c, fs w !! path = Some c → (∀ j, c ≠ Json j) →
         ∃ w', load_user_categories cache live username w =
                 (Ok (other_only, <[username := (other_only, [])]> cache), w')) ∧
      (fs w !! path = None → Text.endswith "_balance.json" path = false →
         ∃ w', load_user_categories cache live username w =
                 (Ok (other_only, <[username := (other_only, [])]> cache), w')))).
Proof.
  destruct w as [f l u fl tr]. cbn [fs faults]. intros -> Hreg Hall.
  destruct (load_user_categories_body_run username items f l u tr Hreg Hall) as [tr' Hrun].
  split; [|intros Hmiss; split].
  - intros kept shown Hkept ->. by apply st_cache_data_hit.
  - intros Hget. rewrite Hget in Hrun.
    eexists. by apply st_cache_data_miss.
  - intros record path Hget Hpath Hpriv. rewrite Hget in Hrun.
    destruct (file_path_item _ _ _ Hpath) as (name & Hitem & ->).
    rewrite Hitem in Hrun. split; [|split].
    + intros j Hj. rewrite (loaded_disk_present items f _ _ Hpriv Hj) in Hrun.
      eexists. by apply st_cache_data_miss.
    + intros c Hc Hno. rewrite (loaded_disk_present items f _ _ Hpriv Hc) in Hrun.
      destruct c as [j| | | |];
        try (eexists; apply st_cache_data_miss; [exact Hmiss | exact Hrun | reflexivity]).
      by destruct (Hno j).
    + intros Hnone Hb. rewrite (loaded_disk_missing items f _ Hpriv Hb Hnone) in Hrun.
      eexists. by apply st_cache_data_miss.
Qed.

(** X12: after categories have been saved for a registered account, a
    load that the cache does not answer returns the saved categories; a
    load that the cache answers returns the mapping kept from before the
    save.  For a username the registry does not hold the save answers
    [False] and the disk is the one loading the registry leaves. *)
Theorem save_user_categories_round_trip (username : string) (categories : json)
    (w : world) (items : list (string * json))
    (cache : gmap string (json * list notice)) (live : bool) :
  faults w = [] →
  stored_registry (fs w) = Some items →
  Forall is_record items →
  (∀ record path,
     Dict.get items username = Some record →
     file_path record "categories_file" = Some path →
     private_path path →
     ∃ w1,
       save_user_categories username categories w = (Ok true, w1) ∧
       (cache_miss cache live username = true →
          ∃ w2, load_user_categories cache live username w1 =
                  (Ok (categories, <[username := (categories, [])]> cache), w2)) ∧
       (∀ kept shown,
          cache !! username = Some (kept, shown) → live = true →
          load_user_categories cache live username w1 =
            (Ok (kept, cache), shown_again shown w1))) ∧
  (Dict.get items username = None →
     ∃ users w0 w1,
       load_users w = (Ok users, w0) ∧
       save_user_categories username categories w = (Ok false, w1) ∧
       fs w1 = fs w0).
Proof.
  destruct w as [f l u fl tr]. cbn [fs faults]. intros -> Hreg Hall.
  destruct (save_user_categories_run username categories items f l u tr Hreg Hall)
    as [tr1 Hsave].
  split.
  - intros record path Hget Hpath Hpriv. rewrite Hget in Hsave.
    destruct (file_path_item _ _ _ Hpath) as (name & Hitem & ->).
    rewrite Hitem in Hsave.
    destruct (load_user_categories_body_run username (heal_items items)
                (written_disk (user_path name) categories (loaded_disk items f))
                l u tr1) as [tr2 Hload].
    { rewrite stored_registry_written by done. apply loaded_disk_registry. }
    { by apply heal_items_records. }
    rewrite heal_items_get, Hget in Hload. cbn [fmap option_fmap option_map] in Hload.
    rewrite heal_record_item, Hitem in Hload by done.
    rewrite (loaded_disk_present _ _ _ (Json categories) Hpriv) in Hload
      by apply written_disk_target.
    eexists. split; [exact Hsave|]. split.
    + intros Hmiss. eexists. by apply st_cache_data_miss.
    + intros kept shown Hkept ->. by apply st_cache_data_hit.
  - intros Hget. rewrite Hget in Hsave.
    destruct (load_users_ok items f l u tr Hreg Hall) as [tr0 Hload].
    by eexists _, _, _.
Qed.

(** ** The account handlers *)

Lemma unlink_if_exists_ok p f l u tr :
  ∃ tr', unlink_if_exists p (World f l u [] tr) = (Ok tt, World (delete p f) l u [] tr').
Proof.
  unfold unlink_if_exists. unfold_calls. crunch.
  - by eexists.
  - eexists. f_equal. f_equal. symmetry. by apply delete_id.
Qed.

Lemma dict_del_get_ne items key other :
  other ≠ key → Dict.get (dict_del items key) other = Dict.get items other.
Proof.
  intros Hne. induction items as [|[k v] rest IH]; [done|].
  cbn. destruct (decide (k = key)) as [->|Hk].
  - by rewrite decide_False.
  - cbn. by rewrite IH.
Qed.

Lemma dict_get_none (items : list (string * json)) key :
  key ∉ items.*1 → Dict.get items key = None.
Proof.
  induction items as [|[k v] rest IH]; [done|].
  cbn. intros Hnot. apply not_elem_of_cons in Hnot as [Hne Hrest].
  rewrite decide_False by done. by apply IH.
Qed.

Lemma dict_del_get_eq items key :
  NoDup items.*1 → Dict.get (dict_del items key) key = None.
Proof.
  induction items as [|[k v] rest IH]; [done|].
  cbn. intros Hnodup. apply NoDup_cons in Hnodup as [Hnot Hrest].
  destruct (decide (k = key)) as [->|Hk].
  - by apply dict_get_none.
  - cbn. rewrite decide_False by done. by apply IH.
Qed.

Lemma dict_del_records items key :
  Forall is_record items → Forall is_record (dict_del items key).
Proof.
  induction 1 as [|[k v] rest Hkv Hrest IH]; [constructor|].
  cbn. destruct (decide (k = key)); [done | by constructor].
Qed.

Lemma stored_registry_delete p f :
  p ≠ users_path → stored_registry (delete p f) = stored_registry f.
Proof. intros Hp. unfold stored_registry. by rewrite lookup_delete_ne. Qed.

Lemma stored_registry_insert p c f :
  p ≠ users_path → stored_registry (<[p := c]> f) = stored_registry f.
Proof. intros Hp. unfold stored_registry. by rewrite lookup_insert_ne. Qed.

Lemma loaded_disk_healed_other items f p :
  Forall is_record items → private_path p →
  loaded_disk (heal_items items) f !! p = f !! p.
Proof.
  intros Hall Hp. unfold loaded_disk.
  rewrite written_disk_other; [| apply Hp | by apply private_not_tmp].
  rewrite heal_disks_healed_items by done.
  apply ensured_disk_other, Hp.
Qed.

Lemma balance_path_item username record path :
  is_record (username, record) →
  balance_path username record = Some path →
  ∃ name, py_getitem (heal_record username record) "balance_file" = Ok (JStr name) ∧
          path = user_path name.
Proof.
  intros Hrec Hpath.
  destruct (balance_path_ref username record path Hrec Hpath) as (name & Href & ->).
  exists name. split; [|done].
  destruct Hrec as [fields Hf]. cbn in Hf. subst record.
  unfold heal_record in *. destruct (Dict.mem fields "balance_file");
    cbn [balance_ref py_getitem] in *; by rewrite Href.
Qed.


Lemma update_then_get_run float_of_str username amount items record path c b
    f l u tr :
  stored_registry f = Some items →
  Forall is_record items →
  Dict.get items username = Some record →
  balance_path username record = Some path →
  private_path path →
  f !! path = Some c →
  stored_balance float_of_str c = Some b →
  ∃ tr1 tr2,
    update_user_balance float_of_str username amount (World f l u [] tr) =
      (Ok true,
       World (written_disk path (balance_doc (b + amount))
                (loaded_disk (heal_items items) (loaded_disk items f))) l u [] tr1) ∧
    get_user_balance float_of_str username
      (World (written_disk path (balance_doc (b + amount))
                (loaded_disk (heal_items items) (loaded_disk items f))) l u [] tr1) =
      (Ok (b + amount)%float,
       World (loaded_disk (heal_items items)
                (written_disk path (balance_doc (b + amount))
                   (loaded_disk (heal_items items) (loaded_disk items f)))) l u [] tr2).
Proof.
  intros Hreg Hall Hget Hpath Hpriv Hc Hb.
  destruct (update_user_balance_run float_of_str username amount items record path c b
              f l u tr) as [tr1 Hup]; try done.
  pose proof (records_get _ _ _ Hall Hget) as Hrec.
  destruct (get_user_balance_readable float_of_str username (heal_items items)
              (heal_record username record) path
              (Json (balance_doc (b + amount))) (b + amount)%float
              (written_disk path (balance_doc (b + amount))
                 (loaded_disk (heal_items items) (loaded_disk items f)))
              l u tr1) as [tr2 Hget2].
  { rewrite stored_registry_written by done.
    by rewrite loaded_disk_registry, heal_items_idem. }
  { by apply heal_items_records. }
  { by rewrite heal_items_get, Hget. }
  { by rewrite balance_path_healed. }
  { done. }
  { apply written_disk_target. }
  { reflexivity. }
  by eexists _, _.
Qed.

Section HandlerFacts.

Variable float_of_str : string → option float.

Lemma close_account_run username items record p1 p2 p3 f l u tr :
  stored_registry f = Some items →
  Forall is_record items →
  Dict.get items username = Some record →
  file_path record "data_file" = Some p1 →
  file_path record "categories_file" = Some p2 →
  balance_path username record = Some p3 →
  private_path p1 → private_path p2 → private_path p3 →
  ∃ tr',
    close_account username (World f l u [] tr) =
    (Ok tt,
     World
       (written_disk users_path (JDict (dict_del (heal_items items) username))
          (loaded_disk (heal_items items)
             (delete p3 (delete p2 (delete p1 (loaded_disk items f))))))
       l (Success "Account permanently deleted! Redirecting..." :: u) [] tr').
Proof.
  intros Hreg Hall Hget H1 H2 H3 Hp1 Hp2 Hp3.
  pose proof (records_get _ _ _ Hall Hget) as Hrec.
  destruct (file_path_item _ _ _ H1) as (n1 & Hi1 & ->).
  destruct (file_path_item _ _ _ H2) as (n2 & Hi2 & ->).
  destruct (balance_path_item _ _ _ Hrec H3) as (n3 & Hi3 & ->).
  unfold close_account.
  destruct (load_users_ok items f l u tr Hreg Hall) as [tr0 Hload].
  set (ld := loaded_disk items f) in *.
  destruct (unlink_if_exists_ok (user_path n1) ld l u tr0) as [tr1 Hu1].
  destruct (unlink_if_exists_ok (user_path n2) (delete (user_path n1) ld) l u tr1)
    as [tr2 Hu2].
  destruct (unlink_if_exists_ok (user_path n3)
              (delete (user_path n2) (delete (user_path n1) ld)) l u tr2) as [tr3 Hu3].
  set (d3 := delete (user_path n3) (delete (user_path n2) (delete (user_path n1) ld))) in *.
  destruct (load_users_ok (heal_items items) d3 l u tr3) as [tr4 Hload2].
  { unfold d3. rewrite !stored_registry_delete by (apply Hp1 || apply Hp2 || apply Hp3).
    apply loaded_disk_registry. }
  { by apply heal_items_records. }
  rewrite heal_items_idem in Hload2.
  destruct (safe_json_write_ok users_path (JDict (dict_del (heal_items items) username))
              (loaded_disk (heal_items items) d3) l u tr4) as [tr5 Hwrite].
  exists tr5.
  rewrite run_bind, Hload. cbv beta iota.
  rewrite run_bind, run_lift. cbn [py_in]. unfold Dict.mem.
  rewrite heal_items_get, Hget.
  cbn [fmap option_fmap option_map bool_decide decide_rel is_Some_dec]. cbv beta iota.
  rewrite run_bind, run_lift. cbn [py_getitem].
  rewrite heal_items_get, Hget. cbn [fmap option_fmap option_map]. cbv beta iota.
  unfold try_except.
  rewrite run_bind, (user_file_ok _ _ n1) by by rewrite heal_record_item.
  cbv beta iota.
  rewrite run_bind, (user_file_ok _ _ n2) by by rewrite heal_record_item.
  cbv beta iota.
  rewrite run_bind, (user_file_ok _ _ n3) by done.
  cbv beta iota.
  rewrite run_bind, Hu1. cbv beta iota.
  rewrite run_bind, Hu2. cbv beta iota.
  rewrite run_bind, Hu3. cbv beta iota.
  rewrite run_bind, Hload2. cbv beta iota.
  rewrite run_bind, run_lift. cbn [py_delitem].
  rewrite heal_items_get, Hget. cbn [fmap option_fmap option_map]. cbv beta iota.
  rewrite run_bind, Hwrite. reflexivity.
Qed.

(** X13: closing an account removes its three files and its registry
    entry and keeps every other account; the balance of the username
    reads 0.0 afterwards. *)
Theorem close_account_removes (username : string) (w : world)
    (items : list (string * json)) (record : json) (p1 p2 p3 : string) :
  faults w = [] →
  stored_registry (fs w) = Some items →
  Forall is_record items →
  NoDup items.*1 →
  Dict.get items username = Some record →
  file_path record "data_file" = Some p1 →
  file_path record "categories_file" = Some p2 →
  balance_path username record = Some p3 →
  private_path p1 → private_path p2 → private_path p3 →
  ∃ w' w'' items',
    close_account username w = (Ok tt, w') ∧
    fs w' !! p1 = None ∧ fs w' !! p2 = None ∧ fs w' !! p3 = None ∧
    stored_registry (fs w') = Some items' ∧
    Dict.get items' username = None ∧
    (∀ other, other ≠ username →
       Dict.get items' other = heal_record other <$> Dict.get items other) ∧
    get_user_balance float_of_str username w' = (Ok 0%float, w'').
Proof.
  destruct w as [f l u fl tr]. cbn [fs faults].
  intros -> Hreg Hall Hnodup Hget H1 H2 H3 Hp1 Hp2 Hp3.
  destruct (close_account_run username items record p1 p2 p3 f l u tr)
    as [tr' Hrun]; try done.
  set (items' := dict_del (heal_items items) username).
  match type of Hrun with _ = (_, World ?d _ ?n _ _) => set (disk := d) in *; set (ui' := n) in * end.
  assert (stored_registry disk = Some items') as Hreg'.
  { unfold disk, stored_registry. by rewrite written_disk_target. }
  assert (Forall is_record items') as Hall'.
  { by apply dict_del_records, heal_items_records. }
  assert (Dict.get items' username = None) as Hgone.
  { apply dict_del_get_eq. by rewrite heal_items_names. }
  destruct (get_user_balance_run float_of_str username items' disk l ui' tr' Hreg' Hall')
    as [tr2 Hbal].
  rewrite Hgone in Hbal.
  assert (∀ p, private_path p →
            disk !! p = delete p3 (delete p2 (delete p1 (loaded_disk items f))) !! p) as Hdisk.
  { intros p Hp. unfold disk.
    rewrite written_disk_other; [| apply Hp | by apply private_not_tmp].
    by apply loaded_disk_healed_other. }
  eexists _, _, items'. split; [exact Hrun|]. cbn [fs].
  repeat split; try done.
  - rewrite Hdisk by done. rewrite !lookup_delete. by repeat case_decide.
  - rewrite Hdisk by done. rewrite !lookup_delete. by repeat case_decide.
  - rewrite Hdisk by done. rewrite !lookup_delete. by repeat case_decide.
  - intros other Hne. unfold items'. by rewrite dict_del_get_ne, heal_items_get.
Qed.

Lemma delete_financial_data_run username items record p1 p3 f l u tr :
  stored_registry f = Some items →
  Forall is_record items →
  Dict.get items username = Some record →
  file_path record "data_file" = Some p1 →
  balance_path username record = Some p3 →
  ∃ tr',
    delete_financial_data username (World f l u [] tr) =
    (Ok tt,
     World
       (written_disk p3 (balance_doc 0)
          (<[p1 := Csv (empty_frame journal_columns)]> (loaded_disk items f)))
       l (Success "All financial data has been permanently deleted!" :: u) [] tr').
Proof.
  intros Hreg Hall Hget H1 H3.
  pose proof (records_get _ _ _ Hall Hget) as Hrec.
  destruct (file_path_item _ _ _ H1) as (n1 & Hi1 & ->).
  destruct (balance_path_item _ _ _ Hrec H3) as (n3 & Hi3 & ->).
  unfold delete_financial_data.
  destruct (load_users_ok items f l u tr Hreg Hall) as [tr0 Hload].
  set (ld := loaded_disk items f) in *.
  destruct (to_csv_ok (empty_frame journal_columns) (user_path n1) ld l u tr0)
    as [tr1 Hcsv].
  destruct (safe_json_write_ok (user_path n3) (balance_doc 0)
              (<[user_path n1 := Csv (empty_frame journal_columns)]> ld) l u tr1)
    as [tr2 Hwrite].
  exists tr2.
  rewrite run_bind, Hload. cbv beta iota.
  rewrite run_bind, run_lift. cbn [py_in]. unfold Dict.mem.
  rewrite heal_items_get, Hget.
  cbn [fmap option_fmap option_map bool_decide decide_rel is_Some_dec]. cbv beta iota.
  rewrite run_bind, run_lift. cbn [py_getitem].
  rewrite heal_items_get, Hget. cbn [fmap option_fmap option_map]. cbv beta iota.
  unfold try_except.
  rewrite run_bind, (user_file_ok _ _ n1) by by rewrite heal_record_item.
  cbv beta iota.
  rewrite run_bind, Hcsv. cbv beta iota.
  rewrite run_bind, (user_file_ok _ _ n3) by done.
  cbv beta iota.
  rewrite run_bind, Hwrite. reflexivity.
Qed.

(** X14: deleting the financial data of an account leaves the empty
    four-column journal and the balance 0.0, and the account stays
    registered. *)
Theorem delete_financial_data_resets (username : string) (w : world)
    (items : list (string * json)) (record : json) (p1 p3 : string) :
  faults w = [] →
  stored_registry (fs w) = Some items →
  Forall is_record items →
  Dict.get items username = Some record →
  file_path record "data_file" = Some p1 →
  balance_path username record = Some p3 →
  private_path p1 → private_path p3 → p1 ≠ p3 →
  ∃ w' w'',
    delete_financial_data username w = (Ok tt, w') ∧
    fs w' !! p1 = Some (Csv (empty_frame journal_columns)) ∧
    stored_registry (fs w') = Some (heal_items items) ∧
    get_user_balance float_of_str username w' = (Ok 0%float, w'').
Proof.
  destruct w as [f l u fl tr]. cbn [fs faults].
  intros -> Hreg Hall Hget H1 H3 Hp1 Hp3 Hne.
  destruct (delete_financial_data_run username items record p1 p3 f l u tr)
    as [tr' Hrun]; try done.
  match type of Hrun with _ = (_, World ?d _ ?n _ _) => set (disk := d) in *; set (ui' := n) in * end.
  assert (stored_registry disk = Some (heal_items items)) as Hreg'.
  { unfold disk. rewrite stored_registry_written by done.
    rewrite stored_registry_insert by apply Hp1. apply loaded_disk_registry. }
  destruct (get_user_balance_readable float_of_str username (heal_items items)
              (heal_record username record) p3 (Json (balance_doc 0)) 0%float
              disk l ui' tr') as [tr2 Hbal].
  - done.
  - by apply heal_items_records.
  - by rewrite heal_items_get, Hget.
  - rewrite balance_path_healed; [done | by eapply records_get].
  - done.
  - apply written_disk_target.
  - reflexivity.
  - eexists _, _. split; [exact Hrun|]. cbn [fs]. split; [|split; done].
    unfold disk. rewrite written_disk_other; [| done | by apply private_not_tmp].
    apply lookup_insert_eq.
Qed.

(** X15: applying a delta to one account leaves every other private file
    as it was, the balance files of the other accounts among them. *)
Theorem update_user_balance_frame (username : string) (amount : float) (w : world)
    (items : list (string * json)) (record : json) (path : string)
    (c : content) (b : float) (other : string) (kept : content) :
  faults w = [] →
  stored_registry (fs w) = Some items →
  Forall is_record items →
  Dict.get items username = Some record →
  balance_path username record = Some path →
  private_path path →
  fs w !! path = Some c →
  stored_balance float_of_str c = Some b →
  private_path other →
  other ≠ path →
  fs w !! other = Some kept →
  ∃ w',
    update_user_balance float_of_str username amount w = (Ok true, w') ∧
    fs w' !! other = Some kept.
Proof.
  destruct w as [f l u fl tr]. cbn [fs faults].
  intros -> Hreg Hall Hget Hpath Hpriv Hc Hb Hother Hne Hkept.
  destruct (update_user_balance_run float_of_str username amount items record path c b
              f l u tr) as [tr' Hrun]; try done.
  eexists. split; [exact Hrun|]. cbn [fs].
  rewrite written_disk_other; [| done | by apply private_not_tmp].
  apply loaded_disk_present; [done|]. by apply loaded_disk_present.
Qed.

(** X16: two deltas add up: after applying [d1] and then [d2] to a
    readable balance [b], the balance reads [(b + d1) + d2]. *)
Theorem update_user_balance_twice (username : string) (d1 d2 : float) (w : world)
    (items : list (string * json)) (record : json) (path : string)
    (c : content) (b : float) :
  faults w = [] →
  stored_registry (fs w) = Some items →
  Forall is_record items →
  Dict.get items username = Some record →
  balance_path username record = Some path →
  private_path path →
  fs w !! path = Some c →
  stored_balance float_of_str c = Some b →
  ∃ w1 w2 w3,
    update_user_balance float_of_str username d1 w = (Ok true, w1) ∧
    update_user_balance float_of_str username d2 w1 = (Ok true, w2) ∧
    get_user_balance float_of_str username w2 = (Ok (b + d1 + d2)%float, w3).
Proof.
  destruct w as [f l u fl tr]. cbn [fs faults].
  intros -> Hreg Hall Hget Hpath Hpriv Hc Hb.
  pose proof (records_get _ _ _ Hall Hget) as Hrec.
  destruct (update_user_balance_run float_of_str username d1 items record path c b
              f l u tr) as [tr1 Hrun1]; try done.
  match type of Hrun1 with _ = (_, World ?d _ _ _ _) => set (disk1 := d) in * end.
  assert (stored_registry disk1 = Some (heal_items items)) as Hreg1.
  { unfold disk1. rewrite stored_registry_written by done.
    rewrite loaded_disk_registry. by rewrite heal_items_idem. }
  assert (Forall is_record (heal_items items)) as Hall1 by by apply heal_items_records.
  assert (Dict.get (heal_items items) username = Some (heal_record username record))
    as Hget1 by by rewrite heal_items_get, Hget.
  assert (balance_path username (heal_record username record) = Some path) as Hpath1
    by by rewrite balance_path_healed.
  destruct (update_then_get_run float_of_str username d2
              (heal_items items) (heal_record username record) path
              (Json (balance_doc (b + d1))) (b + d1)%float disk1 l u tr1)
    as (tr2 & tr3 & Hrun2 & Hget2); try done.
  { apply written_disk_target. }
  by eexists _, _, _.
Qed.

End HandlerFacts.

(** ** More on the category rules *)

Lemma contains_empty s : Text.contains EmptyString s = true.
Proof. by destruct s. Qed.

Section CategoryNames.

Variable str_lower : string → string.

(** X17: the suggestion is a category of the mapping or "Other": no
    other name is ever made up. *)
Theorem categorize_expense_in_mapping (description : string) (categories : rules) :
  categorize_expense str_lower description categories = "Other" ∨
  categorize_expense str_lower description categories ∈ categories.*1.
Proof.
  unfold categorize_expense.
  induction categories as [|[category keywords] rest IH]; cbn; [by left|].
  destruct (scan_keywords str_lower (str_lower description) keywords).
  - right. left.
  - destruct IH as [IH | IH]; [by left | right; by right].
Qed.

Lemma scan_keywords_empty description keywords :
  str_lower EmptyString = EmptyString →
  EmptyString ∈ keywords → scan_keywords str_lower description keywords = true.
Proof.
  intros Hempty Hin. apply scan_keywords_true. exists EmptyString. split; [done|].
  rewrite Hempty. apply contains_spec, contains_empty.
Qed.

(** X18: a category with an empty keyword matches every description: the
    suggestion is that category or one before it, never a later one and
    never "Other" by falling through.  The empty text lowercased is the
    empty text. *)
Theorem categorize_expense_empty_keyword (description : string)
    (before after : rules) (category : string) (keywords : list string) :
  str_lower EmptyString = EmptyString →
  EmptyString ∈ keywords →
  categorize_expense str_lower description (before ++ (category, keywords) :: after)
    ∈ (before ++ [(category, keywords)]).*1.
Proof.
  intros Hempty Hin. unfold categorize_expense.
  induction before as [|[c kws] rest IH]; cbn.
  - rewrite scan_keywords_empty by done. left.
  - destruct (scan_keywords str_lower (str_lower description) kws); [left | by right].
Qed.

End CategoryNames.

(** ** More on the journal *)

Section JournalSchema.

Variable to_datetime_date : list cell → option (list cell).
Variable read_table : content → result dataframe.
Variable str_of_cell : cell → string.

Lemma has_journal_column_empty col :
  col ∈ journal_columns → has_column (empty_frame journal_columns) col = true.
Proof.
  unfold journal_columns. intros Hin.
  repeat (apply elem_of_cons in Hin as [-> | Hin]); [done..|].
  by apply elem_of_nil in Hin.
Qed.

Lemma has_journal_column_filled df col :
  col ∈ journal_columns → has_column (fill_columns journal_columns df) col = true.
Proof.
  intros Hin. apply dict_mem_true.
  destruct (Dict.get (columns df) col) as [series|] eqn:Hget.
  - rewrite (fill_columns_keeps _ _ _ _ Hget). by eexists.
  - rewrite fill_columns_adds by done. by eexists.
Qed.

Lemma has_column_set_series df col series other :
  has_column df other = true → has_column (set_series df col series) other = true.
Proof.
  intros Hother. apply dict_mem_true. apply dict_mem_true in Hother.
  cbn [set_series columns].
  destruct (decide (col = other)) as [->|Hne].
  - rewrite dict_get_set_eq. by eexists.
  - by rewrite dict_get_set_ne.
Qed.

(** Whatever the journal file holds, and for a username that is not
    registered too, the body of [load_user_data] hands back a table with
    the four columns Date, Description, Category and Amount, and shows
    nothing. *)
Lemma load_user_data_body_schema (username : string) (w : world)
    (items : list (string * json)) :
  faults w = [] →
  stored_registry (fs w) = Some items →
  Forall is_record items →
  (∀ record, Dict.get items username = Some record →
             ∃ name, data_ref record = Some (JStr name)) →
  ∃ out w',
    load_user_data_body to_datetime_date read_table username w = (Ok out, w') ∧
    ui w' = ui w ∧
    ∀ col, col ∈ journal_columns → has_column out col = true.
Proof.
  destruct w as [f l u fl tr]. cbn [fs faults ui]. intros -> Hreg Hall Hdata.
  destruct (Dict.get items username) as [record|] eqn:Hget.
  - destruct (Hdata record eq_refl) as [name Hname].
    destruct (load_user_data_body_run to_datetime_date read_table username items record
                name f l u tr Hreg Hall Hget Hname) as [tr' Hrun].
    destruct (loaded_disk items f !! user_path name) as [c|].
    + destruct (read_table c) as [table|e].
      * destruct (to_datetime_date (date_series table)) as [dates|].
        -- eexists _, _. split; [exact Hrun|]. split; [reflexivity|]. intros col Hcol.
           by apply has_column_set_series, has_journal_column_filled.
        -- eexists _, _. split; [exact Hrun|]. split; [reflexivity|].
           apply has_journal_column_empty.
      * eexists _, _. split; [exact Hrun|]. split; [reflexivity|].
        apply has_journal_column_empty.
    + eexists _, _. split; [exact Hrun|]. split; [reflexivity|].
      apply has_journal_column_empty.
  - destruct (load_users_ok items f l u tr Hreg Hall) as [tr' Hload].
    eexists _, _. split; [|split; [|apply has_journal_column_empty]].
    + unfold load_user_data_body. rewrite run_bind, Hload. cbv beta iota.
      rewrite run_bind, run_lift. cbn [py_in]. unfold Dict.mem.
      by rewrite heal_items_get, Hget.
    + reflexivity.
Qed.

(** X19: whatever the journal file holds, and for a username that is not
    registered too, [load_user_data] hands back a table with the four
    columns Date, Description, Category and Amount, be the call answered
    from the cache or not: a cache that holds only such tables (the empty
    cache for one) gives such a table and is left holding only such
    tables. *)
Theorem load_user_data_schema (username : string) (w : world)
    (items : list (string * json))
    (cache : gmap string (dataframe * list notice)) (live : bool) :
  faults w = [] →
  stored_registry (fs w) = Some items →
  Forall is_record items →
  (∀ record, Dict.get items username = Some record →
             ∃ name, data_ref record = Some (JStr name)) →
  journal_cache cache →
  ∃ out cache' w',
    load_user_data to_datetime_date read_table cache live username w =
      (Ok (out, cache'), w') ∧
    (∀ col, col ∈ journal_columns → has_column out col = true) ∧
    journal_cache cache'.
Proof.
  intros Hfl Hreg Hall Hdata Hcache.
  destruct (load_user_data_body_schema username w items Hfl Hreg Hall Hdata)
    as (out & w' & Hrun & Hui & Hout).
  destruct (cache_miss cache live username) eqn:Hmiss.
  - exists out, (<[username := (out, [])]> cache), w'.
    split; [by apply st_cache_data_miss|]. split; [exact Hout|].
    intros u kept shown Hkept col Hcol.
    destruct (decide (username = u)) as [->|Hne].
    + rewrite lookup_insert_eq in Hkept. injection Hkept as <- _. by apply Hout.
    + rewrite lookup_insert_ne in Hkept by done. by apply (Hcache u kept shown).
  - unfold cache_miss in Hmiss. apply negb_false_iff, andb_true_iff in Hmiss as [Hsome ->].
    apply bool_decide_eq_true in Hsome as [[kept shown] Hkept].
    exists kept, cache, (shown_again shown w).
    split; [by apply st_cache_data_hit|]. split; [|exact Hcache].
    intros col Hcol. by apply (Hcache username kept shown).
Qed.

End JournalSchema.

(** ** Writing the journal, and the expense entry *)

Lemma written_table_target path df f : written_table path df f !! path = Some (Csv df).
Proof. unfold written_table. by lookups. Qed.

Lemma written_table_other path df f p :
  p ≠ path → p ≠ path +:+ ".tmp" → written_table path df f !! p = f !! p.
Proof. intros. unfold written_table. by lookups. Qed.

Lemma stored_registry_table p df f :
  private_path p → stored_registry (written_table p df f) = stored_registry f.
Proof.
  intros [Hp _]. unfold stored_registry.
  rewrite written_table_other; [done | congruence | apply users_path_not_tmp].
Qed.

Lemma replace_table_ok p df f l u tr :
  ∃ tr',
    (to_csv df (p +:+ ".tmp");;
     unlink_if_exists p;;
     os_rename (p +:+ ".tmp") p;;
     mret true) (World f l u [] tr) =
    (Ok true, World (written_table p df f) l u [] tr').
Proof.
  pose proof (tmp_ne p) as Hne. unfold written_table, unlink_if_exists.
  unfold_calls. crunch.
  all: eexists; f_equal; f_equal; same_disk.
Qed.

Section Expenses.

Variable float_of_str : string → option float.
Variable str_of_cell : cell → string.

Lemma save_user_data_run username df items f l u tr :
  stored_registry f = Some items →
  Forall is_record items →
  ∃ tr',
    save_user_data str_of_cell username df (World f l u [] tr) =
    match Dict.get items username with
    | None => (Ok false, World (loaded_disk items f) l u [] tr')
    | Some record =>
        match py_getitem record "data_file" with
        | Ok (JStr name) =>
            (Ok true,
             World (written_table (user_path name) (dates_as_text str_of_cell df)
                      (loaded_disk items f)) l u [] tr')
        | Ok _ => (Raise TypeError, World (loaded_disk items f) l u [] tr')
        | Raise e => (Raise e, World (loaded_disk items f) l u [] tr')
        end
    end.
Proof.
  intros Hreg Hall. unfold save_user_data.
  destruct (load_users_ok items f l u tr Hreg Hall) as [tr1 Hload].
  destruct (Dict.get items username) as [record|] eqn:Hget.
  - destruct (py_getitem record "data_file") as [v|e] eqn:Hitem.
    + destruct v as [| | | |name| |];
        try (exists tr1; rewrite run_bind, Hload; cbv beta iota;
             rewrite run_bind, run_lift; cbn [py_in]; unfold Dict.mem;
             rewrite heal_items_get, Hget;
             cbn [fmap option_fmap option_map bool_decide decide_rel is_Some_dec negb];
             cbv beta iota;
             rewrite run_bind, run_lift; cbn [py_getitem];
             rewrite heal_items_get, Hget; cbn [fmap option_fmap option_map];
             cbv beta iota;
             unfold user_file; rewrite run_bind, run_bind, run_lift;
             rewrite heal_record_item by done; rewrite Hitem; cbv beta iota;
             rewrite run_bind, run_lift; reflexivity).
      destruct (replace_table_ok (user_path name) (dates_as_text str_of_cell df)
                  (loaded_disk items f) l u tr1) as [tr2 Hwrite].
      exists tr2. rewrite run_bind, Hload. cbv beta iota.
      rewrite run_bind, run_lift. cbn [py_in]. unfold Dict.mem.
      rewrite heal_items_get, Hget.
      cbn [fmap option_fmap option_map bool_decide decide_rel is_Some_dec negb].
      cbv beta iota.
      rewrite run_bind, run_lift. cbn [py_getitem].
      rewrite heal_items_get, Hget. cbn [fmap option_fmap option_map]. cbv beta iota.
      rewrite run_bind, (user_file_ok _ _ name) by by rewrite heal_record_item.
      cbv beta iota. by apply run_try_ok.
    + exists tr1. rewrite run_bind, Hload. cbv beta iota.
      rewrite run_bind, run_lift. cbn [py_in]. unfold Dict.mem.
      rewrite heal_items_get, Hget.
      cbn [fmap option_fmap option_map bool_decide decide_rel is_Some_dec negb].
      cbv beta iota.
      rewrite run_bind, run_lift. cbn [py_getitem].
      rewrite heal_items_get, Hget. cbn [fmap option_fmap option_map]. cbv beta iota.
      unfold user_file. rewrite run_bind, run_bind, run_lift.
      rewrite heal_record_item by done. by rewrite Hitem.
  - exists tr1. rewrite run_bind, Hload. cbv beta iota.
    rewrite run_bind, run_lift. cbn [py_in]. unfold Dict.mem.
    by rewrite heal_items_get, Hget.
Qed.

Lemma file_path_healed username record key :
  key ≠ "balance_file" →
  file_path (heal_record username record) key = file_path record key.
Proof.
  intros Hkey. destruct record as [| | | | | |fields]; try done.
  unfold heal_record. destruct (Dict.mem fields "balance_file"); [done|].
  cbn [file_path]. by rewrite dict_get_set_ne.
Qed.

Lemma dates_as_text_other df col :
  col ≠ "Date" →
  Dict.get (columns (dates_as_text str_of_cell df)) col = Dict.get (columns df) col.
Proof.
  intros Hcol. unfold dates_as_text.
  destruct (Dict.get (columns df) "Date"); [|done].
  cbn [set_series columns]. by rewrite dict_get_set_ne.
Qed.

(** X20: saving the journal of a registered account answers [True] and
    leaves the table at the data file, the Date column as text and every
    other column as handed in, with no temporary file left; for a
    username the registry does not hold it answers [False] and the disk
    is the one loading the registry leaves. *)
Theorem save_user_data_writes (username : string) (df : dataframe) (w : world)
    (items : list (string * json)) :
  faults w = [] →
  stored_registry (fs w) = Some items →
  Forall is_record items →
  (∀ record path,
     Dict.get items username = Some record →
     file_path record "data_file" = Some path →
     ∃ w' saved,
       save_user_data str_of_cell username df w = (Ok true, w') ∧
       fs w' !! path = Some (Csv saved) ∧
       fs w' !! (path +:+ ".tmp") = None ∧
       height saved = height df ∧
       (∀ col, col ≠ "Date" → Dict.get (columns saved) col = Dict.get (columns df) col) ∧
       (∀ series, Dict.get (columns df) "Date" = Some series →
          Dict.get (columns saved) "Date" = Some (map (λ c, CStr (str_of_cell c)) series))) ∧
  (Dict.get items username = None →
     ∃ users w0 w1,
       load_users w = (Ok users, w0) ∧
       save_user_data str_of_cell username df w = (Ok false, w1) ∧
       fs w1 = fs w0).
Proof.
  destruct w as [f l u fl tr]. cbn [fs faults]. intros -> Hreg Hall.
  destruct (save_user_data_run username df items f l u tr Hreg Hall) as [tr1 Hsave].
  split.
  - intros record path Hget Hpath. rewrite Hget in Hsave.
    destruct (file_path_item _ _ _ Hpath) as (name & Hitem & ->).
    rewrite Hitem in Hsave.
    eexists _, _. split; [exact Hsave|]. cbn [fs].
    split; [apply written_table_target|].
    split.
    { unfold written_table. pose proof (tmp_ne (user_path name)).
      rewrite lookup_insert_ne by done. apply lookup_delete_eq. }
    split.
    { unfold dates_as_text. by destruct (Dict.get (columns df) "Date"). }
    split; [intros col Hcol; by apply dates_as_text_other|].
    intros series Hseries. unfold dates_as_text. rewrite Hseries.
    cbn [set_series columns]. apply dict_get_set_eq.
  - intros Hget. rewrite Hget in Hsave.
    destruct (load_users_ok items f l u tr Hreg Hall) as [tr0 Hload].
    by eexists _, _, _.
Qed.

(** Saving the journal and then taking the amount off the balance. *)
Lemma commit_run username df amount items record p1 p3 c b d l u tr :
  stored_registry d = Some items →
  Forall is_record items →
  Dict.get items username = Some record →
  file_path record "data_file" = Some p1 →
  balance_path username record = Some p3 →
  private_path p1 → private_path p3 → p1 ≠ p3 →
  d !! p3 = Some c →
  stored_balance float_of_str c = Some b →
  ∃ tr1 tr2 d1 d2,
    save_user_data str_of_cell username df (World d l u [] tr) =
      (Ok true, World d1 l u [] tr1) ∧
    update_user_balance float_of_str username amount (World d1 l u [] tr1) =
      (Ok true, World d2 l u [] tr2) ∧
    d2 !! p1 = Some (Csv (dates_as_text str_of_cell df)) ∧
    d2 !! p3 = Some (Json (balance_doc (b + amount))) ∧
    (∀ p kept, private_path p → p ≠ p1 → p ≠ p3 → d !! p = Some kept →
               d2 !! p = Some kept).
Proof.
  intros Hreg Hall Hget H1 H3 Hp1 Hp3 Hne Hc Hb.
  pose proof (records_get _ _ _ Hall Hget) as Hrec.
  destruct (save_user_data_run username df items d l u tr Hreg Hall) as [tr1 Hsave].
  rewrite Hget in Hsave.
  destruct (file_path_item _ _ _ H1) as (n1 & Hi1 & ->).
  rewrite Hi1 in Hsave.
  set (d1 := written_table (user_path n1) (dates_as_text str_of_cell df)
               (loaded_disk items d)) in *.
  destruct (update_user_balance_run float_of_str username amount (heal_items items)
              (heal_record username record) p3 c b d1 l u tr1) as [tr2 Hup].
  { unfold d1. rewrite stored_registry_table by done. apply loaded_disk_registry. }
  { by apply heal_items_records. }
  { by rewrite heal_items_get, Hget. }
  { by rewrite balance_path_healed. }
  { done. }
  { unfold d1. rewrite written_table_other; [| congruence | by apply private_not_tmp].
    by apply loaded_disk_present. }
  { done. }
  eexists _, _, _, _. split; [exact Hsave|]. split; [exact Hup|].
  split; [|split].
  - rewrite written_disk_other; [| done | by apply private_not_tmp].
    apply loaded_disk_present; [done|]. apply loaded_disk_present; [done|].
    apply written_table_target.
  - apply written_disk_target.
  - intros p kept Hp Hn1 Hn3 Hkept.
    rewrite written_disk_other; [| done | by apply private_not_tmp].
    apply loaded_disk_present; [done|]. apply loaded_disk_present; [done|].
    unfold d1. rewrite written_table_other; [| done | by apply private_not_tmp].
    by apply loaded_disk_present.
Qed.

(** An expense without description, with an amount that is not
    above zero, or with an amount above the balance shown is turned away
    with an error: nothing is written, logged or added to the table. *)
Theorem add_expense_rejects (username : string) (categories : json)
    (expenses_df : dataframe) (current_balance : float) (date : cell)
    (description : string) (amount : float) (category new_category_name : string)
    (w : world) :
  description = EmptyString ∨
  (amount <=? 0)%float = true ∨
  (current_balance <? amount)%float = true →
  ∃ msg,
    add_expense float_of_str str_of_cell username categories expenses_df
      current_balance date description amount category new_category_name w =
    (Ok expenses_df, World (fs w) (log w) (Error msg :: ui w) (faults w) (trace w)).
Proof.
  intros Hbad. unfold add_expense.
  destruct (bool_decide (description = EmptyString)) eqn:Hd; [by eexists|].
  destruct (amount <=? 0)%float eqn:Ha; [by eexists|].
  destruct (current_balance <? amount)%float eqn:Hb; [by eexists|].
  apply bool_decide_eq_false in Hd. by destruct Hbad as [? | [? | ?]].
Qed.

(** X21: an expense that passes the checks is committed: the table of
    the session gets the new row, the journal file holds that table, the
    stored balance is the old one minus the amount, a category that was
    not known is added to the category file with no keywords, and
    success is shown. *)
Theorem add_expense_commits (username : string) (cats : list (string * json))
    (expenses_df : dataframe) (current_balance : float) (date : cell)
    (description : string) (amount : float) (category new_category_name : string)
    (w : world) (items : list (string * json)) (record : json)
    (p1 p2 p3 : string) (c : content) (b : float) :
  faults w = [] →
  stored_registry (fs w) = Some items →
  Forall is_record items →
  Dict.get items username = Some record →
  file_path record "data_file" = Some p1 →
  file_path record "categories_file" = Some p2 →
  balance_path username record = Some p3 →
  private_path p1 → private_path p2 → private_path p3 →
  p1 ≠ p2 → p1 ≠ p3 → p2 ≠ p3 →
  fs w !! p3 = Some c →
  stored_balance float_of_str c = Some b →
  description ≠ EmptyString →
  (amount <=? 0)%float = false →
  (current_balance <? amount)%float = false →
  final_category category new_category_name ≠ "Add new category..." →
  final_category category new_category_name ≠ EmptyString →
  let chosen := final_category category new_category_name in
  let table := concat_row expenses_df (new_expense date description chosen amount) in
  ∃ w',
    add_expense float_of_str str_of_cell username (JDict cats) expenses_df
      current_balance date description amount category new_category_name w =
      (Ok table, w') ∧
    ui w' = Success "Expense added successfully!" :: ui w ∧
    fs w' !! p1 = Some (Csv (dates_as_text str_of_cell table)) ∧
    fs w' !! p3 = Some (Json (balance_doc (b + - amount))) ∧
    (Dict.get cats chosen = None →
       fs w' !! p2 = Some (Json (JDict (Dict.set cats chosen (JList []))))).
Proof.
  destruct w as [f l u fl tr]. cbn [fs ui faults].
  intros -> Hreg Hall Hget H1 H2 H3 Hp1 Hp2 Hp3 H12 H13 H23 Hc Hb Hd Ha Hbal Hf1 Hf2.
  cbv zeta.
  set (chosen := final_category category new_category_name) in *.
  set (table := concat_row expenses_df (new_expense date description chosen amount)).
  pose proof (records_get _ _ _ Hall Hget) as Hrec.
  unfold add_expense.
  rewrite bool_decide_eq_false_2 by done. rewrite Ha, Hbal.
  fold chosen. rewrite !bool_decide_eq_false_2 by done. cbn [orb].
  rewrite run_bind, run_lift. cbn [py_in]. cbv beta iota.
  fold table. unfold Dict.mem.
  destruct (Dict.get cats chosen) as [kw|] eqn:Hknown;
    cbn [bool_decide decide_rel is_Some_dec negb].
  - rewrite run_bind, run_ret. cbv beta iota.
    destruct (commit_run username table (- amount)%float items record p1 p3 c b
                f l u tr) as (tr1 & tr2 & d1 & d2 & Hsave & Hup & Hd1 & Hd3 & _);
      try done.
    rewrite run_bind, Hsave. cbv beta iota.
    rewrite run_bind, Hup. cbv beta iota.
    eexists. split; [reflexivity|]. cbn [ui fs]. by repeat split.
  - destruct (save_user_categories_run username (JDict (Dict.set cats chosen (JList [])))
                items f l u tr Hreg Hall) as [trA Hcat].
    rewrite Hget in Hcat.
    destruct (file_path_item _ _ _ H2) as (n2 & Hi2 & ->).
    rewrite Hi2 in Hcat.
    set (dA := written_disk (user_path n2) (JDict (Dict.set cats chosen (JList [])))
                 (loaded_disk items f)) in *.
    destruct (commit_run username table (- amount)%float (heal_items items)
                (heal_record username record) p1 p3 c b dA l u trA)
      as (tr1 & tr2 & d1 & d2 & Hsave & Hup & Hd1 & Hd3 & Hkept).
    { unfold dA. rewrite stored_registry_written by done. apply loaded_disk_registry. }
    { by apply heal_items_records. }
    { by rewrite heal_items_get, Hget. }
    { by rewrite file_path_healed. }
    { by rewrite balance_path_healed. }
    { done. }
    { done. }
    { done. }
    { unfold dA. rewrite written_disk_other; [| congruence | by apply private_not_tmp].
      by apply loaded_disk_present. }
    { done. }
    rewrite run_bind, run_bind, run_lift. cbn [py_setitem]. cbv beta iota.
    rewrite run_bind, Hcat. cbv beta iota. rewrite run_ret. cbv beta iota.
    rewrite run_bind, Hsave. cbv beta iota.
    rewrite run_bind, Hup. cbv beta iota.
    eexists. split; [reflexivity|]. cbn [ui fs].
    split; [done|]. split; [done|]. split; [done|].
    intros _. apply Hkept; [done | congruence | done |].
    unfold dA. apply written_disk_target.
Qed.

End Expenses.

(** ** The further statements on concrete input *)

Lemma home_registered :
  stored_registry (fs (world_of alice_home [])) = Some [("alice", alice_record)].
Proof. vm_compute. reflexivity. Defined.

Lemma alice_data_path :
  file_path alice_record "data_file" = Some "data/users/user_alice_data.csv".
Proof. vm_compute. reflexivity. Defined.

Lemma alice_categories_path :
  file_path alice_record "categories_file" = Some "data/users/user_alice_categories.json".
Proof. vm_compute. reflexivity. Defined.

Lemma alice_categories_private : private_path "data/users/user_alice_categories.json".
Proof. split; [discriminate | vm_compute; reflexivity]. Defined.

Lemma safe_json_write_read_witness :
  ∃ w1 w2,
    safe_json_write "data/users/user_alice_balance.json" (balance_doc 7)
      (world_of alice_disk []) = (Ok true, w1) ∧
    safe_json_read "data/users/user_alice_balance.json" JNull w1 = (Ok (balance_doc 7), w2).
Proof.
  exact (safe_json_write_read "data/users/user_alice_balance.json" (balance_doc 7) JNull
           (world_of alice_disk []) eq_refl).
Defined.

Lemma safe_json_write_frame_witness :
  let w := world_of alice_disk [false; false; true] in
  let run := safe_json_write "data/users/user_alice_balance.json" (balance_doc 7) w in
  fs run.2 !! "data/users.json" = fs w !! "data/users.json".
Proof.
  intros w run.
  destruct (safe_json_write_frame "data/users/user_alice_balance.json" (balance_doc 7) w
              run.1 run.2 "data/users.json") with (f := fs run.2) as [Hin | Hsame].
  - vm_compute. reflexivity.
  - discriminate.
  - discriminate.
  - apply list_elem_of_here.
  - change (trace w) with (@nil (gmap string content)) in Hin.
    destruct (proj1 (elem_of_nil _) Hin).
  - exact Hsame.
Defined.

Lemma safe_json_write_reports_witness :
  let w := world_of alice_disk [false; false; true] in
  let run := safe_json_write "data/users/user_alice_balance.json" (balance_doc 7) w in
  fs run.2 !! "data/users/user_alice_balance.json.tmp" = None.
Proof.
  intros w run.
  destruct (safe_json_write_reports "data/users/user_alice_balance.json" (balance_doc 7) w
              run.1 run.2) as [Hgone _].
  - vm_compute. reflexivity.
  - vm_compute. lia.
  - exact Hgone.
Defined.

Lemma ensure_directory_exists_safe_witness :
  ∃ b w', ensure_directory_exists (world_of alice_disk [true]) = (Ok b, w') ∧
          fs w' = fs (world_of alice_disk [true]).
Proof.
  destruct (ensure_directory_exists_safe (world_of alice_disk [true]))
    as (b & w' & Hrun & Hkeep & _).
  exists b, w'. split; [exact Hrun|]. apply Hkeep. vm_compute. by eexists.
Defined.

Lemma load_users_idempotent_witness :
  ∃ users w1 w2,
    load_users (world_of legacy_disk []) = (Ok users, w1) ∧
    load_users w1 = (Ok users, w2) ∧ fs w2 = fs w1.
Proof.
  apply (load_users_idempotent (world_of legacy_disk []) [("old", legacy_record)]).
  - reflexivity.
  - vm_compute. reflexivity.
  - repeat constructor. by eexists.
Defined.

Lemma load_users_keeps_fields_witness :
  ∃ items' w' fields',
    load_users (world_of legacy_disk []) = (Ok (JDict items'), w') ∧
    Dict.get items' "old" = Some (JDict fields') ∧
    Dict.get fields' "password_hash" = Some (JStr "digest:old").
Proof.
  destruct (load_users_keeps_fields (world_of legacy_disk []) [("old", legacy_record)])
    as (items' & w' & Hload & _ & Hkeep & _).
  - reflexivity.
  - vm_compute. reflexivity.
  - repeat constructor. by eexists.
  - destruct (Hkeep "old" [("password_hash", JStr "digest:old")] "password_hash"
                (JStr "digest:old") eq_refl eq_refl) as (fields' & Hget & Hfield).
    exists items', w', fields'. split; [exact Hload|]. split; [exact Hget | exact Hfield].
Defined.

Lemma save_user_creates_witness :
  ∃ w' items',
    save_user sample_digest "bob" "pw2" (world_of alice_disk []) = (Ok true, w') ∧
    stored_registry (fs w') = Some items' ∧
    Dict.get items' "bob" = Some (account_record sample_digest "bob" "pw2") ∧
    fs w' !! user_path (balance_name "bob") = Some (Json (balance_doc 0)).
Proof.
  destruct (save_user_creates sample_digest "bob" "pw2" (world_of alice_disk [])
              [("alice", alice_record)] eq_refl alice_registered alice_records)
    as (w' & items' & Hrun & Hreg & Hget & _ & _ & _ & Hbal).
  exists w', items'. split; [exact Hrun|]. split; [exact Hreg|].
  split; [exact Hget | exact Hbal].
Defined.

Lemma get_user_balance_after_save_user_witness :
  ∃ w1 w2,
    save_user sample_digest "bob" "pw2" (world_of alice_disk []) = (Ok true, w1) ∧
    get_user_balance sample_float_of_str "bob" w1 = (Ok 0%float, w2).
Proof.
  exact (get_user_balance_after_save_user sample_float_of_str sample_digest "bob" "pw2"
           (world_of alice_disk []) [("alice", alice_record)]
           eq_refl alice_registered alice_records).
Defined.

Lemma login_accepts_witness :
  ∃ w', login sample_digest "alice" "pw1" (world_of alice_disk []) = (Ok true, w').
Proof.
  destruct (login_accepts sample_digest "alice" "pw1" (world_of alice_disk [])
              [("alice", alice_record)] eq_refl alice_registered alice_records)
    as [_ Hknown].
  destruct (Hknown _ "digest:pw1" eq_refl eq_refl) as [w' Hrun].
  exists w'. exact Hrun.
Defined.

Lemma login_after_save_user_witness :
  ∃ w1 w2 w3,
    save_user sample_digest "bob" "pw2" (world_of alice_disk []) = (Ok true, w1) ∧
    login sample_digest "bob" "pw2" w1 = (Ok true, w2) ∧
    login sample_digest "bob" "guess" w1 = (Ok false, w3).
Proof.
  destruct (login_after_save_user sample_digest "bob" "pw2" "guess"
              (world_of alice_disk []) [("alice", alice_record)]
              eq_refl alice_registered alice_records)
    as (w1 & w2 & w3 & Hsave & Hown & Hother).
  exists w1, w2, w3. split; [exact Hsave|]. split; [exact Hown | exact Hother].
Defined.

Lemma load_user_categories_lenient_witness :
  ∃ w', load_user_categories ∅ true "alice" (world_of alice_home []) =
          (Ok (default_categories, <["alice" := (default_categories, [])]> ∅), w').
Proof.
  destruct (load_user_categories_lenient "alice" (world_of alice_home [])
              [("alice", alice_record)] ∅ true eq_refl home_registered alice_records)
    as [_ Hmiss].
  destruct (Hmiss eq_refl) as [_ Hknown].
  destruct (Hknown alice_record _ eq_refl alice_categories_path alice_categories_private)
    as (Hstored & _ & _).
  apply Hstored. vm_compute. reflexivity.
Defined.

Lemma save_user_categories_round_trip_witness :
  ∃ w1 w2,
    save_user_categories "alice" other_only (world_of alice_home []) = (Ok true, w1) ∧
    load_user_categories ∅ true "alice" w1 =
      (Ok (other_only, <["alice" := (other_only, [])]> ∅), w2).
Proof.
  destruct (save_user_categories_round_trip "alice" other_only (world_of alice_home [])
              [("alice", alice_record)] ∅ true eq_refl home_registered alice_records)
    as [Hknown _].
  destruct (Hknown alice_record _ eq_refl alice_categories_path alice_categories_private)
    as (w1 & Hsave & Hmiss & _).
  destruct (Hmiss eq_refl) as [w2 Hload].
  exists w1, w2. split; [exact Hsave | exact Hload].
Defined.

(** A load, a save and a load within the hour: the second load is
    answered from the cache and returns the categories from before the
    save, while the file holds the saved ones. *)
Example load_user_categories_after_save :
  let first := load_user_categories ∅ true "alice" (world_of alice_home []) in
  let saved := save_user_categories "alice" other_only first.2 in
  ∃ cache,
    first.1 = Ok (default_categories, cache) ∧
    saved.1 = Ok true ∧
    fs saved.2 !! "data/users/user_alice_categories.json" = Some (Json other_only) ∧
    (load_user_categories cache true "alice" saved.2).1 = Ok (default_categories, cache) ∧
    (load_user_categories ∅ true "alice" saved.2).1 =
      Ok (other_only, <["alice" := (other_only, [])]> ∅).
Proof.
  cbv zeta. eexists.
  split; [vm_compute; reflexivity|].
  split; [vm_compute; reflexivity|].
  split; [vm_compute; reflexivity|].
  split; vm_compute; reflexivity.
Qed.

Lemma close_account_removes_witness :
  ∃ w' w'',
    close_account "alice" (world_of alice_home []) = (Ok tt, w') ∧
    fs w' !! "data/users/user_alice_balance.json" = None ∧
    stored_registry (fs w') = Some [] ∧
    get_user_balance sample_float_of_str "alice" w' = (Ok 0%float, w'').
Proof.
  destruct (close_account_removes sample_float_of_str "alice" (world_of alice_home [])
              [("alice", alice_record)] alice_record
              "data/users/user_alice_data.csv" "data/users/user_alice_categories.json"
              "data/users/user_alice_balance.json"
              eq_refl home_registered alice_records)
    as (w' & w'' & items' & Hrun & _ & _ & Hgone & Hreg & Hnone & Hothers & Hbal).
  - apply NoDup_singleton.
  - reflexivity.
  - exact alice_data_path.
  - exact alice_categories_path.
  - exact alice_balance_path.
  - exact alice_data_private.
  - exact alice_categories_private.
  - exact alice_balance_private.
  - exists w', w''. split; [exact Hrun|]. split; [exact Hgone|]. split; [|exact Hbal].
    rewrite Hreg. f_equal.
    destruct items' as [|[k v] rest]; [reflexivity|].
    destruct (decide (k = "alice")) as [->|Hk].
    + cbn in Hnone. by rewrite decide_True in Hnone.
    + specialize (Hothers k Hk). cbn in Hothers.
      rewrite decide_True in Hothers by done. rewrite decide_False in Hothers by done.
      discriminate Hothers.
Defined.

Lemma delete_financial_data_resets_witness :
  ∃ w' w'',
    delete_financial_data "alice" (world_of alice_home []) = (Ok tt, w') ∧
    fs w' !! "data/users/user_alice_data.csv" = Some (Csv (empty_frame journal_columns)) ∧
    get_user_balance sample_float_of_str "alice" w' = (Ok 0%float, w'').
Proof.
  destruct (delete_financial_data_resets sample_float_of_str "alice"
              (world_of alice_home []) [("alice", alice_record)] alice_record
              "data/users/user_alice_data.csv" "data/users/user_alice_balance.json"
              eq_refl home_registered alice_records eq_refl alice_data_path
              alice_balance_path alice_data_private alice_balance_private)
    as (w' & w'' & Hrun & Hdata & _ & Hbal).
  - discriminate.
  - exists w', w''. split; [exact Hrun|]. split; [exact Hdata | exact Hbal].
Defined.

Lemma update_user_balance_frame_witness :
  ∃ w',
    update_user_balance sample_float_of_str "alice" 5%float (world_of alice_home []) =
      (Ok true, w') ∧
    fs w' !! "data/users/user_alice_data.csv" = Some (Csv alice_journal).
Proof.
  apply (update_user_balance_frame sample_float_of_str "alice" 5%float
           (world_of alice_home []) [("alice", alice_record)] alice_record
           "data/users/user_alice_balance.json" (Json (balance_doc 500)) 500%float
           "data/users/user_alice_data.csv" (Csv alice_journal)
           eq_refl home_registered alice_records eq_refl alice_balance_path
           alice_balance_private).
  - vm_compute. reflexivity.
  - vm_compute. reflexivity.
  - exact alice_data_private.
  - discriminate.
  - vm_compute. reflexivity.
Defined.

Lemma update_user_balance_twice_witness :
  ∃ w1 w2 w3,
    update_user_balance sample_float_of_str "alice" 100%float (world_of alice_home []) =
      (Ok true, w1) ∧
    update_user_balance sample_float_of_str "alice" (-40)%float w1 = (Ok true, w2) ∧
    get_user_balance sample_float_of_str "alice" w2 = (Ok (500 + 100 + -40)%float, w3).
Proof.
  apply (update_user_balance_twice sample_float_of_str "alice" 100%float (-40)%float
           (world_of alice_home []) [("alice", alice_record)] alice_record
           "data/users/user_alice_balance.json" (Json (balance_doc 500)) 500%float
           eq_refl home_registered alice_records eq_refl alice_balance_path
           alice_balance_private).
  - vm_compute. reflexivity.
  - vm_compute. reflexivity.
Defined.

Lemma categorize_expense_empty_keyword_witness :
  categorize_expense sample_lower "anything at all"
    ([("Food", ["lunch"])] ++ ("Misc", [EmptyString]) :: [("Bills", ["water"])])
    ∈ ([("Food", ["lunch"])] ++ [("Misc", [EmptyString])]).*1.
Proof.
  apply (categorize_expense_empty_keyword sample_lower "anything at all"
           [("Food", ["lunch"])] [("Bills", ["water"])] "Misc" [EmptyString]).
  - reflexivity.
  - apply list_elem_of_here.
Defined.

Lemma journal_cache_empty : journal_cache ∅.
Proof. intros username kept shown Hkept. by rewrite lookup_empty in Hkept. Defined.

Lemma load_user_data_schema_witness :
  ∃ out cache' w',
    load_user_data sample_dates sample_read_table ∅ true "alice" (world_of alice_home []) =
      (Ok (out, cache'), w') ∧
    has_column out "Amount" = true ∧
    journal_cache cache'.
Proof.
  destruct (load_user_data_schema sample_dates sample_read_table "alice"
              (world_of alice_home []) [("alice", alice_record)] ∅ true
              eq_refl home_registered alice_records)
    as (out & cache' & w' & Hrun & Hcols & Hcache).
  - intros record Hget. injection Hget as <-. by exists "user_alice_data.csv".
  - exact journal_cache_empty.
  - exists out, cache', w'. split; [exact Hrun|]. split; [|exact Hcache].
    apply Hcols. do 3 apply list_elem_of_further. apply list_elem_of_here.
Defined.

Lemma save_user_data_writes_witness :
  ∃ w' saved,
    save_user_data sample_str_of_cell "alice" alice_journal (world_of alice_home []) =
      (Ok true, w') ∧
    fs w' !! "data/users/user_alice_data.csv" = Some (Csv saved) ∧
    height saved = 1%nat.
Proof.
  destruct (save_user_data_writes sample_str_of_cell "alice" alice_journal
              (world_of alice_home []) [("alice", alice_record)]
              eq_refl home_registered alice_records) as [Hknown _].
  destruct (Hknown alice_record _ eq_refl alice_data_path)
    as (w' & saved & Hrun & Hfile & _ & Hheight & _).
  exists w', saved. split; [exact Hrun|]. split; [exact Hfile | exact Hheight].
Defined.

Lemma add_expense_commits_witness :
  ∃ w',
    add_expense sample_float_of_str sample_str_of_cell "alice"
      default_categories alice_journal 500%float (CDate (Date 2024 1 5))
      "uber ride" 40%float "Transport" EmptyString (world_of alice_home []) =
      (Ok (concat_row alice_journal
             (new_expense (CDate (Date 2024 1 5)) "uber ride" "Transport" 40)), w') ∧
    fs w' !! "data/users/user_alice_balance.json" = Some (Json (balance_doc (500 + - 40))).
Proof.
  destruct (add_expense_commits sample_float_of_str sample_str_of_cell "alice"
              [("Food", JList [JStr "grocery"; JStr "restaurant"; JStr "lunch"]);
               ("Transport", JList [JStr "uber"; JStr "taxi"; JStr "gas"]);
               ("Entertainment", JList [JStr "movie"; JStr "game"; JStr "concert"]);
               ("Bills", JList [JStr "electric"; JStr "water"; JStr "internet"])]
              alice_journal 500%float (CDate (Date 2024 1 5))
              "uber ride" 40%float "Transport" EmptyString (world_of alice_home [])
              [("alice", alice_record)] alice_record
              "data/users/user_alice_data.csv" "data/users/user_alice_categories.json"
              "data/users/user_alice_balance.json" (Json (balance_doc 500)) 500%float
              eq_refl home_registered alice_records eq_refl alice_data_path
              alice_categories_path alice_balance_path alice_data_private
              alice_categories_private alice_balance_private)
    as (w' & Hrun & _ & _ & Hbal & _).
  - discriminate.
  - discriminate.
  - discriminate.
  - vm_compute. reflexivity.
  - vm_compute. reflexivity.
  - discriminate.
  - vm_compute. reflexivity.
  - vm_compute. reflexivity.
  - vm_compute. discriminate.
  - vm_compute. discriminate.
  - exists w'. split; [exact Hrun | exact Hbal].
Defined.
